(** * wikiwatch: the revision archiver of [main.py]

    A shallow embedding of the archiver ([mwapi_query], the S3 helpers and
    [handle_revision]) as state-passing functions over an explicit world:
    a heap of Python dict objects, the S3 object store and the trace of
    external calls.  The remote wiki and the storage failures are the two
    parameters of the development. *)

From stdpp Require Import base option numbers list strings pretty gmap.
From Stdlib Require Import Ascii.

#[local] Set Warnings "-register-all".
#[local] Open Scope string_scope.
#[local] Open Scope list_scope.
#[local] Open Scope Z_scope.

(** ** Values *)

(** What [json.loads] hands to the program.  Floating point numbers are
    left out: MediaWiki sends identifiers as integers. *)
Inductive json :=
  | JNull
  | JBool (b : bool)
  | JInt (z : Z)
  | JStr (s : string)
  | JList (l : list json)
  | JDict (m : gmap string json).

(** A Python [dict] with [str] keys, used as a map. *)
Abbreviation pydict := (gmap string json).

(** The values that [{:08d}] accepts: [int], and [bool] which is a subclass
    of [int] in Python. *)
Inductive pyint :=
  | PInt (z : Z)
  | PBool (b : bool).

Definition int_of (n : pyint) : Z :=
  match n with
  | PInt z => z
  | PBool b => Z.b2z b
  end.

Definition json_of (n : pyint) : json :=
  match n with
  | PInt z => JInt z
  | PBool b => JBool b
  end.

(** [str(n)] *)
Definition py_str (n : pyint) : string :=
  match n with
  | PInt z => pretty z
  | PBool true => "True"
  | PBool false => "False"
  end.

(** [v == n] for a decoded value [v] and an integer [n]. *)
Definition py_eq_int (v : json) (n : pyint) : bool :=
  match v with
  | JInt z => bool_decide (z = int_of n)
  | JBool b => bool_decide (Z.b2z b = int_of n)
  | _ => false
  end.

(** ** String formatting *)

Fixpoint zeros (n : nat) : string :=
  match n with
  | O => ""
  | S n' => String "0" (zeros n')
  end.

(** [format(n, '08d')]: the sign, then zeros up to a total width of 8, then
    the decimal digits. *)
Definition py_format_08d (n : Z) : string :=
  let sign := if bool_decide (n < 0) then "-" else "" in
  let digits := pretty (Z.abs_N n) in
  sign +:+ zeros (8 - String.length sign - String.length digits) +:+ digits.

(** One entry of the configuration's [wikis] list. *)
Record wiki_config := WikiConfig {
  wiki_api : string;
  wiki_s3_bucket : string;
  wiki_s3_prefix : string;
  wiki_slots : option json
}.

Definition s3_key_for_revision_metadata
    (wiki : wiki_config) (pageid revid : pyint) : string :=
  wiki_s3_prefix wiki +:+ "page_" +:+ py_format_08d (int_of pageid)
    +:+ "/rev_" +:+ py_format_08d (int_of revid) +:+ ".yaml".

Definition s3_key_for_revision_content
    (wiki : wiki_config) (pageid revid : pyint) : string :=
  wiki_s3_prefix wiki +:+ "page_" +:+ py_format_08d (int_of pageid)
    +:+ "/rev_" +:+ py_format_08d (int_of revid) +:+ "_data.gz".

(** The specification's wording of the padded field: the decimal numeral of
    [n], with zeros in front up to 8 characters. *)
Definition zero_padded_8 (n : N) : string :=
  zeros (8 - String.length (pretty n)) +:+ pretty n.

(** Reading a decimal numeral back. *)
Definition digit_value (c : ascii) : option N :=
  let n := N_of_ascii c in
  if bool_decide (48 ≤ n < 58)%N then Some (n - 48)%N else None.

Fixpoint read_decimal (acc : N) (s : string) : option N :=
  match s with
  | EmptyString => Some acc
  | String c s' =>
      match digit_value c with
      | Some d => read_decimal (10 * acc + d) s'
      | None => None
      end
  end.

(** ** Outcomes *)

(** The exceptions the program can raise or let through. *)
Inductive exn :=
  | AssertionError
  | TypeError
  | KeyError
  | IndexError
  | ValueError
  | AttributeError
  | StopIteration
  | WikiError (payload : json)
  | RequestException
  | HTTPError (status : Z)
  | JSONDecodeError
  | ClientError (code : string).

(** A call returns, raises, or is still running when the fuel runs out
    (Python: the recursion limit, or a loop that does not end). *)
Inductive outcome (A : Type) :=
  | Ok (a : A)
  | Raise (e : exn)
  | OutOfFuel.
Arguments Ok {A} a.
Arguments Raise {A} e.
Arguments OutOfFuel {A}.

#[global] Instance outcome_ret : MRet outcome := λ A a, Ok a.
#[global] Instance outcome_bind : MBind outcome := λ A B f o,
  match o with
  | Ok a => f a
  | Raise e => Raise e
  | OutOfFuel => OutOfFuel
  end.

(** [assert b] *)
Definition py_assert (b : bool) : outcome unit :=
  if b then Ok () else Raise AssertionError.

(** ** Operations on decoded values *)

Definition is_substring (k s : string) : bool :=
  match String.index 0 k s with
  | Some _ => true
  | None => false
  end.

Definition is_str (k : string) (v : json) : bool :=
  match v with
  | JStr s => bool_decide (s = k)
  | _ => false
  end.

(** [k in v] for a string [k] *)
Definition py_contains (k : string) (v : json) : outcome bool :=
  match v with
  | JDict m => Ok (bool_decide (is_Some (m !! k)))
  | JList l => Ok (existsb (is_str k) l)
  | JStr s => Ok (is_substring k s)
  | _ => Raise TypeError
  end.

(** [v[k]] for a string [k] *)
Definition py_getitem (v : json) (k : string) : outcome json :=
  match v with
  | JDict m =>
      match m !! k with
      | Some x => Ok x
      | None => Raise KeyError
      end
  | _ => Raise TypeError
  end.

(** [v[0]] *)
Definition py_getitem_0 (v : json) : outcome json :=
  match v with
  | JList (x :: _) => Ok x
  | JList [] => Raise IndexError
  | JStr (String c _) => Ok (JStr (String c ""))
  | JStr "" => Raise IndexError
  | JDict _ => Raise KeyError
  | _ => Raise TypeError
  end.

(** [len(v)] *)
Definition py_len (v : json) : outcome nat :=
  match v with
  | JDict m => Ok (size m)
  | JList l => Ok (List.length l)
  | JStr s => Ok (String.length s)
  | _ => Raise TypeError
  end.

(** ** The world *)

(** What is stored under a key: the YAML dump of a metadata dict, or the
    gzip (level 9) of a text. *)
Record rev_metadata := RevMetadata {
  meta_pageid : json;
  meta_title : json;
  meta_url : json;
  meta_revid : json;
  meta_parentid : json;
  meta_user : json;
  meta_timestamp : json;
  meta_comment : json
}.

Inductive s3_body :=
  | YamlDump (value : rev_metadata)
  | Gzip (text : string).

(** External calls, oldest first.  [EvPut] is a [put_object] that stored
    its body, [EvPutFailed] one that S3 refused. *)
Inductive event :=
  | EvHead (bucket key : string)
  | EvPut (bucket key : string) (body : s3_body)
  | EvPutFailed (bucket key : string)
  | EvPost (endpoint : string) (params : pydict).

Definition loc := positive.

Record world := World {
  w_heap : gmap loc pydict;
  w_store : gmap (string * string) s3_body;
  w_trace : list event
}.

Definition clock (w : world) : nat := length (w_trace w).

Definition log (ev : event) (w : world) : world :=
  World (w_heap w) (w_store w) (w_trace w ++ [ev]).

(** ** The monad of the program: state and exceptions *)

Definition M (A : Type) : Type := world → outcome A * world.

#[global] Instance M_ret : MRet M := λ A a w, (Ok a, w).
#[global] Instance M_bind : MBind M := λ A B f m w,
  match m w with
  | (Ok a, w') => f a w'
  | (Raise e, w') => (Raise e, w')
  | (OutOfFuel, w') => (OutOfFuel, w')
  end.

Definition raise {A} (e : exn) : M A := λ w, (Raise e, w).
Definition out_of_fuel {A} : M A := λ w, (OutOfFuel, w).
Definition lift {A} (o : outcome A) : M A := λ w, (o, w).

(** [for x in l: body(x)] *)
Fixpoint for_each {A} (l : list A) (body : A → M unit) : M unit :=
  match l with
  | [] => mret ()
  | x :: l' => body x;; for_each l' body
  end.

(** ** Dict objects *)

Definition dict_get (l : loc) : M pydict :=
  λ w, (Ok (default ∅ (w_heap w !! l)), w).

(** [{...}] : a new dict object *)
Definition dict_new (d : pydict) : M loc :=
  λ w, let l := fresh (dom (w_heap w)) in
       (Ok l, World (<[l := d]> (w_heap w)) (w_store w) (w_trace w)).

(** [d.copy()] *)
Definition dict_copy (l : loc) : M loc :=
  d ← dict_get l; dict_new d.

Definition dict_put (l : loc) (d : pydict) : M unit :=
  λ w, (Ok (), World (<[l := d]> (w_heap w)) (w_store w) (w_trace w)).

(** [d[k] = v] *)
Definition dict_setitem (l : loc) (k : string) (v : json) : M unit :=
  d ← dict_get l; dict_put l (<[k := v]> d).

(** [d.update(other)]: the entries of [other] win. *)
Definition dict_update (l : loc) (other : pydict) : M unit :=
  d ← dict_get l; dict_put l (other ∪ d).

(** [d[k]] *)
Definition dict_getitem (l : loc) (k : string) : M json :=
  d ← dict_get l;
  match d !! k with
  | Some v => mret v
  | None => raise KeyError
  end.

(** [a + b] on strings *)
Definition py_add_str (v : json) (s : string) : outcome json :=
  match v with
  | JStr a => Ok (JStr (a +:+ s))
  | _ => Raise TypeError
  end.

(** ** The outside: the wiki and S3 *)

(** The decoded body of a reply of the query API, with the four top-level
    fields the program looks at.  The members of [query-continue] are kept
    in document order, which is the order Python iterates them in. *)
Record api_response := ApiResponse {
  resp_error : option json;
  resp_warnings : option json;
  resp_query : option json;
  resp_query_continue : option (list (string * pydict))
}.

(** [NoReply]: [requests.post] raises.  [Reply status body]: an HTTP
    response; [body] is [None] when it does not decode. *)
Inductive http_reply :=
  | NoReply
  | Reply (status : Z) (body : option api_response).

(** Ways S3 can fail a request other than by reporting a missing key. *)
Inductive s3_failure :=
  | AccessDenied
  | SlowDown
  | InternalError.

Definition failure_code (f : s3_failure) : string :=
  match f with
  | AccessDenied => "403"
  | SlowDown => "503"
  | InternalError => "500"
  end.

(** [not k.startswith('g')] *)
Definition not_generator_key (k : string) : bool :=
  negb (String.prefix "g" k).

(** The state of a generator object of [mwapi_query]: not started, stopped
    at the [yield] (with the locals that are still needed), or finished. *)
Inductive gen_pc :=
  | GenCreated
  | GenSuspended (base_params : loc) (j : api_response)
  | GenFinished.

Record generator := Generator {
  gen_endpoint : string;
  gen_params : loc;
  gen_state : gen_pc
}.

Section Archiver.

(** The wiki answers a request by the time it is made (the number of
    external calls so far), its endpoint and its parameters; S3 may fail
    the call made at a given time. *)
Context (remote : nat → string → pydict → http_reply).
Context (s3_fault : nat → option s3_failure).

(** *** S3 *)

Definition head_object (bucket key : string) : M unit := λ w,
  let w' := log (EvHead bucket key) w in
  match s3_fault (clock w) with
  | Some f => (Raise (ClientError (failure_code f)), w')
  | None =>
      if bool_decide (is_Some (w_store w !! (bucket, key)))
      then (Ok (), w')
      else (Raise (ClientError "404"), w')
  end.

Definition put_object (bucket key : string) (body : s3_body) : M unit := λ w,
  match s3_fault (clock w) with
  | Some f =>
      (Raise (ClientError (failure_code f)), log (EvPutFailed bucket key) w)
  | None =>
      (Ok (), World (w_heap w) (<[(bucket, key) := body]> (w_store w))
                    (w_trace w ++ [EvPut bucket key body]))
  end.

Definition s3_key_exists (bucket key : string) : M bool := λ w,
  match head_object bucket key w with
  | (Ok _, w') => (Ok true, w')
  | (Raise (ClientError code), w') =>
      if bool_decide (code = "404") then (Ok false, w')
      else (Raise (ClientError code), w')
  | (Raise e, w') => (Raise e, w')
  | (OutOfFuel, w') => (OutOfFuel, w')
  end.

Definition s3_key_for_revision_metadata_exists
    (wiki : wiki_config) (pageid revid : pyint) : M bool :=
  s3_key_exists (wiki_s3_bucket wiki)
    (s3_key_for_revision_metadata wiki pageid revid).

Definition s3_key_for_revision_content_exists
    (wiki : wiki_config) (pageid revid : pyint) : M bool :=
  s3_key_exists (wiki_s3_bucket wiki)
    (s3_key_for_revision_content wiki pageid revid).

Definition s3_put_revision_metadata
    (wiki : wiki_config) (pageid revid : pyint) (value : rev_metadata)
    : M unit :=
  put_object (wiki_s3_bucket wiki)
    (s3_key_for_revision_metadata wiki pageid revid) (YamlDump value).

(** [content.encode()] needs a [str]. *)
Definition s3_put_revision_content
    (wiki : wiki_config) (pageid revid : pyint) (content : json) : M unit :=
  match content with
  | JStr text =>
      put_object (wiki_s3_bucket wiki)
        (s3_key_for_revision_content wiki pageid revid) (Gzip text)
  | _ => raise AttributeError
  end.

(** *** The query client *)

(** [requests.post(endpoint, params=..., headers=req_headers)] *)
Definition send (endpoint : string) (d : pydict)
    : M (Z * option api_response) := λ w,
  match remote (clock w) endpoint d with
  | NoReply => (Raise RequestException, log (EvPost endpoint d) w)
  | Reply status body => (Ok (status, body), log (EvPost endpoint d) w)
  end.

Definition requests_post (endpoint : string) (params : loc)
    : M (Z * option api_response) :=
  d ← dict_get params; send endpoint d.

Definition raise_for_status (r : Z * option api_response) : M unit :=
  if bool_decide (400 ≤ r.1 < 600) then raise (HTTPError r.1) else mret ().

Definition response_json (r : Z * option api_response) : M api_response :=
  match r.2 with
  | Some j => mret j
  | None => raise JSONDecodeError
  end.

(** One request of the loop, up to the two checks on the reply. *)
Definition mwapi_request (endpoint : string) (base_params continue_params : loc)
    : M api_response :=
  current_params ← dict_copy base_params;
  c ← dict_get continue_params;
  dict_update current_params c;;
  r ← requests_post endpoint current_params;
  raise_for_status r;;
  j ← response_json r;
  match resp_error j with
  | Some e => raise (WikiError e)
  | None =>
      match resp_warnings j with
      | Some wn => raise (WikiError wn)
      | None => mret j
      end
  end.

(** The handling of [query-continue]: the new [continue_params]. *)
Definition resolve_continue (qc : list (string * pydict)) : M loc :=
  continue_params ← dict_new ∅;
  for_each qc (λ b1,
    for_each (map_to_list b1.2) (λ kv,
      if not_generator_key kv.1
      then dict_setitem continue_params kv.1 kv.2
      else mret ()));;
  d ← dict_get continue_params;
  (if bool_decide (size d = 0%nat)
   then for_each qc (λ b, dict_update continue_params b.2)
   else mret ());;
  mret continue_params.

(** The [while True] loop, run until the next [yield]: the fragment with
    the locals to keep, or [StopIteration] at the [break]. *)
Fixpoint mwapi_loop (fuel : nat) (endpoint : string)
    (base_params continue_params : loc) : M (json * (loc * api_response)) :=
  match fuel with
  | O => out_of_fuel
  | S fuel' =>
      j ← mwapi_request endpoint base_params continue_params;
      match resp_query j with
      | Some q => mret (q, (base_params, j))
      | None =>
          match resp_query_continue j with
          | Some qc =>
              continue_params' ← resolve_continue qc;
              mwapi_loop fuel' endpoint base_params continue_params'
          | None => raise StopIteration
          end
      end
  end.

(** Calling [mwapi_query] only makes the generator object. *)
Definition mwapi_query (endpoint : string) (params : loc) : generator :=
  Generator endpoint params GenCreated.

Definition gen_body (fuel : nat) (g : generator)
    : M (json * (loc * api_response)) :=
  match gen_state g with
  | GenCreated =>
      base_params ← dict_copy (gen_params g);
      dict_setitem base_params "action" (JStr "query");;
      dict_setitem base_params "format" (JStr "json");;
      dict_setitem base_params "rawcontinue" (JStr "");;
      dict_setitem base_params "maxlag" (JStr "1");;
      continue_params ← dict_new ∅;
      mwapi_loop fuel (gen_endpoint g) base_params continue_params
  | GenSuspended base_params j =>
      match resp_query_continue j with
      | Some qc =>
          continue_params ← resolve_continue qc;
          mwapi_loop fuel (gen_endpoint g) base_params continue_params
      | None => raise StopIteration
      end
  | GenFinished => raise StopIteration
  end.

(** [next(g)], with the generator after the call. *)
Definition gen_next (fuel : nat) (g : generator) (w : world)
    : outcome json * generator * world :=
  match gen_body fuel g w with
  | (Ok (q, (base_params, j)), w') =>
      (Ok q,
       Generator (gen_endpoint g) (gen_params g) (GenSuspended base_params j),
       w')
  | (Raise e, w') =>
      (Raise e, Generator (gen_endpoint g) (gen_params g) GenFinished, w')
  | (OutOfFuel, w') => (OutOfFuel, g, w')
  end.

Definition next (fuel : nat) (g : generator) : M json := λ w,
  ((gen_next fuel g w).1.1, (gen_next fuel g w).2).

(** Taking up to [n] fragments, as a [for] loop over the generator does. *)
Fixpoint consume (fuel n : nat) (g : generator) (w : world)
    : list json * world :=
  match n with
  | O => ([], w)
  | S n' =>
      match gen_next fuel g w with
      | (Ok q, g', w') =>
          let r := consume fuel n' g' w' in (q :: r.1, r.2)
      | (_, _, w') => ([], w')
      end
  end.

(** *** The archiver *)

(** Lines 205 to 222 of [handle_revision]: the assertions on the reply,
    giving [page] and [revision]. *)
Definition check_response (pageid revid : pyint) (result : json)
    : outcome (json * json) :=
  has ← py_contains "pages" result; py_assert has;;
  pages ← py_getitem result "pages";
  has ← py_contains (py_str pageid) pages; py_assert has;;
  n ← py_len pages; py_assert (bool_decide (n = 1%nat));;
  page ← py_getitem pages (py_str pageid);
  has ← py_contains "pageid" page; py_assert has;;
  page_pageid ← py_getitem page "pageid";
  py_assert (py_eq_int page_pageid pageid);;
  has ← py_contains "title" page; py_assert has;;
  has ← py_contains "fullurl" page; py_assert has;;
  has ← py_contains "revisions" page; py_assert has;;
  revisions ← py_getitem page "revisions";
  n ← py_len revisions; py_assert (bool_decide (n = 1%nat));;
  revision ← py_getitem_0 revisions;
  has ← py_contains "revid" revision; py_assert has;;
  revision_revid ← py_getitem revision "revid";
  py_assert (py_eq_int revision_revid revid);;
  has ← py_contains "parentid" revision; py_assert has;;
  has ← py_contains "user" revision; py_assert has;;
  has ← py_contains "timestamp" revision; py_assert has;;
  has ← py_contains "comment" revision; py_assert has;;
  mret (page, revision).

(** Lines 224 to 230: where the text of the revision is. *)
Definition revision_content (wiki : wiki_config) (revision : json)
    : outcome json :=
  match wiki_slots wiki with
  | Some _ =>
      slots ← py_getitem revision "slots";
      has ← py_contains "main" slots; py_assert has;;
      main ← py_getitem slots "main";
      has ← py_contains "*" main; py_assert has;;
      py_getitem main "*"
  | None =>
      has ← py_contains "*" revision; py_assert has;;
      py_getitem revision "*"
  end.

(** Lines 233 to 242: the dict that is dumped as metadata. *)
Definition metadata_value (page revision : json) (revid : pyint)
    (parentid : json) : outcome rev_metadata :=
  page_pageid ← py_getitem page "pageid";
  title ← py_getitem page "title";
  fullurl ← py_getitem page "fullurl";
  user ← py_getitem revision "user";
  timestamp ← py_getitem revision "timestamp";
  comment ← py_getitem revision "comment";
  mret (RevMetadata page_pageid title fullurl (json_of revid) parentid
          user timestamp comment).

(** A decoded value passed on as [revid]: it is compared with 0 and then
    goes through [{:08d}], which takes integers only. *)
Definition as_revid (v : json) : outcome pyint :=
  match v with
  | JInt z => Ok (PInt z)
  | JBool b => Ok (PBool b)
  | JStr _ => Raise ValueError
  | _ => Raise TypeError
  end.

(** Lines 190 to 204: the request for one revision, and whether its text
    was asked for. *)
Definition fetch_revision (fuel : nat) (wiki : wiki_config)
    (pageid revid : pyint) : M (bool * json) :=
  req_params ← dict_new
    {[ "prop" := JStr "revisions|info";
       "rvprop" := JStr "ids|user|timestamp|comment";
       "inprop" := JStr "url";
       "revids" := json_of revid ]};
  stored ← s3_key_for_revision_content_exists wiki pageid revid;
  let need_content := negb stored in
  (if need_content then
     rvprop ← dict_getitem req_params "rvprop";
     rvprop' ← lift (py_add_str rvprop "|content");
     dict_setitem req_params "rvprop" rvprop';;
     match wiki_slots wiki with
     | Some slots => dict_setitem req_params "rvslots" slots
     | None => mret ()
     end
   else mret ());;
  result ← next fuel (mwapi_query (wiki_api wiki) req_params);
  mret (need_content, result).

(** Lines 205 to 242: the reply is checked, the text is stored if it was
    asked for, then the ancestors are archived ([recurse] is the recursive
    call), then the metadata is stored. *)
Definition store_revision (recurse : pyint → M unit) (wiki : wiki_config)
    (pageid revid : pyint) (need_content : bool) (result : json) : M unit :=
  pr ← lift (check_response pageid revid result);
  let page := pr.1 in
  let revision := pr.2 in
  parentid ← lift (py_getitem revision "parentid");
  (if need_content then
     content ← lift (revision_content wiki revision);
     s3_put_revision_content wiki pageid revid content
   else mret ());;
  parent ← lift (as_revid parentid);
  recurse parent;;
  value ← lift (metadata_value page revision revid parentid);
  s3_put_revision_metadata wiki pageid revid value.

Fixpoint handle_revision (fuel : nat) (wiki : wiki_config)
    (pageid revid : pyint) : M unit :=
  match fuel with
  | O => out_of_fuel
  | S fuel' =>
      if bool_decide (int_of revid = 0) then mret () else
      archived ← s3_key_for_revision_metadata_exists wiki pageid revid;
      if archived : bool then mret () else
      nr ← fetch_revision fuel' wiki pageid revid;
      store_revision (handle_revision fuel' wiki pageid) wiki pageid revid
        nr.1 nr.2
  end.

(** Two calls one after the other. *)
Definition handle_revision_twice (fuel1 fuel2 : nat) (wiki : wiki_config)
    (pageid revid : pyint) : M unit :=
  handle_revision fuel1 wiki pageid revid;;
  handle_revision fuel2 wiki pageid revid.

End Archiver.

(** ** Vocabulary of the statements *)

Definition is_write (ev : event) : bool :=
  match ev with
  | EvPut _ _ _ | EvPutFailed _ _ => true
  | _ => false
  end.

Definition is_post (ev : event) : bool :=
  match ev with
  | EvPost _ _ => true
  | _ => false
  end.

Definition is_metadata_put (ev : event) : bool :=
  match ev with
  | EvPut _ _ (YamlDump _) => true
  | _ => false
  end.

(** From [w] to [w'] the store is the same and the calls made in between
    all satisfy [P]. *)
Definition only_calls (P : event → bool) (w w' : world) : Prop :=
  w_store w' = w_store w ∧
  ∃ evs, w_trace w' = w_trace w ++ evs ∧ Forall (λ ev, P ev = true) evs.

(** Every dict object of [w] is the same in [w']. *)
Definition heap_kept (w w' : world) : Prop :=
  ∀ l, is_Some (w_heap w !! l) → w_heap w' !! l = w_heap w !! l.

(** The same, but for the object at [l0]. *)
Definition heap_kept_but (l0 : loc) (w w' : world) : Prop :=
  ∀ l, l ≠ l0 → is_Some (w_heap w !! l) → w_heap w' !! l = w_heap w !! l.

(** A computation that relates every world to the one it leaves. *)
Definition respects (R : relation world) {A} (m : M A) : Prop :=
  ∀ w, R w (m w).2.

(** The parameters of a request: the four fixed ones on top of the
    caller's, the continuation on top of both. *)
Definition base_params_of (d : pydict) : pydict :=
  <["maxlag" := JStr "1"]> (<["rawcontinue" := JStr ""]>
    (<["format" := JStr "json"]> (<["action" := JStr "query"]> d))).

(** The continuation block in the words of the specification. *)
Definition second_level (qc : list (string * pydict)) (k : string) (v : json)
    : Prop :=
  ∃ b, b ∈ qc ∧ b.2 !! k = Some v.

Definition second_level_key (qc : list (string * pydict)) (k : string)
    : Prop :=
  ∃ v, second_level qc k v.

Definition some_plain_key (qc : list (string * pydict)) : Prop :=
  ∃ k, second_level_key qc k ∧ not_generator_key k = true.

(** The same selection as maps: later blocks win. *)
Definition plain_entries (qc : list (string * pydict)) : pydict :=
  foldl (λ acc b, filter (λ kv, not_generator_key kv.1 = true) b.2 ∪ acc) ∅ qc.

Definition all_entries (qc : list (string * pydict)) : pydict :=
  foldl (λ acc (b : string * pydict), b.2 ∪ acc) ∅ qc.

Definition continuation_of (qc : list (string * pydict)) : pydict :=
  if bool_decide (size (plain_entries qc) = 0%nat)
  then all_entries qc else plain_entries qc.

(** The exceptions that stand for the specification's [ProtocolError]:
    a failed assertion, or a reply that cannot be taken apart. *)
Definition ProtocolError (e : exn) : Prop :=
  e = AssertionError ∨ e = TypeError ∨ e = KeyError ∨ e = IndexError.

(** A reply to the request for one revision, as the specification asks:
    one page, with the asked id, holding one revision, with the asked id. *)
Definition single_revision_reply (pageid revid : pyint) (result : json)
    : Prop :=
  ∃ key page page_pageid revision revision_revid,
    py_getitem result "pages" = Ok (JDict {[ key := page ]}) ∧
    py_getitem page "pageid" = Ok page_pageid ∧
    py_eq_int page_pageid pageid = true ∧
    py_getitem page "revisions" = Ok (JList [revision]) ∧
    py_getitem revision "revid" = Ok revision_revid ∧
    py_eq_int revision_revid revid = true.

(** The write of the metadata of a revision. *)
Definition metadata_put (wiki : wiki_config) (pageid : pyint)
    (rm : pyint * rev_metadata) : event :=
  EvPut (wiki_s3_bucket wiki)
    (s3_key_for_revision_metadata wiki pageid rm.1) (YamlDump rm.2).

(** A parent chain as a run records it, newest first: it starts at
    [revid], each entry is the metadata of its revision and names the next
    one as its parent, and it ends at the root or at a revision whose
    metadata is in the store [st]. *)
Inductive chain_from (wiki : wiki_config) (pageid : pyint)
    (st : gmap (string * string) s3_body)
    : pyint → list (pyint * rev_metadata) → Prop :=
  | chain_root revid :
      int_of revid = 0 →
      chain_from wiki pageid st revid []
  | chain_archived revid :
      int_of revid ≠ 0 →
      is_Some (st !! (wiki_s3_bucket wiki,
                      s3_key_for_revision_metadata wiki pageid revid)) →
      chain_from wiki pageid st revid []
  | chain_parent revid value parent rest :
      int_of revid ≠ 0 →
      st !! (wiki_s3_bucket wiki,
             s3_key_for_revision_metadata wiki pageid revid) = None →
      meta_revid value = json_of revid →
      as_revid (meta_parentid value) = Ok parent →
      chain_from wiki pageid st parent rest →
      chain_from wiki pageid st revid ((revid, value) :: rest).

(** What a call before any metadata write may be: a probe, a request, or
    the write of the text of a revision of the chain. *)
Definition descent_event (wiki : wiki_config) (pageid : pyint)
    (chain : list (pyint * rev_metadata)) (ev : event) : Prop :=
  match ev with
  | EvHead _ _ | EvPost _ _ => True
  | EvPut bucket key body =>
      ∃ rm text, rm ∈ chain ∧ bucket = wiki_s3_bucket wiki ∧
        key = s3_key_for_revision_content wiki pageid rm.1 ∧
        body = Gzip text
  | EvPutFailed _ _ => False
  end.

(** A write a run may make, given the store [st] it started from: under
    the key of a revision other than the root, and for a text only where
    none was stored. *)
Definition allowed_write (wiki : wiki_config) (pageid : pyint)
    (st : gmap (string * string) s3_body) (ev : event) : Prop :=
  match ev with
  | EvPut bucket key _ | EvPutFailed bucket key =>
      bucket = wiki_s3_bucket wiki ∧
      ∃ revid, int_of revid ≠ 0 ∧
        (key = s3_key_for_revision_metadata wiki pageid revid ∨
         (key = s3_key_for_revision_content wiki pageid revid ∧
          st !! (bucket, key) = None))
  | _ => True
  end.

(** The store only grows, and the calls made are allowed writes or reads. *)
Definition archives (wiki : wiki_config) (pageid : pyint) (w w' : world)
    : Prop :=
  (∀ k, is_Some (w_store w !! k) → is_Some (w_store w' !! k)) ∧
  ∃ evs, w_trace w' = w_trace w ++ evs ∧
         Forall (allowed_write wiki pageid (w_store w)) evs.

(** What one request of the loop comes to, given the reply to it. *)
Definition checked_reply (r : http_reply) : outcome api_response :=
  match r with
  | NoReply => Raise RequestException
  | Reply status body =>
      if bool_decide (400 ≤ status < 600) then Raise (HTTPError status)
      else match body with
           | None => Raise JSONDecodeError
           | Some j =>
               match resp_error j with
               | Some e => Raise (WikiError e)
               | None =>
                   match resp_warnings j with
                   | Some wn => Raise (WikiError wn)
                   | None => Ok j
                   end
               end
           end
  end.

(** The value of [k] in the last block of [qc] that has it. *)
Definition last_value (qc : list (string * pydict)) (k : string) (v : json)
    : Prop :=
  ∃ qc1 b qc2, qc = qc1 ++ b :: qc2 ∧ b.2 !! k = Some v ∧
               Forall (λ b', b'.2 !! k = None) qc2.

(** The payload of the [WikiError] a reply body asks for, if any. *)
Definition refusal (j : api_response) : option json :=
  match resp_error j with
  | Some e => Some e
  | None => resp_warnings j
  end.

(** The shape of a run that returns: reads and writes of texts first, then
    the metadata of the chain, oldest first. *)
Definition ancestors_first (wiki : wiki_config) (pageid revid : pyint)
    (w w' : world) : Prop :=
  ∃ calls chain,
    w_trace w' = w_trace w ++ calls
                   ++ (metadata_put wiki pageid <$> reverse chain) ∧
    Forall (descent_event wiki pageid chain) calls ∧
    chain_from wiki pageid (w_store w) revid chain.

(** Computations on dict objects leave the store and the trace alone. *)
Definition keeps_outside {A} (m : M A) : Prop :=
  ∀ w, w_store (m w).2 = w_store w ∧ w_trace (m w).2 = w_trace w.

(** One turn of the inner loop over a continuation block. *)
Definition plain_step (acc : pydict) (kv : string * json) : pydict :=
  if not_generator_key kv.1 then <[kv.1 := kv.2]> acc else acc.

(** A pure step that returns or raises one of the exceptions of a failed
    check. *)
Definition protocol_outcome {A} (o : outcome A) : Prop :=
  match o with
  | Ok _ => True
  | Raise e => ProtocolError e
  | OutOfFuel => False
  end.

(** [m'] does what [m] does wherever [m] does not run out of fuel. *)
Definition settled {A} (m m' : M A) : Prop :=
  ∀ w, (m w).1 ≠ OutOfFuel → m' w = m w.

(** ** A small wiki to run the program on *)

(** One page, number 5, whose revision [r] has parent [r - 1]; the text is
    sent when [rvprop] asks for it. *)
Definition example_revision (revid : Z) (with_content : bool) : json :=
  JDict ((if with_content then <["*" := JStr "text"]> else id)
    {[ "revid" := JInt revid; "parentid" := JInt (revid - 1);
       "user" := JStr "editor"; "timestamp" := JStr "2020-01-01T00:00:00Z";
       "comment" := JStr "" ]}).

Definition example_query (revid : Z) (with_content : bool) : json :=
  JDict {[ "pages" := JDict {[ "5" := JDict
    {[ "pageid" := JInt 5; "title" := JStr "Main Page";
       "fullurl" := JStr "https://wiki.example/Main_Page";
       "revisions" := JList [example_revision revid with_content] ]} ]} ]}.

Definition example_remote (time : nat) (endpoint : string) (params : pydict)
    : http_reply :=
  match params !! "revids", params !! "rvprop" with
  | Some (JInt revid), Some (JStr rvprop) =>
      Reply 200
        (Some (ApiResponse None None
                 (Some (example_query revid
                          (bool_decide
                             (rvprop = "ids|user|timestamp|comment|content"))))
                 None))
  | _, _ => NoReply
  end.

(** A wiki that answers every request with an error, and one that answers
    with no page at all. *)
Definition refusing_remote (time : nat) (endpoint : string) (params : pydict)
    : http_reply :=
  Reply 200 (Some (ApiResponse (Some (JStr "maxlag")) None None None)).

Definition empty_remote (time : nat) (endpoint : string) (params : pydict)
    : http_reply :=
  Reply 200 (Some (ApiResponse None None (Some (JDict ∅)) None)).

Definition no_fault (time : nat) : option s3_failure := None.

Definition example_wiki : wiki_config :=
  WikiConfig "https://wiki.example/api.php" "archive" "x/" None.

Definition empty_world : world := World ∅ ∅ [].

Definition example_metadata : rev_metadata :=
  RevMetadata (JInt 5) (JStr "Main Page")
    (JStr "https://wiki.example/Main_Page") (JInt 3) (JInt 2)
    (JStr "editor") (JStr "2020-01-01T00:00:00Z") (JStr "").

(** Revision 3 of page 5 is archived. *)
Definition archived_world : world :=
  World ∅
    {[ ("archive", "x/page_00000005/rev_00000003.yaml")
       := YamlDump example_metadata ]} [].

(** The text of revision 1 of page 5 is stored, its metadata is not. *)
Definition text_only_world : world :=
  World ∅ {[ ("archive", "x/page_00000005/rev_00000001_data.gz")
             := Gzip "text" ]} [].

(** The caller's dict of a paged query. *)
Definition caller_world : world :=
  World {[ 1%positive := {[ "generator" := JStr "allpages" ]} ]} ∅ [].

(** ** The entry point *)


(** Lines 96 to 101: what is taken from one page of a fragment, the page id
    and the id of its one revision. *)
Definition check_page (page : json) : outcome (json * json) :=
  has ← py_contains "pageid" page; py_assert has;;
  has ← py_contains "revisions" page; py_assert has;;
  revisions ← py_getitem page "revisions";
  n ← py_len revisions; py_assert (bool_decide (n = 1%nat));;
  revision ← py_getitem_0 revisions;
  has ← py_contains "revid" revision; py_assert has;;
  pageid ← py_getitem page "pageid";
  revid ← py_getitem revision "revid";
  mret (pageid, revid).

Section Handler.

Context (remote : nat → string → pydict → http_reply).
Context (s3_fault : nat → option s3_failure).

(** The order in which [items()] lists the entries of a decoded object is
    that of the document, which the decoded value does not keep: it is
    given from outside, by the time of the call. *)
Context (items_order : nat → pydict → list (string * json)).

(** [v.items()] *)
Definition py_items (v : json) : M (list (string * json)) :=
  match v with
  | JDict m => λ w, (Ok (items_order (clock w) m), w)
  | _ => raise AttributeError
  end.

(** [handle_revision(wiki, pageid, revid)] on decoded values: [revid == 0]
    is tested first; then the key is formatted, the page id before the
    revision id, and [{:08d}] takes integers only. *)
Definition handle_revision_of (fuel : nat) (wiki : wiki_config)
    (pageid revid : json) : M unit :=
  if py_eq_int revid (PInt 0) then mret () else
  p ← lift (as_revid pageid);
  r ← lift (as_revid revid);
  handle_revision remote s3_fault fuel wiki p r.

(** Lines 96 to 101: one page of a fragment. *)
Definition handle_page (fuel : nat) (wiki : wiki_config) (page : json)
    : M unit :=
  pr ← lift (check_page page);
  handle_revision_of fuel wiki pr.1 pr.2.

(** Lines 94 to 101: one fragment. *)
Definition handle_result (fuel : nat) (wiki : wiki_config) (result : json)
    : M unit :=
  has ← lift (py_contains "pages" result); lift (py_assert has);;
  pages ← lift (py_getitem result "pages");
  items ← py_items pages;
  for_each items (λ kv, handle_page fuel wiki kv.2).

(** [for result in g: body(result)]: the loop ends when [next(g)] raises
    [StopIteration]; what the body raises is not caught. *)
Fixpoint for_each_fragment (fuel : nat) (g : generator)
    (body : json → M unit) : M unit :=
  match fuel with
  | O => out_of_fuel
  | S fuel' => λ w,
      match gen_next remote fuel' g w with
      | (Ok q, g', w') => (body q;; for_each_fragment fuel' g' body) w'
      | (Raise StopIteration, _, w') => (Ok (), w')
      | (Raise e, _, w') => (Raise e, w')
      | (OutOfFuel, _, w') => (OutOfFuel, w')
      end
  end.

(** Lines 91 to 101: one source of a wiki. *)
Definition handle_source (fuel : nat) (wiki : wiki_config) (source : pydict)
    : M unit :=
  params ← dict_new {[ "prop" := JStr "revisions"; "rvprop" := JStr "ids" ]};
  dict_update params source;;
  for_each_fragment fuel (mwapi_query (wiki_api wiki) params)
    (handle_result fuel wiki).


End Handler.

(** ** Vocabulary of the further statements *)

(** Every object of the store of [w] is in the store of [w'], unchanged. *)
Definition keeps_objects (w w' : world) : Prop :=
  ∀ k body, w_store w !! k = Some body → w_store w' !! k = Some body.

(** Every stored metadata of the page names a parent that is the root or
    whose metadata is stored too. *)
Definition parents_stored (wiki : wiki_config) (pageid : pyint)
    (st : gmap (string * string) s3_body) : Prop :=
  ∀ revid value parent,
    st !! (wiki_s3_bucket wiki,
           s3_key_for_revision_metadata wiki pageid revid)
    = Some (YamlDump value) →
    as_revid (meta_parentid value) = Ok parent →
    int_of parent ≠ 0 →
    is_Some (st !! (wiki_s3_bucket wiki,
                    s3_key_for_revision_metadata wiki pageid parent)).

(** Whether a string has a [/] in it. *)
Fixpoint has_slash (s : string) : bool :=
  match s with
  | EmptyString => false
  | String c s' => bool_decide (c = "/"%char) || has_slash s'
  end.

(** The parameters [handle_revision] starts from, and what they become when
    the text is asked for too. *)
Definition revision_params (revid : pyint) : pydict :=
  {[ "prop" := JStr "revisions|info";
     "rvprop" := JStr "ids|user|timestamp|comment";
     "inprop" := JStr "url";
     "revids" := json_of revid ]}.

Definition content_params (wiki : wiki_config) (revid : pyint) : pydict :=
  match wiki_slots wiki with
  | Some slots => <["rvslots" := slots]>
  | None => id
  end (<["rvprop" := JStr "ids|user|timestamp|comment|content"]>
         (revision_params revid)).

(** The trace of [w'] continues that of [w]. *)
Definition extends (w w' : world) : Prop :=
  ∃ evs, w_trace w' = w_trace w ++ evs.

(** A reply that sends the request loop round again: it is let through,
    carries no fragment, and names a continuation. *)
Definition passes_on (r : http_reply) : Prop :=
  ∃ j qc, checked_reply r = Ok j ∧ resp_query j = None ∧
          resp_query_continue j = Some qc.

(** A reply that ends a turn of the loop, with what the turn comes to. *)
Definition ends_with (r : http_reply)
    (o : outcome (json * (loc * api_response))) : Prop :=
  match checked_reply r with
  | Ok j =>
      match resp_query j with
      | Some q => ∃ base_params, o = Ok (q, (base_params, j))
      | None => resp_query_continue j = None ∧ o = Raise StopIteration
      end
  | Raise e => o = Raise e
  | OutOfFuel => False
  end.

(** The requests [ds] of one run of the loop from time [t], all to
    [endpoint]: all but the last are passed on, the last one ends the run
    with [o]. *)
Definition loop_requests (remote : nat → string → pydict → http_reply)
    (endpoint : string) (t : nat) (ds : list pydict)
    (o : outcome (json * (loc * api_response))) : Prop :=
  (∀ i d, ds !! i = Some d → (S i < List.length ds)%nat ∨ o = OutOfFuel →
          passes_on (remote (t + i)%nat endpoint d)) ∧
  (o ≠ OutOfFuel →
   ∃ ds' d, ds = ds' ++ [d] ∧
            ends_with (remote (t + List.length ds')%nat endpoint d) o).

(** A request that fails before the body of its reply is looked at: no
    reply, a status that [raise_for_status] refuses, or a body that does not
    decode; with the exception raised. *)
Definition transport_failure (r : http_reply) (e : exn) : Prop :=
  match r with
  | NoReply => e = RequestException
  | Reply status body =>
      if bool_decide (400 ≤ status < 600) then e = HTTPError status
      else body = None ∧ e = JSONDecodeError
  end.

(** Where the text of a revision is in its entry of a reply: under
    [slots], [main] for a wiki with slots, in the entry itself otherwise. *)
Definition text_of (wiki : wiki_config) (revision : json) (text : string)
    : Prop :=
  match wiki_slots wiki with
  | Some _ =>
      ∃ slots main,
        py_getitem revision "slots" = Ok slots ∧
        py_getitem slots "main" = Ok main ∧
        py_getitem main "*" = Ok (JStr text)
  | None => py_getitem revision "*" = Ok (JStr text)
  end.

(** A reply that describes revision [revid] of the page as the metadata
    [value] does, and gives [text] as its text: one page under the page id,
    with the id, the title and the URL, holding one revision, with the id,
    the parent, the user, the time and the comment. *)
Definition describes (wiki : wiki_config) (pageid revid : pyint)
    (value : rev_metadata) (text : option string) (result : json) : Prop :=
  ∃ page revision revision_revid,
    py_getitem result "pages" = Ok (JDict {[ py_str pageid := page ]}) ∧
    py_getitem page "pageid" = Ok (meta_pageid value) ∧
    py_eq_int (meta_pageid value) pageid = true ∧
    py_getitem page "title" = Ok (meta_title value) ∧
    py_getitem page "fullurl" = Ok (meta_url value) ∧
    py_getitem page "revisions" = Ok (JList [revision]) ∧
    py_getitem revision "revid" = Ok revision_revid ∧
    py_eq_int revision_revid revid = true ∧
    meta_revid value = json_of revid ∧
    py_getitem revision "parentid" = Ok (meta_parentid value) ∧
    py_getitem revision "user" = Ok (meta_user value) ∧
    py_getitem revision "timestamp" = Ok (meta_timestamp value) ∧
    py_getitem revision "comment" = Ok (meta_comment value) ∧
    match text with
    | Some t => text_of wiki revision t
    | None => True
    end.

(** What [store_revision] makes of a reply: the page and the revision it
    takes from it, the metadata it builds, and the text if it is needed. *)
Definition taken_from (wiki : wiki_config) (pageid revid : pyint)
    (value : rev_metadata) (text : option string) (result : json) : Prop :=
  ∃ page revision,
    check_response pageid revid result = Ok (page, revision) ∧
    py_getitem revision "parentid" = Ok (meta_parentid value) ∧
    metadata_value page revision revid (meta_parentid value) = Ok value ∧
    match text with
    | Some t => revision_content wiki revision = Ok (JStr t)
    | None => True
    end.

(** The wiki answers a request with these parameters, made at time [t],
    by a reply that is let through and carries the fragment [result]. *)
Definition answers (remote : nat → string → pydict → http_reply) (t : nat)
    (wiki : wiki_config) (params : pydict) (result : json) : Prop :=
  ∃ status j,
    remote t (wiki_api wiki) (base_params_of params) = Reply status (Some j) ∧
    ¬ (400 ≤ status < 600) ∧
    resp_error j = None ∧ resp_warnings j = None ∧
    resp_query j = Some result.

(** The wiki serves the revisions of a chain: whenever it is asked for one
    of them, with or without its text, it answers by a fragment that
    describes the revision as the chain does. *)
Definition serves (remote : nat → string → pydict → http_reply)
    (wiki : wiki_config) (pageid : pyint)
    (chain : list (pyint * rev_metadata)) : Prop :=
  ∀ (t : nat) (revid : pyint) (value : rev_metadata),
    (revid, value) ∈ chain →
    (∃ result text,
       answers remote t wiki (content_params wiki revid) result ∧
       describes wiki pageid revid value (Some text) result) ∧
    (∃ result,
       answers remote t wiki (revision_params revid) result ∧
       describes wiki pageid revid value None result).




(** A call that stays with the wiki: a request to its API endpoint, or a
    call to its bucket for a key under its prefix. *)
Definition within (wiki : wiki_config) (ev : event) : Prop :=
  match ev with
  | EvPost endpoint _ => endpoint = wiki_api wiki
  | EvHead bucket key | EvPutFailed bucket key | EvPut bucket key _ =>
      bucket = wiki_s3_bucket wiki ∧
      String.prefix (wiki_s3_prefix wiki) key = true
  end.

(** From [w] to [w'] every call made satisfies [P]. *)
Definition calls_all (P : event → Prop) (w w' : world) : Prop :=
  ∃ evs, w_trace w' = w_trace w ++ evs ∧ Forall P evs.


(** A write that agrees with its key: a text under the content key of a
    revision of the page, or a metadata under the metadata key of the
    revision it records, for the page it records. *)
Definition agrees_with_key (wiki : wiki_config) (pageid : pyint)
    (ev : event) : Prop :=
  match ev with
  | EvPut bucket key (YamlDump value) =>
      bucket = wiki_s3_bucket wiki ∧
      ∃ revid, int_of revid ≠ 0 ∧
        key = s3_key_for_revision_metadata wiki pageid revid ∧
        meta_revid value = json_of revid ∧
        py_eq_int (meta_pageid value) pageid = true
  | EvPut bucket key (Gzip _) =>
      bucket = wiki_s3_bucket wiki ∧
      ∃ revid, int_of revid ≠ 0 ∧
        key = s3_key_for_revision_content wiki pageid revid
  | _ => True
  end.

(** The dict of base parameters of a generator in its state: that of the
    caller with the fixed parameters for a new generator, the generator's
    own for a suspended one. *)
Definition gen_base (g : generator) (w : world) : pydict :=
  match gen_state g with
  | GenCreated => base_params_of (default ∅ (w_heap w !! gen_params g))
  | GenSuspended base_params _ => default ∅ (w_heap w !! base_params)
  | GenFinished => ∅
  end.

(** The dict of base parameters of a suspended generator is an object of
    the world (no dict object is ever deleted). *)
Definition gen_ready (g : generator) (w : world) : Prop :=
  match gen_state g with
  | GenSuspended base_params _ => is_Some (w_heap w !! base_params)
  | _ => True
  end.

(** ** Further examples *)

(** A wiki that is overloaded: it answers 503, with a body that would
    otherwise do. *)
Definition overloaded_remote (time : nat) (endpoint : string)
    (params : pydict) : http_reply :=
  Reply 503 (Some (ApiResponse None None (Some (JDict ∅)) None)).

(** The caller's dict of a request for revision 3. *)
Definition request_world : world :=
  World {[ 1%positive := revision_params (PInt 3) ]} ∅ [].

(** A wiki that answers with an empty body: no error, no fragment, no
    continuation. *)
Definition bare_remote (time : nat) (endpoint : string) (params : pydict)
    : http_reply :=
  Reply 200 (Some (ApiResponse None None None None)).


(** The metadata of revision [r] of page 5 of the example wiki, and the
    chain from revision 3 to the root. *)
Definition example_metadata_of (r : Z) : rev_metadata :=
  RevMetadata (JInt 5) (JStr "Main Page")
    (JStr "https://wiki.example/Main_Page") (JInt r) (JInt (r - 1))
    (JStr "editor") (JStr "2020-01-01T00:00:00Z") (JStr "").

Definition example_chain : list (pyint * rev_metadata) :=
  [(PInt 3, example_metadata_of 3); (PInt 2, example_metadata_of 2);
   (PInt 1, example_metadata_of 1)].

(** An order of the entries of an object: that of the keys. *)
Definition key_order (time : nat) (m : pydict) : list (string * json) :=
  map_to_list m.

(** A wiki that pages its answer: the first reply names a continuation,
    with a key of the list and a key of the generator; a request that
    carries the continuation gets the fragment. *)
Definition paging_block : list (string * pydict) :=
  [("allpages", {[ "apcontinue" := JStr "B"; "gapcontinue" := JStr "B" ]})].

Definition paging_remote (time : nat) (endpoint : string) (params : pydict)
    : http_reply :=
  match params !! "apcontinue" with
  | Some _ => Reply 200 (Some (ApiResponse None None (Some (JDict ∅)) None))
  | None => Reply 200 (Some (ApiResponse None None None (Some paging_block)))
  end.

(** A wiki that sends its answer in pieces: the first reply has a fragment
    and names the continuation; a request that carries the continuation
    gets the last fragment. *)
Definition chunked_remote (time : nat) (endpoint : string) (params : pydict)
    : http_reply :=
  match params !! "apcontinue" with
  | Some _ => Reply 200 (Some (ApiResponse None None (Some (JDict ∅)) None))
  | None =>
      Reply 200
        (Some (ApiResponse None None (Some (JDict ∅)) (Some paging_block)))
  end.

(** * Proofs *)

(** ** Strings and numerals *)

#[local] Arguments String.append !_ _ : simpl nomatch.

Lemma string_app_length (s t : string) :
  String.length (s +:+ t) = (String.length s + String.length t)%nat.
Proof. induction s as [|c s IH]; simpl; [done | by rewrite IH]. Qed.

Lemma string_app_inv_tail (s1 s2 t : string) :
  s1 +:+ t = s2 +:+ t → s1 = s2.
Proof.
  revert s2. induction s1 as [|c s1 IH]; intros [|d s2] H; simpl in *.
  - done.
  - apply (f_equal String.length) in H. simpl in H.
    rewrite string_app_length in H. lia.
  - apply (f_equal String.length) in H. simpl in H.
    rewrite string_app_length in H. lia.
  - injection H as -> H. f_equal. by apply IH.
Qed.

Lemma zeros_length (n : nat) : String.length (zeros n) = n.
Proof. induction n; simpl; congruence. Qed.

Lemma digit_value_char (d : N) :
  (d < 10)%N → digit_value (pretty_N_char d) = Some d.
Proof.
  intros Hd.
  assert (d = 0 ∨ d = 1 ∨ d = 2 ∨ d = 3 ∨ d = 4 ∨ d = 5 ∨ d = 6 ∨ d = 7
          ∨ d = 8 ∨ d = 9)%N as Hcases by lia.
  destruct Hcases as [->|[->|[->|[->|[->|[->|[->|[->|[->| ->]]]]]]]]];
    reflexivity.
Qed.

Lemma read_decimal_zeros (k : nat) (s : string) :
  read_decimal 0 (zeros k +:+ s) = read_decimal 0 s.
Proof. induction k as [|k IH]; simpl; [done | exact IH]. Qed.

Lemma read_decimal_go (x : N) :
  ∀ acc s, (0 < x)%N →
    ∃ k : N, read_decimal acc (pretty_N_go x s)
             = read_decimal (acc * 10 ^ k + x)%N s.
Proof.
  induction (N.lt_wf_0 x) as [x _ IH]. intros acc s Hx.
  rewrite pretty_N_go_step by done.
  destruct (decide (x `div` 10 = 0)%N) as [Hq|Hq].
  - rewrite Hq, pretty_N_go_0. simpl.
    rewrite digit_value_char by (apply N.mod_lt; lia).
    exists 1%N. f_equal. rewrite N.pow_1_r.
    pose proof (N.div_mod x 10 ltac:(lia)) as Hdm. rewrite Hq in Hdm. lia.
  - destruct (IH (x `div` 10)%N) with (acc := acc)
      (s := String (pretty_N_char (x `mod` 10)) s) as [k Hk].
    { apply N.div_lt; lia. }
    { by apply N.neq_0_lt_0. }
    rewrite Hk. simpl.
    rewrite digit_value_char by (apply N.mod_lt; lia).
    exists (k + 1)%N. f_equal.
    pose proof (N.div_mod x 10 ltac:(lia)) as Hdm.
    rewrite N.pow_add_r, N.pow_1_r.
    set (q := (x `div` 10)%N) in *. set (r := (x `mod` 10)%N) in *.
    set (p := (10 ^ k)%N). lia.
Qed.

Lemma read_decimal_pretty (n : N) : read_decimal 0 (pretty n) = Some n.
Proof.
  unfold pretty, pretty_N. case_decide as Hn.
  - by subst.
  - destruct (read_decimal_go n 0%N "") as [k Hk]; [lia|].
    rewrite Hk. simpl. f_equal; lia.
Qed.

Lemma py_format_08d_nonneg (n : Z) :
  0 ≤ n → py_format_08d n = zero_padded_8 (Z.to_N n).
Proof.
  intros Hn. unfold py_format_08d, zero_padded_8.
  rewrite bool_decide_eq_false_2 by lia. simpl.
  by replace (Z.abs_N n) with (Z.to_N n) by lia.
Qed.

Lemma py_format_08d_read (n : Z) :
  0 ≤ n → read_decimal 0 (py_format_08d n) = Some (Z.to_N n).
Proof.
  intros Hn. rewrite py_format_08d_nonneg by done. unfold zero_padded_8.
  by rewrite read_decimal_zeros, read_decimal_pretty.
Qed.

Lemma py_format_08d_inj (a b : Z) :
  py_format_08d a = py_format_08d b → a = b.
Proof.
  intros H.
  destruct (decide (0 ≤ a)) as [Ha|Ha], (decide (0 ≤ b)) as [Hb|Hb].
  - apply (f_equal (read_decimal 0)) in H.
    rewrite !py_format_08d_read in H by done. simplify_eq. lia.
  - apply (f_equal (read_decimal 0)) in H.
    rewrite py_format_08d_read in H by done.
    unfold py_format_08d in H.
    rewrite (bool_decide_eq_true_2 (b < 0)) in H by lia. done.
  - apply (f_equal (read_decimal 0)) in H.
    rewrite (py_format_08d_read b) in H by done.
    unfold py_format_08d in H.
    rewrite (bool_decide_eq_true_2 (a < 0)) in H by lia. done.
  - unfold py_format_08d in H.
    rewrite !bool_decide_eq_true_2 in H by lia.
    simpl in H. injection H as H.
    apply (f_equal (read_decimal 0)) in H.
    rewrite !read_decimal_zeros, !read_decimal_pretty in H.
    simplify_eq. lia.
Qed.

Lemma suffixes_differ (s t : string) : s +:+ ".yaml" ≠ t +:+ "_data.gz".
Proof.
  intros H.
  assert (String.length s = String.length t + 3)%nat as Hlen.
  { apply (f_equal String.length) in H.
    rewrite !string_app_length in H. simpl in H. lia. }
  revert s H Hlen. induction t as [|c t IH]; intros s H Hlen.
  - destruct s as [|c1 [|c2 [|c3 [|c4 s]]]]; simpl in Hlen; try lia.
    simpl in H. by simplify_eq.
  - destruct s as [|d s]; simpl in Hlen; [lia|].
    simpl in H. injection H as -> H. apply (IH s); [done | lia].
Qed.

Lemma string_app_assoc (a b c : string) : (a +:+ b) +:+ c = a +:+ (b +:+ c).
Proof. induction a as [|x a IH]; simpl; [done | by rewrite IH]. Qed.

Lemma metadata_key_not_content_key (wiki : wiki_config)
    (pageid revid pageid' revid' : pyint) :
  s3_key_for_revision_metadata wiki pageid revid
  ≠ s3_key_for_revision_content wiki pageid' revid'.
Proof.
  unfold s3_key_for_revision_metadata, s3_key_for_revision_content.
  rewrite <- !string_app_assoc. apply suffixes_differ.
Qed.

Lemma metadata_key_inj (wiki : wiki_config) (pageid r1 r2 : pyint) :
  s3_key_for_revision_metadata wiki pageid r1
  = s3_key_for_revision_metadata wiki pageid r2 →
  int_of r1 = int_of r2.
Proof.
  unfold s3_key_for_revision_metadata. intros H.
  do 4 apply String.app_inj in H.
  apply string_app_inv_tail in H. by apply py_format_08d_inj.
Qed.

Lemma content_key_inj (wiki : wiki_config) (pageid r1 r2 : pyint) :
  s3_key_for_revision_content wiki pageid r1
  = s3_key_for_revision_content wiki pageid r2 →
  int_of r1 = int_of r2.
Proof.
  unfold s3_key_for_revision_content. intros H.
  do 4 apply String.app_inj in H.
  apply string_app_inv_tail in H. by apply py_format_08d_inj.
Qed.

Lemma pretty_N_go_length (k : nat) :
  ∀ (x : N) (s : string),
    (x < 10 ^ N.of_nat k)%N →
    (String.length (pretty_N_go x s) ≤ k + String.length s)%nat.
Proof.
  induction k as [|k IH]; intros x s Hx.
  - assert (x = 0%N) as -> by (simpl in Hx; lia).
    rewrite pretty_N_go_0. lia.
  - destruct (decide (x = 0%N)) as [->|Hne].
    + rewrite pretty_N_go_0. lia.
    + rewrite pretty_N_go_step by lia.
      etrans; [apply IH|simpl; lia].
      apply N.Div0.div_lt_upper_bound.
      rewrite Nat2N.inj_succ, N.pow_succ_r' in Hx. lia.
Qed.

Lemma zero_padded_8_length (n : N) :
  (n < 10 ^ 8)%N → String.length (zero_padded_8 n) = 8%nat.
Proof.
  intros Hn. unfold zero_padded_8.
  rewrite string_app_length, zeros_length.
  assert (String.length (pretty n) ≤ 8)%nat; [|lia].
  unfold pretty, pretty_N. case_decide; [simpl; lia|].
  pose proof (pretty_N_go_length 8 n "" Hn) as Hlen. simpl in Hlen. lia.
Qed.

Lemma zero_padded_8_read (n : N) : read_decimal 0 (zero_padded_8 n) = Some n.
Proof.
  unfold zero_padded_8. by rewrite read_decimal_zeros, read_decimal_pretty.
Qed.

(** C7.  For a page id and a revision id that are not negative, the
    metadata key is the prefix, then [page_], the page id zero-padded to 8
    digits, [/rev_], the revision id zero-padded to 8 digits, and [.yaml];
    the content key differs in its suffix [_data.gz] only.  The padded field
    reads back as the number and is 8 characters long below 10^8.  With the
    prefix [x/], page 5 and revision 42 the metadata key is
    [x/page_00000005/rev_00000042.yaml]. *)
Theorem storage_key_derivation (wiki : wiki_config) (pageid revid : Z) :
  0 ≤ pageid → 0 ≤ revid →
  s3_key_for_revision_metadata wiki (PInt pageid) (PInt revid)
  = wiki_s3_prefix wiki +:+ "page_" +:+ zero_padded_8 (Z.to_N pageid)
      +:+ "/rev_" +:+ zero_padded_8 (Z.to_N revid) +:+ ".yaml"
  ∧ s3_key_for_revision_content wiki (PInt pageid) (PInt revid)
    = wiki_s3_prefix wiki +:+ "page_" +:+ zero_padded_8 (Z.to_N pageid)
        +:+ "/rev_" +:+ zero_padded_8 (Z.to_N revid) +:+ "_data.gz"
  ∧ (∀ n : N, read_decimal 0 (zero_padded_8 n) = Some n
              ∧ ((n < 10 ^ 8)%N → String.length (zero_padded_8 n) = 8%nat))
  ∧ (wiki_s3_prefix wiki = "x/" → pageid = 5 → revid = 42 →
     s3_key_for_revision_metadata wiki (PInt pageid) (PInt revid)
     = "x/page_00000005/rev_00000042.yaml"
     ∧ s3_key_for_revision_content wiki (PInt pageid) (PInt revid)
       = "x/page_00000005/rev_00000042_data.gz").
Proof.
  intros Hp Hr.
  unfold s3_key_for_revision_metadata, s3_key_for_revision_content. simpl.
  rewrite !py_format_08d_nonneg by done.
  split; [done|]. split; [done|]. split.
  - intros n. split; [apply zero_padded_8_read | apply zero_padded_8_length].
  - intros -> -> ->. split; reflexivity.
Qed.

Lemma storage_key_derivation_witness :
  s3_key_for_revision_metadata (WikiConfig "api" "bucket" "x/" None)
    (PInt 5) (PInt 42)
  = "x/page_00000005/rev_00000042.yaml".
Proof.
  pose proof (storage_key_derivation (WikiConfig "api" "bucket" "x/" None)
                5 42 ltac:(lia) ltac:(lia)) as (_ & _ & _ & H).
  exact (proj1 (H eq_refl eq_refl eq_refl)).
Defined.

(** ** The monad *)

Lemma bind_Ok_inv {A B} (m : M A) (f : A → M B) (w w' : world) (b : B) :
  (m ≫= f) w = (Ok b, w') →
  ∃ a w1, m w = (Ok a, w1) ∧ f a w1 = (Ok b, w').
Proof.
  unfold mbind, M_bind. destruct (m w) as [[a| |] w1]; intros H;
    [eauto | done | done].
Qed.

Lemma lift_Ok_inv {A} (o : outcome A) (w w' : world) (a : A) :
  lift o w = (Ok a, w') → o = Ok a ∧ w' = w.
Proof. unfold lift. by intros [= -> ->]. Qed.

Lemma outcome_bind_Ok_inv {A B} (o : outcome A) (f : A → outcome B) (b : B) :
  o ≫= f = Ok b → ∃ a, o = Ok a ∧ f a = Ok b.
Proof. destruct o; simpl; intros H; [eauto | done | done]. Qed.

Lemma py_assert_Ok_inv (b : bool) (u : unit) : py_assert b = Ok u → b = true.
Proof. by destruct b. Qed.

Lemma respects_bind {A B} (R : relation world) `{!PreOrder R}
    (m : M A) (f : A → M B) :
  respects R m → (∀ a, respects R (f a)) → respects R (m ≫= f).
Proof.
  intros Hm Hf w. unfold mbind, M_bind.
  specialize (Hm w). destruct (m w) as [[a| |] w1]; simpl in *; [|done..].
  etrans; [exact Hm | apply Hf].
Qed.

Lemma respects_ret {A} (R : relation world) `{!Reflexive R} (a : A) :
  respects R (mret a : M A).
Proof. intros w. simpl. reflexivity. Qed.

Lemma respects_raise {A} (R : relation world) `{!Reflexive R} (e : exn) :
  respects R (raise e : M A).
Proof. intros w. simpl. reflexivity. Qed.

Lemma respects_out_of_fuel {A} (R : relation world) `{!Reflexive R} :
  respects R (out_of_fuel : M A).
Proof. intros w. simpl. reflexivity. Qed.

Lemma respects_lift {A} (R : relation world) `{!Reflexive R} (o : outcome A) :
  respects R (lift o).
Proof. intros w. simpl. reflexivity. Qed.

Lemma respects_for_each {A} (R : relation world) `{!PreOrder R}
    (l : list A) (body : A → M unit) :
  (∀ x, respects R (body x)) → respects R (for_each l body).
Proof.
  intros Hbody. induction l as [|x l IH]; cbn [for_each].
  - apply respects_ret, _.
  - by apply respects_bind.
Qed.

Lemma respects_weaken {A} (R R' : relation world) (m : M A) :
  (∀ w w', R w w' → R' w w') → respects R m → respects R' m.
Proof. intros HR Hm w. apply HR, Hm. Qed.

#[global] Instance only_calls_preorder (P : event → bool) :
  PreOrder (only_calls P).
Proof.
  split.
  - intros w. split; [done|]. exists []. by rewrite app_nil_r.
  - intros w1 w2 w3 [Hs1 (evs1 & Ht1 & HP1)] [Hs2 (evs2 & Ht2 & HP2)].
    split; [congruence|]. exists (evs1 ++ evs2).
    rewrite Ht2, Ht1, app_assoc. split; [done | by apply Forall_app].
Qed.

#[global] Instance heap_kept_preorder : PreOrder heap_kept.
Proof.
  split.
  - by intros w l.
  - intros w1 w2 w3 H1 H2 l Hl. rewrite H2, H1; [done..|].
    by rewrite H1.
Qed.

#[global] Instance heap_kept_but_preorder (l0 : loc) :
  PreOrder (heap_kept_but l0).
Proof.
  split.
  - by intros w l.
  - intros w1 w2 w3 H1 H2 l Hne Hl. rewrite H2, H1; [done..|].
    by rewrite H1.
Qed.

#[global] Instance archives_preorder (wiki : wiki_config) (pageid : pyint) :
  PreOrder (archives wiki pageid).
Proof.
  split.
  - intros w. split; [done|]. exists []. by rewrite app_nil_r.
  - intros w1 w2 w3 [Hs1 (evs1 & Ht1 & HP1)] [Hs2 (evs2 & Ht2 & HP2)].
    split; [naive_solver|]. exists (evs1 ++ evs2).
    rewrite Ht2, Ht1, app_assoc. split; [done|].
    apply Forall_app. split; [done|].
    eapply Forall_impl; [exact HP2|]. intros ev. unfold allowed_write.
    destruct ev as [| bucket key body | bucket key |]; try done.
    + intros (-> & revid & Hne & [->|[-> Hnone]]); (split; [done|]);
        exists revid; (split; [done|]); [by left | right; split; [done|]].
      destruct (w_store w1 !! _) eqn:Hw1; [|done].
      destruct (Hs1 (wiki_s3_bucket wiki,
                     s3_key_for_revision_content wiki pageid revid))
        as [x Hx]; [by rewrite Hw1 | congruence].
    + intros (-> & revid & Hne & [->|[-> Hnone]]); (split; [done|]);
        exists revid; (split; [done|]); [by left | right; split; [done|]].
      destruct (w_store w1 !! _) eqn:Hw1; [|done].
      destruct (Hs1 (wiki_s3_bucket wiki,
                     s3_key_for_revision_content wiki pageid revid))
        as [x Hx]; [by rewrite Hw1 | congruence].
Qed.

(** ** What each operation touches *)

Lemma keeps_outside_only_calls {A} (P : event → bool) (m : M A) :
  keeps_outside m → respects (only_calls P) m.
Proof.
  intros Hm w. destruct (Hm w) as [Hs Ht]. split; [done|].
  exists []. by rewrite app_nil_r.
Qed.

Lemma keeps_outside_archives {A} wiki pageid (m : M A) :
  keeps_outside m → respects (archives wiki pageid) m.
Proof.
  intros Hm w. destruct (Hm w) as [Hs Ht]. split; [by rewrite Hs|].
  exists []. by rewrite app_nil_r.
Qed.

Lemma heap_kept_weaken (l0 : loc) (w w' : world) :
  heap_kept w w' → heap_kept_but l0 w w'.
Proof. intros H l _. apply H. Qed.

Lemma only_calls_weaken (P Q : event → bool) (w w' : world) :
  (∀ ev, P ev = true → Q ev = true) → only_calls P w w' → only_calls Q w w'.
Proof.
  intros HPQ [Hs (evs & Ht & HP)]. split; [done|]. exists evs.
  split; [done|]. eapply Forall_impl; [exact HP | done].
Qed.

Lemma only_calls_archives wiki pageid (w w' : world) :
  only_calls (λ ev, negb (is_write ev)) w w' → archives wiki pageid w w'.
Proof.
  intros [Hs (evs & Ht & HP)]. split; [by rewrite Hs|]. exists evs.
  split; [done|]. eapply Forall_impl; [exact HP|].
  by intros [| | |].
Qed.

Lemma dict_get_outside (l : loc) : keeps_outside (dict_get l).
Proof. by intros w. Qed.

Lemma dict_new_outside (d : pydict) : keeps_outside (dict_new d).
Proof. by intros w. Qed.

Lemma dict_put_outside (l : loc) (d : pydict) : keeps_outside (dict_put l d).
Proof. by intros w. Qed.

Lemma dict_copy_outside (l : loc) : keeps_outside (dict_copy l).
Proof. by intros w. Qed.

Lemma dict_setitem_outside (l : loc) (k : string) (v : json) :
  keeps_outside (dict_setitem l k v).
Proof. by intros w. Qed.

Lemma dict_update_outside (l : loc) (d : pydict) :
  keeps_outside (dict_update l d).
Proof. by intros w. Qed.

Lemma dict_getitem_outside (l : loc) (k : string) :
  keeps_outside (dict_getitem l k).
Proof.
  intros w. unfold dict_getitem, mbind, M_bind, dict_get. simpl.
  by destruct (default ∅ (w_heap w !! l) !! k).
Qed.

Lemma dict_get_heap (l : loc) : respects heap_kept (dict_get l).
Proof. by intros w l'. Qed.

Lemma dict_getitem_heap (l : loc) (k : string) :
  respects heap_kept (dict_getitem l k).
Proof.
  intros w l' _. unfold dict_getitem, mbind, M_bind, dict_get. simpl.
  by destruct (default ∅ (w_heap w !! l) !! k).
Qed.

Lemma dict_new_heap (d : pydict) : respects heap_kept (dict_new d).
Proof.
  intros w l Hl. simpl. apply lookup_insert_ne. intros <-.
  apply elem_of_dom in Hl. by apply is_fresh in Hl.
Qed.

Lemma dict_put_heap_but (l : loc) (d : pydict) :
  respects (heap_kept_but l) (dict_put l d).
Proof. intros w l' Hne _. simpl. by apply lookup_insert_ne. Qed.

Lemma dict_setitem_heap_but (l : loc) (k : string) (v : json) :
  respects (heap_kept_but l) (dict_setitem l k v).
Proof. intros w l' Hne _. simpl. by apply lookup_insert_ne. Qed.

Lemma dict_update_heap_but (l : loc) (d : pydict) :
  respects (heap_kept_but l) (dict_update l d).
Proof. intros w l' Hne _. simpl. by apply lookup_insert_ne. Qed.

(** A new object and what is done to it alone leave the others as they
    were. *)
Lemma heap_kept_new {A} (d : pydict) (f : loc → M A) :
  (∀ l, respects (heap_kept_but l) (f l)) →
  respects heap_kept (dict_new d ≫= f).
Proof.
  intros Hf w l Hl. unfold mbind, M_bind. simpl.
  set (l0 := fresh (dom (w_heap w))).
  assert (l ≠ l0) as Hne.
  { intros ->. apply elem_of_dom in Hl. by apply is_fresh in Hl. }
  set (w1 := World (<[l0 := d]> (w_heap w)) (w_store w) (w_trace w)).
  specialize (Hf l0 w1 l Hne).
  destruct (f l0 w1) as [[a| |] w2]; simpl in *;
    (rewrite Hf; [by apply lookup_insert_ne|]);
    by rewrite lookup_insert_ne.
Qed.

Lemma heap_kept_copy {A} (l0 : loc) (f : loc → M A) :
  (∀ l, respects (heap_kept_but l) (f l)) →
  respects heap_kept (dict_copy l0 ≫= f).
Proof. intros Hf w. apply (heap_kept_new _ f Hf w). Qed.

(** Taking a computation apart along its binds, its branches and its
    loops; [leaf] closes the operations. *)
Ltac respects_go leaf :=
  cbv zeta;
  repeat first
    [ leaf
    | apply respects_ret; apply _
    | apply respects_raise; apply _
    | apply respects_lift; apply _
    | apply respects_out_of_fuel; apply _
    | apply respects_for_each; [apply _ | intros ?]
    | apply respects_bind; [apply _ | | intros ?]
    | match goal with
      | |- respects _ (match ?x with _ => _ end) => destruct x
      end ].

Section ArchiverProofs.

Context (remote : nat → string → pydict → http_reply).
Context (s3_fault : nat → option s3_failure).

Abbreviation reads := (only_calls (λ ev, negb (is_write ev))).
Abbreviation posts := (only_calls is_post).

(** *** S3 *)

Lemma s3_key_exists_run (bucket key : string) (w : world) :
  (s3_key_exists s3_fault bucket key w).2 = log (EvHead bucket key) w ∧
  match (s3_key_exists s3_fault bucket key w).1 with
  | Ok found =>
      s3_fault (clock w) = None ∧
      found = bool_decide (is_Some (w_store w !! (bucket, key)))
  | Raise e => ∃ f, s3_fault (clock w) = Some f ∧ e = ClientError (failure_code f)
  | OutOfFuel => False
  end.
Proof.
  unfold s3_key_exists, head_object.
  destruct (s3_fault (clock w)) as [f|] eqn:Hf.
  - destruct f; simpl; eauto.
  - case_bool_decide as Hk; simpl; by repeat split.
Qed.

Lemma s3_key_exists_reads (bucket key : string) :
  respects reads (s3_key_exists s3_fault bucket key).
Proof.
  intros w. destruct (s3_key_exists_run bucket key w) as [-> _].
  split; [done|]. exists [EvHead bucket key]. split; [done|].
  by repeat constructor.
Qed.

Lemma s3_key_exists_heap (bucket key : string) :
  respects heap_kept (s3_key_exists s3_fault bucket key).
Proof.
  intros w l _. by destruct (s3_key_exists_run bucket key w) as [-> _].
Qed.

Lemma put_object_run (bucket key : string) (body : s3_body) (w : world) :
  match (put_object s3_fault bucket key body w).1 with
  | Ok _ =>
      (put_object s3_fault bucket key body w).2
      = World (w_heap w) (<[(bucket, key) := body]> (w_store w))
              (w_trace w ++ [EvPut bucket key body])
  | Raise e =>
      (put_object s3_fault bucket key body w).2
      = log (EvPutFailed bucket key) w
  | OutOfFuel => False
  end.
Proof. unfold put_object. by destruct (s3_fault (clock w)). Qed.

Lemma put_object_archives wiki pageid (key : string) (body : s3_body)
    (w : world) :
  (∃ revid, int_of revid ≠ 0 ∧
     (key = s3_key_for_revision_metadata wiki pageid revid ∨
      (key = s3_key_for_revision_content wiki pageid revid ∧
       w_store w !! (wiki_s3_bucket wiki, key) = None))) →
  archives wiki pageid w
    (put_object s3_fault (wiki_s3_bucket wiki) key body w).2.
Proof.
  intros Hkey. unfold put_object. destruct (s3_fault (clock w)); simpl.
  - split; [done|]. exists [EvPutFailed (wiki_s3_bucket wiki) key].
    split; [done|]. constructor; [|constructor]. by split.
  - split.
    + intros k Hk. simpl.
      destruct (decide (k = (wiki_s3_bucket wiki, key))) as [->|].
      * by rewrite lookup_insert_eq.
      * by rewrite lookup_insert_ne.
    + exists [EvPut (wiki_s3_bucket wiki) key body].
      split; [done|]. constructor; [|constructor]. by split.
Qed.

(** *** The query client *)

Lemma send_posts (endpoint : string) (d : pydict) :
  respects posts (send remote endpoint d).
Proof.
  intros w. unfold send.
  destruct (remote (clock w) endpoint d); simpl;
    (split; [done|]; exists [EvPost endpoint d]; split; [done|];
     by repeat constructor).
Qed.

Lemma send_heap (endpoint : string) (d : pydict) :
  respects heap_kept (send remote endpoint d).
Proof.
  intros w l _. unfold send. by destruct (remote (clock w) endpoint d).
Qed.

Ltac dict_leaf :=
  first
    [ apply keeps_outside_only_calls;
      first [ apply dict_get_outside | apply dict_new_outside
            | apply dict_put_outside | apply dict_copy_outside
            | apply dict_setitem_outside | apply dict_update_outside
            | apply dict_getitem_outside ]
    | apply send_posts ].

Lemma mwapi_request_posts (endpoint : string) (base_params continue_params : loc) :
  respects posts (mwapi_request remote endpoint base_params continue_params).
Proof.
  unfold mwapi_request, requests_post, raise_for_status, response_json.
  respects_go dict_leaf.
Qed.

Lemma resolve_continue_posts (qc : list (string * pydict)) :
  respects posts (resolve_continue qc).
Proof. unfold resolve_continue. respects_go dict_leaf. Qed.

Lemma mwapi_loop_posts (fuel : nat) (endpoint : string) :
  ∀ base_params continue_params,
    respects posts (mwapi_loop remote fuel endpoint base_params continue_params).
Proof.
  induction fuel as [|fuel IH]; intros base_params continue_params;
    cbn [mwapi_loop].
  - apply respects_out_of_fuel, _.
  - respects_go ltac:(first [ apply mwapi_request_posts
                            | apply resolve_continue_posts | apply IH ]).
Qed.

Lemma gen_body_posts (fuel : nat) (g : generator) :
  respects posts (gen_body remote fuel g).
Proof.
  unfold gen_body.
  respects_go ltac:(first [ apply mwapi_loop_posts
                          | apply resolve_continue_posts | dict_leaf ]).
Qed.

Lemma gen_next_world (fuel : nat) (g : generator) (w : world) :
  (gen_next remote fuel g w).2 = (gen_body remote fuel g w).2.
Proof.
  unfold gen_next.
  by destruct (gen_body remote fuel g w) as [[[q [base j]]| |] w'].
Qed.

Lemma next_posts (fuel : nat) (g : generator) :
  respects posts (next remote fuel g).
Proof. intros w. unfold next. simpl. rewrite gen_next_world. apply gen_body_posts. Qed.

Ltac heap_leaf :=
  first
    [ apply dict_update_heap_but | apply dict_setitem_heap_but
    | apply dict_put_heap_but
    | eapply respects_weaken;
      [ apply heap_kept_weaken
      | first [ apply dict_get_heap | apply dict_getitem_heap
              | apply send_heap | apply dict_new_heap
              | apply s3_key_exists_heap ] ] ].

Lemma mwapi_request_heap (endpoint : string) (base_params continue_params : loc) :
  respects heap_kept
    (mwapi_request remote endpoint base_params continue_params).
Proof.
  unfold mwapi_request. apply heap_kept_copy. intros current_params.
  unfold requests_post, raise_for_status, response_json.
  respects_go heap_leaf.
Qed.

Lemma resolve_continue_heap (qc : list (string * pydict)) :
  respects heap_kept (resolve_continue qc).
Proof.
  unfold resolve_continue. apply heap_kept_new. intros continue_params.
  respects_go heap_leaf.
Qed.

Lemma mwapi_loop_heap (fuel : nat) (endpoint : string) :
  ∀ base_params continue_params,
    respects heap_kept
      (mwapi_loop remote fuel endpoint base_params continue_params).
Proof.
  induction fuel as [|fuel IH]; intros base_params continue_params;
    cbn [mwapi_loop].
  - apply respects_out_of_fuel, _.
  - respects_go ltac:(first [ apply mwapi_request_heap
                            | apply resolve_continue_heap | apply IH ]).
Qed.

Lemma gen_body_heap (fuel : nat) (g : generator) :
  respects heap_kept (gen_body remote fuel g).
Proof.
  unfold gen_body. destruct (gen_state g) as [|base_params j|].
  - apply heap_kept_copy. intros base_params.
    respects_go ltac:(first
      [ heap_leaf
      | eapply respects_weaken;
        [ apply heap_kept_weaken
        | apply heap_kept_new; intros continue_params;
          eapply respects_weaken;
          [ apply heap_kept_weaken | apply mwapi_loop_heap ] ] ]).
  - respects_go ltac:(first [ apply mwapi_loop_heap
                            | apply resolve_continue_heap ]).
  - apply respects_raise, _.
Qed.

Lemma consume_heap (fuel n : nat) :
  ∀ g w, heap_kept w (consume remote fuel n g w).2.
Proof.
  induction n as [|n IH]; intros g w; cbn [consume].
  - reflexivity.
  - pose proof (gen_body_heap fuel g w) as Hg.
    rewrite <- gen_next_world in Hg.
    destruct (gen_next remote fuel g w) as [[[q| |] g'] w']; simpl in *;
      [|done..].
    etrans; [exact Hg | apply IH].
Qed.

(** One request: what is sent, and what comes of the reply. *)
Lemma mwapi_request_run (endpoint : string) (base_params continue_params : loc)
    (w : world) :
  let l := fresh (dom (w_heap w)) in
  let base := default ∅ (w_heap w !! base_params) in
  let d := default ∅ (<[l := base]> (w_heap w) !! continue_params) ∪ base in
  mwapi_request remote endpoint base_params continue_params w
  = (checked_reply (remote (clock w) endpoint d),
     World (<[l := d]> (w_heap w)) (w_store w)
           (w_trace w ++ [EvPost endpoint d])).
Proof.
  intros l base d.
  unfold mwapi_request, dict_copy, dict_update, requests_post,
    raise_for_status, response_json, send, mbind, M_bind, dict_get, dict_new,
    dict_put, clock, log, checked_reply.
  simpl. fold l. fold base. rewrite !lookup_insert_eq. simpl. fold d.
  rewrite insert_insert_eq.
  destruct (remote _ endpoint d) as [|status [j|]]; simpl; [done| |].
  - case_bool_decide; simpl; [done|].
    destruct (resp_error j); [done|]. by destruct (resp_warnings j).
  - by case_bool_decide.
Qed.

Lemma mwapi_request_params (base_params continue_params : loc) (w : world) :
  is_Some (w_heap w !! continue_params) →
  default ∅ (<[fresh (dom (w_heap w)) :=
                 default ∅ (w_heap w !! base_params)]> (w_heap w)
             !! continue_params)
  = default ∅ (w_heap w !! continue_params).
Proof.
  intros Hc. rewrite lookup_insert_ne; [done|]. intros <-.
  apply elem_of_dom in Hc. by apply is_fresh in Hc.
Qed.

(** *** The continuation *)

Lemma plain_step_fold (kvs : list (string * json)) :
  ∀ d : pydict, NoDup kvs.*1 →
    foldl plain_step d kvs
    = filter (λ kv, not_generator_key kv.1 = true)
        (list_to_map kvs : pydict) ∪ d.
Proof.
  induction kvs as [|[k v] kvs IH]; intros d Hnd.
  - simpl. by rewrite map_filter_empty, (left_id_L ∅ (∪)).
  - apply NoDup_cons in Hnd as [Hk Hnd]. cbn [foldl list_to_map foldr].
    rewrite IH by done. unfold plain_step. simpl.
    apply not_elem_of_list_to_map_1 in Hk.
    destruct (not_generator_key k) eqn:Hg.
    + rewrite map_filter_insert_True by done.
      rewrite <- insert_union_l, <- insert_union_r; [done|].
      apply map_lookup_filter_None. by left.
    + rewrite map_filter_insert_False by (simpl; congruence).
      by rewrite delete_id.
Qed.

Lemma plain_loop_run (l : loc) (kvs : list (string * json)) :
  ∀ (w : world) (d : pydict),
    w_heap w !! l = Some d →
    for_each kvs (λ kv,
      if not_generator_key kv.1 then dict_setitem l kv.1 kv.2 else mret ()) w
    = (Ok (), World (<[l := foldl plain_step d kvs]> (w_heap w))
                (w_store w) (w_trace w)).
Proof.
  induction kvs as [|[k v] kvs IH]; intros w d Hl; cbn [for_each foldl].
  - rewrite insert_id by done. by destruct w.
  - unfold mbind at 1, M_bind, plain_step at 2. simpl.
    destruct (not_generator_key k); simpl.
    + rewrite Hl. simpl.
      erewrite IH by (simpl; apply lookup_insert_eq). simpl.
      by rewrite insert_insert_eq.
    + by erewrite IH.
Qed.

Lemma plain_blocks_run (l : loc) (qc : list (string * pydict)) :
  ∀ (w : world) (d : pydict),
    w_heap w !! l = Some d →
    for_each qc (λ b1,
      for_each (map_to_list b1.2) (λ kv,
        if not_generator_key kv.1 then dict_setitem l kv.1 kv.2
        else mret ())) w
    = (Ok (),
       World (<[l := foldl (λ acc b,
                       filter (λ kv, not_generator_key kv.1 = true) b.2 ∪ acc)
                     d qc]> (w_heap w))
             (w_store w) (w_trace w)).
Proof.
  induction qc as [|b qc IH]; intros w d Hl; cbn [for_each foldl].
  - rewrite insert_id by done. by destruct w.
  - unfold mbind at 1, M_bind.
    rewrite (plain_loop_run l _ w d Hl).
    rewrite plain_step_fold by apply NoDup_fst_map_to_list.
    rewrite list_to_map_to_list.
    erewrite IH by (simpl; apply lookup_insert_eq). simpl.
    by rewrite insert_insert_eq.
Qed.

Lemma all_blocks_run (l : loc) (qc : list (string * pydict)) :
  ∀ (w : world) (d : pydict),
    w_heap w !! l = Some d →
    for_each qc (λ b, dict_update l b.2) w
    = (Ok (),
       World (<[l := foldl (λ acc (b : string * pydict), b.2 ∪ acc) d qc]>
                (w_heap w))
             (w_store w) (w_trace w)).
Proof.
  induction qc as [|b qc IH]; intros w d Hl; cbn [for_each foldl].
  - rewrite insert_id by done. by destruct w.
  - unfold mbind at 1, M_bind. simpl. rewrite Hl. simpl.
    erewrite IH by (simpl; apply lookup_insert_eq). simpl.
    by rewrite insert_insert_eq.
Qed.

Lemma resolve_continue_run (qc : list (string * pydict)) (w : world) :
  resolve_continue qc w
  = (Ok (fresh (dom (w_heap w))),
     World (<[fresh (dom (w_heap w)) := continuation_of qc]> (w_heap w))
           (w_store w) (w_trace w)).
Proof.
  unfold resolve_continue. unfold mbind at 1, M_bind. simpl.
  set (l := fresh (dom (w_heap w))).
  unfold mbind at 1, M_bind.
  erewrite plain_blocks_run by (simpl; apply lookup_insert_eq). simpl.
  rewrite insert_insert_eq. fold (plain_entries qc).
  unfold mbind at 1, M_bind. simpl. rewrite lookup_insert_eq. simpl.
  unfold continuation_of. unfold mbind, M_bind.
  case_bool_decide as Hsize.
  - erewrite all_blocks_run by (simpl; apply lookup_insert_eq). simpl.
    rewrite insert_insert_eq.
    apply map_size_empty_iff in Hsize. by rewrite Hsize.
  - done.
Qed.

Section LastWins.

Context (g : string * pydict → pydict).

Lemma fold_union_lookup (qc : list (string * pydict)) :
  ∀ (acc : pydict) (k : string) (v : json),
    foldl (λ acc b, g b ∪ acc) acc qc !! k = Some v ↔
    (∃ qc1 b qc2, qc = qc1 ++ b :: qc2 ∧ g b !! k = Some v ∧
                  Forall (λ b', g b' !! k = None) qc2)
    ∨ (Forall (λ b', g b' !! k = None) qc ∧ acc !! k = Some v).
Proof.
  induction qc as [|b qc IH]; intros acc k v; cbn [foldl].
  - split.
    + intros H. right. by split.
    + intros [(qc1 & b & qc2 & Heq & _)|[_ H]]; [|done].
      by destruct qc1.
  - rewrite IH. split.
    + intros [(qc1 & b' & qc2 & -> & Hb & Hnone)|[Hnone Hacc]].
      * left. by exists (b :: qc1), b', qc2.
      * apply lookup_union_Some_raw in Hacc as [Hb|[Hb Hacc]].
        -- left. by exists [], b, qc.
        -- right. split; [by constructor | done].
    + intros [(qc1 & b' & qc2 & Heq & Hb & Hnone)|[Hnone Hacc]].
      * destruct qc1 as [|b0 qc1]; simplify_eq/=.
        -- right. split; [done|]. by apply lookup_union_Some_l.
        -- left. by exists qc1, b', qc2.
      * apply Forall_cons in Hnone as [Hb Hnone]. right. split; [done|].
        by rewrite lookup_union_r.
Qed.

End LastWins.

Lemma last_value_exists (qc : list (string * pydict)) (k : string) :
  second_level_key qc k → ∃ v, last_value qc k v.
Proof.
  induction qc as [|b0 qc IH]; intros (v & b & Hb & Hk).
  - by apply elem_of_nil in Hb.
  - destruct (decide (Exists (λ b', is_Some (b'.2 !! k)) qc)) as [Hex|Hex].
    + apply Exists_exists in Hex as (b' & Hb' & [v' Hv']).
      destruct IH as (v'' & qc1 & b'' & qc2 & -> & ? & ?).
      { by exists v', b'. }
      by exists v'', (b0 :: qc1), b'', qc2.
    + apply elem_of_cons in Hb as [->|Hb].
      * exists v, [], b0, qc. split; [done|]. split; [done|].
        apply Forall_forall. intros b' Hb'.
        destruct (b'.2 !! k) eqn:Hl; [|done].
        exfalso. apply Hex, Exists_exists. exists b'. by rewrite Hl.
      * exfalso. apply Hex, Exists_exists. exists b. by rewrite Hk.
Qed.

Lemma last_value_second_level (qc : list (string * pydict)) k v :
  last_value qc k v → second_level_key qc k.
Proof.
  intros (qc1 & b & qc2 & -> & Hb & _). exists v, b. split; [|done].
  apply elem_of_app. right. by left.
Qed.

Lemma all_entries_lookup (qc : list (string * pydict)) k v :
  all_entries qc !! k = Some v ↔ last_value qc k v.
Proof.
  unfold all_entries.
  rewrite (fold_union_lookup (λ b, b.2) qc ∅ k v). split.
  - by intros [H|[_ H]].
  - intros H. by left.
Qed.

Lemma plain_entries_lookup (qc : list (string * pydict)) k v :
  plain_entries qc !! k = Some v ↔
  not_generator_key k = true ∧ last_value qc k v.
Proof.
  unfold plain_entries.
  rewrite (fold_union_lookup
             (λ b, filter (λ kv, not_generator_key kv.1 = true) b.2) qc ∅ k v).
  split.
  - intros [(qc1 & b & qc2 & -> & Hb & Hnone)|[_ H]]; [|done].
    apply map_lookup_filter_Some in Hb as [Hb Hg]. simpl in Hg.
    split; [done|]. exists qc1, b, qc2. split; [done|]. split; [done|].
    eapply Forall_impl; [exact Hnone|]. intros b' Hb'. simpl in Hb'.
    apply map_lookup_filter_None in Hb' as [?|Hb']; [done|].
    destruct (b'.2 !! k) as [x|] eqn:Hx; [|done]. by destruct (Hb' x).
  - intros [Hg (qc1 & b & qc2 & -> & Hb & Hnone)]. left.
    exists qc1, b, qc2. split; [done|]. split.
    + by apply map_lookup_filter_Some.
    + eapply Forall_impl; [exact Hnone|]. intros b' Hb'. simpl.
      apply map_lookup_filter_None. by left.
Qed.

Lemma plain_entries_empty (qc : list (string * pydict)) :
  size (plain_entries qc) = 0%nat ↔ ¬ some_plain_key qc.
Proof.
  rewrite map_size_empty_iff. split.
  - intros Hempty (k & Hk & Hg).
    destruct (last_value_exists qc k Hk) as [v Hv].
    assert (plain_entries qc !! k = Some v) as Hl
      by by apply plain_entries_lookup.
    by rewrite Hempty in Hl.
  - intros Hnone. apply map_empty. intros k.
    destruct (plain_entries qc !! k) as [v|] eqn:Hl; [|done].
    apply plain_entries_lookup in Hl as [Hg Hv].
    destruct Hnone. exists k. split; [|done].
    by eapply last_value_second_level.
Qed.

(** What [resolve_continue] selects, and what a request made with its
    dict carries. *)
Lemma continuation_selection (qc : list (string * pydict)) (w : world)
    (endpoint : string) (base_params : loc) :
  ∃ continue_params w',
    resolve_continue qc w = (Ok continue_params, w') ∧
    w_heap w' !! continue_params = Some (continuation_of qc) ∧
    w_trace (mwapi_request remote endpoint base_params continue_params w').2
    = w_trace w' ++
        [EvPost endpoint
           (continuation_of qc ∪ default ∅ (w_heap w' !! base_params))] ∧
    (some_plain_key qc →
       (∀ k, is_Some (continuation_of qc !! k) ↔
             second_level_key qc k ∧ not_generator_key k = true) ∧
       (∀ k v, continuation_of qc !! k = Some v ↔
               not_generator_key k = true ∧ last_value qc k v)) ∧
    (¬ some_plain_key qc →
       (∀ k, is_Some (continuation_of qc !! k) ↔ second_level_key qc k) ∧
       (∀ k v, continuation_of qc !! k = Some v ↔ last_value qc k v)).
Proof.
  eexists _, _. split; [apply resolve_continue_run|].
  split; [simpl; apply lookup_insert_eq|]. split.
  - rewrite mwapi_request_run. cbv zeta.
    rewrite mwapi_request_params
      by (cbn [w_heap]; rewrite lookup_insert_eq; eauto).
    cbn [snd w_trace w_heap]. by rewrite lookup_insert_eq.
  - unfold continuation_of. split; intros Hsome.
    + rewrite bool_decide_eq_false_2
        by (rewrite plain_entries_empty; tauto).
      split; [|apply plain_entries_lookup].
      intros k. split.
      * intros [v Hv]. apply plain_entries_lookup in Hv as [Hg Hv].
        split; [by eapply last_value_second_level | done].
      * intros [Hk Hg]. destruct (last_value_exists qc k Hk) as [v Hv].
        exists v. by apply plain_entries_lookup.
    + rewrite bool_decide_eq_true_2 by by apply plain_entries_empty.
      split; [|apply all_entries_lookup].
      intros k. split.
      * intros [v Hv]. apply all_entries_lookup in Hv.
        by eapply last_value_second_level.
      * intros Hk. destruct (last_value_exists qc k Hk) as [v Hv].
        exists v. by apply all_entries_lookup.
Qed.

(** *** The generator *)

(** The first [next]: the two dicts the generator makes, then the loop. *)
Lemma gen_created_run (fuel : nat) (endpoint : string) (params : loc)
    (w : world) :
  let d := base_params_of (default ∅ (w_heap w !! params)) in
  let base_params := fresh (dom (w_heap w)) in
  let heap1 := <[base_params := d]> (w_heap w) in
  let continue_params := fresh (dom heap1) in
  gen_body remote fuel (mwapi_query endpoint params) w
  = mwapi_loop remote fuel endpoint base_params continue_params
      (World (<[continue_params := ∅]> heap1) (w_store w) (w_trace w)).
Proof.
  intros d base_params heap1 continue_params.
  unfold gen_body, mwapi_query. cbn [gen_state gen_params gen_endpoint].
  unfold dict_copy, dict_setitem, dict_new, dict_get, dict_put, mbind, M_bind.
  cbn [w_heap w_store w_trace]. fold base_params.
  rewrite !lookup_insert_eq. cbn [default]. rewrite !insert_insert_eq.
  done.
Qed.

Lemma mwapi_loop_first_post (fuel : nat) (endpoint : string)
    (base_params continue_params : loc) (w : world) :
  is_Some (w_heap w !! continue_params) →
  ∃ evs,
    w_trace (mwapi_loop remote (S fuel) endpoint base_params continue_params
               w).2
    = w_trace w ++
        EvPost endpoint (default ∅ (w_heap w !! continue_params)
                         ∪ default ∅ (w_heap w !! base_params)) :: evs.
Proof.
  intros Hc. cbn [mwapi_loop].
  pose proof (mwapi_request_run endpoint base_params continue_params w) as Hr.
  cbv zeta in Hr. rewrite mwapi_request_params in Hr by done.
  set (m := mwapi_request _ _ _ _) in *.
  set (f := λ j : api_response, _).
  assert (∀ j, respects posts (f j)) as Hf.
  { intros j. unfold f.
    respects_go ltac:(first [ apply mwapi_loop_posts
                            | apply resolve_continue_posts ]). }
  unfold mbind, M_bind. rewrite Hr.
  destruct (checked_reply _) as [j| |]; cbn [snd w_trace]; [|by exists []..].
  destruct (Hf j (World (<[fresh (dom (w_heap w)) :=
                             default ∅ (w_heap w !! continue_params)
                             ∪ default ∅ (w_heap w !! base_params)]>
                           (w_heap w)) (w_store w)
                    (w_trace w ++
                       [EvPost endpoint
                          (default ∅ (w_heap w !! continue_params)
                           ∪ default ∅ (w_heap w !! base_params))])))
    as [_ (evs & Ht & _)].
  exists evs. rewrite Ht. cbn [w_trace]. by rewrite <- app_assoc.
Qed.

Lemma gen_created_first_post (fuel : nat) (endpoint : string) (params : loc)
    (w : world) :
  ∃ evs,
    w_trace (gen_body remote (S fuel) (mwapi_query endpoint params) w).2
    = w_trace w ++
        EvPost endpoint (base_params_of (default ∅ (w_heap w !! params)))
        :: evs.
Proof.
  rewrite gen_created_run. cbv zeta.
  set (base_params := fresh (dom (w_heap w))).
  set (d := base_params_of _).
  set (continue_params := fresh (dom (<[base_params := d]> (w_heap w)))).
  assert (continue_params ≠ base_params) as Hne.
  { intros Heq. pose proof (is_fresh (dom (<[base_params := d]> (w_heap w))))
      as Hfresh. fold continue_params in Hfresh. rewrite Heq in Hfresh.
    apply Hfresh, elem_of_dom. rewrite lookup_insert_eq. eauto. }
  edestruct (mwapi_loop_first_post fuel endpoint base_params continue_params)
    as [evs Hevs]; [|rewrite Hevs].
  { cbn [w_heap]. rewrite lookup_insert_eq. eauto. }
  exists evs. cbn [w_heap w_trace].
  rewrite lookup_insert_eq, lookup_insert_ne, lookup_insert_eq by done.
  cbn [from_option id]. by rewrite (left_id_L ∅ (∪)).
Qed.

(** C10.  Whatever is taken from the sequence of [mwapi_query], the
    caller's dict, like every dict object that existed before, is left as
    it was; the fixed parameters reach the request through a copy. *)
Theorem caller_params_unchanged (fuel n : nat) (endpoint : string)
    (params : loc) (w : world) :
  is_Some (w_heap w !! params) →
  w_heap (consume remote fuel n (mwapi_query endpoint params) w).2 !! params
  = w_heap w !! params
  ∧ heap_kept w (consume remote fuel n (mwapi_query endpoint params) w).2
  ∧ ∃ evs,
      w_trace (gen_next remote (S fuel) (mwapi_query endpoint params) w).2
      = w_trace w ++
          EvPost endpoint (base_params_of (default ∅ (w_heap w !! params)))
          :: evs.
Proof.
  intros Hp. split; [by apply consume_heap|]. split; [apply consume_heap|].
  rewrite gen_next_world. apply gen_created_first_post.
Qed.

Lemma checked_reply_refusal (r : http_reply) (status : Z) (j : api_response)
    (payload : json) :
  r = Reply status (Some j) → ¬ (400 ≤ status < 600) →
  refusal j = Some payload →
  checked_reply r = Raise (WikiError payload).
Proof.
  intros -> Hst Href. unfold checked_reply, refusal in *.
  rewrite bool_decide_eq_false_2 by done.
  destruct (resp_error j); [by simplify_eq|]. by rewrite Href.
Qed.

(** A request that is answered with an [error] or a [warnings] field is the
    last one of the loop, which raises. *)
Lemma mwapi_loop_refusal (fuel : nat) (endpoint : string) :
  ∀ (base_params continue_params : loc) (w : world) pre ep d post status j
    payload,
    w_trace (mwapi_loop remote fuel endpoint base_params continue_params w).2
    = w_trace w ++ pre ++ EvPost ep d :: post →
    remote (length (w_trace w ++ pre)) ep d = Reply status (Some j) →
    ¬ (400 ≤ status < 600) →
    refusal j = Some payload →
    post = [] ∧
    (mwapi_loop remote fuel endpoint base_params continue_params w).1
    = Raise (WikiError payload).
Proof.
  induction fuel as [|fuel IH];
    intros base_params continue_params w pre ep d post status j payload
      Htrace Hreply Hstatus Hrefusal; cbn [mwapi_loop] in *.
  - simpl in Htrace. rewrite <- (app_nil_r (w_trace w)) in Htrace at 1.
    apply app_inv_head in Htrace. by destruct pre.
  - revert Htrace. unfold mbind at 1 3, M_bind.
    rewrite mwapi_request_run. cbv zeta.
    set (d0 := _ ∪ _). set (heap1 := <[_ := d0]> _).
    assert (∀ o : outcome (json * (loc * api_response)),
      w_trace w ++ [EvPost endpoint d0] = w_trace w ++ pre ++ EvPost ep d :: post →
      checked_reply (remote (clock w) endpoint d0) = Raise (WikiError payload)
      ∧ post = []) as Hlast.
    { intros _ Heq. apply app_inv_head in Heq.
      destruct pre as [|ev [|ev' pre]]; simplify_eq/=.
      rewrite app_nil_r in Hreply.
      split; [|done]. by eapply checked_reply_refusal. }
    destruct (checked_reply (remote (clock w) endpoint d0)) as [j0| |] eqn:Hc;
      cbn [snd fst w_trace].
    + destruct (resp_query j0) as [q|] eqn:Hq.
      { intros Heq. by destruct (Hlast (Ok (q, (base_params, j0))) Heq). }
      destruct (resp_query_continue j0) as [qc|] eqn:Hqc.
      2:{ intros Heq. by destruct (Hlast (Raise StopIteration) Heq). }
      unfold mbind, M_bind. rewrite resolve_continue_run.
      cbn [w_heap w_store w_trace].
      set (w2 := World _ _ _). intros Htrace.
      destruct (mwapi_loop_posts fuel endpoint base_params
                  (fresh (dom heap1)) w2) as [_ (evs & Hevs & _)].
      destruct pre as [|ev pre].
      * exfalso. rewrite Hevs in Htrace. cbn [w2 w_trace] in Htrace.
        rewrite <- app_assoc in Htrace. apply app_inv_head in Htrace.
        simplify_eq/=. rewrite app_nil_r in Hreply. unfold clock in Hc.
        by rewrite (checked_reply_refusal _ _ _ _ Hreply Hstatus Hrefusal)
          in Hc.
      * assert (ev = EvPost endpoint d0) as ->.
        { rewrite Hevs in Htrace. cbn [w2 w_trace] in Htrace.
          rewrite <- app_assoc in Htrace. apply app_inv_head in Htrace.
          by simplify_eq/=. }
        destruct (IH base_params (fresh (dom heap1)) w2 pre ep d post status
                    j payload) as [-> Hres]; [| |done|done|].
        -- rewrite Htrace. cbn [w2 w_trace]. by rewrite <- app_assoc.
        -- cbn [w2 w_trace]. by rewrite <- app_assoc.
        -- split; [done|].
           by destruct (mwapi_loop remote fuel endpoint base_params
                          (fresh (dom heap1)) w2) as [[?| |] ?].
    + intros Heq. destruct (Hlast OutOfFuel Heq) as [Hr ->]. by simplify_eq.
    + intros Heq. by destruct (Hlast OutOfFuel Heq).
Qed.

Lemma gen_body_refusal (fuel : nat) (g : generator) (w : world)
    pre ep d post status j payload :
  w_trace (gen_body remote fuel g w).2 = w_trace w ++ pre ++ EvPost ep d :: post →
  remote (length (w_trace w ++ pre)) ep d = Reply status (Some j) →
  ¬ (400 ≤ status < 600) →
  refusal j = Some payload →
  post = [] ∧ (gen_body remote fuel g w).1 = Raise (WikiError payload).
Proof.
  destruct g as [endpoint params [|base_params j0|]].
  - change (Generator endpoint params GenCreated)
      with (mwapi_query endpoint params).
    rewrite gen_created_run. cbv zeta.
    exact (mwapi_loop_refusal fuel endpoint _ _ (World _ _ (w_trace w))
             pre ep d post status j payload).
  - unfold gen_body. cbn [gen_state gen_endpoint].
    destruct (resp_query_continue j0) as [qc|].
    + unfold mbind, M_bind. rewrite resolve_continue_run.
      exact (mwapi_loop_refusal fuel endpoint _ _ (World _ _ (w_trace w))
               pre ep d post status j payload).
    + simpl. intros Htrace.
      rewrite <- (app_nil_r (w_trace w)) in Htrace at 1.
      apply app_inv_head in Htrace. by destruct pre.
  - simpl. intros Htrace.
    rewrite <- (app_nil_r (w_trace w)) in Htrace at 1.
    apply app_inv_head in Htrace. by destruct pre.
Qed.

(** C6.  When a request made by a [next] on the query sequence is answered,
    with a status that [raise_for_status] lets through, by a body with an
    [error] field, or without one but with a [warnings] field, the call
    raises [WikiError] with that field: no fragment is returned, no further
    request is made and the generator is finished. *)
Theorem query_error_policy (fuel : nat) (g : generator) (w : world)
    (pre post : list event) (endpoint : string) (params : pydict)
    (status : Z) (j : api_response) (payload : json) :
  w_trace (gen_next remote fuel g w).2
  = w_trace w ++ pre ++ EvPost endpoint params :: post →
  remote (length (w_trace w ++ pre)) endpoint params = Reply status (Some j) →
  ¬ (400 ≤ status < 600) →
  resp_error j = Some payload
  ∨ (resp_error j = None ∧ resp_warnings j = Some payload) →
  (gen_next remote fuel g w).1.1 = Raise (WikiError payload) ∧
  post = [] ∧
  gen_state (gen_next remote fuel g w).1.2 = GenFinished.
Proof.
  intros Htrace Hreply Hstatus Hfield. rewrite gen_next_world in Htrace.
  assert (refusal j = Some payload) as Hrefusal.
  { unfold refusal. by destruct Hfield as [->|[-> ->]]. }
  destruct (gen_body_refusal fuel g w pre endpoint params post status j
              payload Htrace Hreply Hstatus Hrefusal) as [-> Hres].
  unfold gen_next.
  destruct (gen_body remote fuel g w) as [[[q [base_params j0]]|e|] w'];
    simplify_eq/=; done.
Qed.

(** *** The archiver *)

Lemma respects_bind_at {A B} (R : relation world) `{!PreOrder R}
    (m : M A) (f : A → M B) (w : world) :
  R w (m w).2 → (∀ a, respects R (f a)) → R w ((m ≫= f) w).2.
Proof.
  intros Hm Hf. unfold mbind, M_bind.
  destruct (m w) as [[a| |] w1]; simpl in *; [|done..].
  etrans; [exact Hm | apply Hf].
Qed.

Lemma next_reads (fuel : nat) (g : generator) :
  respects reads (next remote fuel g).
Proof.
  intros w. eapply only_calls_weaken; [|apply next_posts].
  by intros [| | |].
Qed.

Lemma fetch_revision_reads (fuel : nat) (wiki : wiki_config)
    (pageid revid : pyint) :
  respects reads (fetch_revision remote s3_fault fuel wiki pageid revid).
Proof.
  unfold fetch_revision, s3_key_for_revision_content_exists.
  respects_go ltac:(first
    [ apply s3_key_exists_reads
    | apply next_reads
    | apply keeps_outside_only_calls;
      first [ apply dict_new_outside | apply dict_setitem_outside
            | apply dict_getitem_outside ] ]).
Qed.

(** The text is asked for exactly when the probe finds none stored. *)
Lemma fetch_revision_need (fuel : nat) (wiki : wiki_config)
    (pageid revid : pyint) (w w' : world) (need : bool) (result : json) :
  fetch_revision remote s3_fault fuel wiki pageid revid w
  = (Ok (need, result), w') →
  need = negb (bool_decide (is_Some
           (w_store w !! (wiki_s3_bucket wiki,
                          s3_key_for_revision_content wiki pageid revid)))).
Proof.
  unfold fetch_revision. intros H.
  apply bind_Ok_inv in H as (req_params & w1 & H1 & H).
  apply bind_Ok_inv in H as (stored & w2 & H2 & H).
  apply bind_Ok_inv in H as (u & w3 & H3 & H).
  apply bind_Ok_inv in H as (result' & w4 & H4 & H).
  injection H as <- _ _. injection H1 as _ <-.
  unfold s3_key_for_revision_content_exists in H2.
  match type of H2 with
  | s3_key_exists _ ?b ?k ?w1 = _ =>
      pose proof (s3_key_exists_run b k w1) as [_ Hrun]
  end.
  rewrite H2 in Hrun. simpl in Hrun. by destruct Hrun as [_ ->].
Qed.

Lemma s3_put_revision_metadata_archives (wiki : wiki_config)
    (pageid revid : pyint) (value : rev_metadata) :
  int_of revid ≠ 0 →
  respects (archives wiki pageid)
    (s3_put_revision_metadata s3_fault wiki pageid revid value).
Proof.
  intros Hne w. apply put_object_archives. exists revid. split; [done|].
  by left.
Qed.

Lemma store_revision_archives (recurse : pyint → M unit)
    (wiki : wiki_config) (pageid revid : pyint) (need : bool) (result : json)
    (w : world) :
  int_of revid ≠ 0 →
  (∀ parent, respects (archives wiki pageid) (recurse parent)) →
  (need = true →
   w_store w !! (wiki_s3_bucket wiki,
                 s3_key_for_revision_content wiki pageid revid) = None) →
  archives wiki pageid w
    (store_revision s3_fault recurse wiki pageid revid need result w).2.
Proof.
  intros Hne Hrec Hneed. unfold store_revision.
  unfold mbind at 1, M_bind, lift at 1.
  destruct (check_response pageid revid result) as [[page revision]| |];
    [|reflexivity..].
  cbv zeta. cbn [fst snd].
  unfold mbind at 1, M_bind, lift at 1.
  destruct (py_getitem revision "parentid") as [parentid| |];
    [|reflexivity..].
  apply respects_bind_at; [apply _| |].
  - destruct need; [|reflexivity].
    unfold mbind, M_bind, lift.
    destruct (revision_content wiki revision) as [content| |];
      [|reflexivity..].
    unfold s3_put_revision_content.
    destruct content; try reflexivity.
    apply put_object_archives. exists revid. split; [done|].
    right. split; [done|]. by apply Hneed.
  - intros _.
    respects_go ltac:(first
      [ apply Hrec | by apply s3_put_revision_metadata_archives ]).
Qed.

(** Whatever its outcome, a run only adds to the store, and writes under
    keys of revisions other than the root, a text only where none was. *)
Lemma handle_revision_archives (fuel : nat) (wiki : wiki_config)
    (pageid : pyint) :
  ∀ revid,
    respects (archives wiki pageid)
      (handle_revision remote s3_fault fuel wiki pageid revid).
Proof.
  induction fuel as [|fuel IH]; intros revid; cbn [handle_revision].
  - apply respects_out_of_fuel, _.
  - case_bool_decide as Hne; [apply respects_ret, _|].
    intros w. unfold mbind at 1, M_bind.
    unfold s3_key_for_revision_metadata_exists.
    pose proof (s3_key_exists_reads (wiki_s3_bucket wiki)
                  (s3_key_for_revision_metadata wiki pageid revid) w) as Hw1.
    destruct (s3_key_exists _ _ _ w) as [[[|]| |] w1]; cbn [snd] in *;
      try by apply only_calls_archives.
    unfold mbind, M_bind.
    pose proof (fetch_revision_reads fuel wiki pageid revid w1) as Hw2.
    pose proof (fetch_revision_need fuel wiki pageid revid w1) as Hneed.
    destruct (fetch_revision _ _ _ _ _ _ w1) as [[[need result]| |] w2];
      cbn [snd fst] in *;
      try (etrans; apply only_calls_archives; eassumption).
    etrans; [by apply only_calls_archives|].
    etrans; [by apply only_calls_archives|].
    apply store_revision_archives; [done | apply IH |].
    intros ->. specialize (Hneed w2 true result eq_refl).
    destruct Hw1 as [Hs1 _], Hw2 as [Hs2 _]. rewrite Hs2.
    symmetry in Hneed.
    apply negb_true_iff, bool_decide_eq_false in Hneed.
    by apply eq_None_not_Some.
Qed.

Lemma put_object_Ok_inv (bucket key : string) (body : s3_body)
    (w w' : world) (u : unit) :
  put_object s3_fault bucket key body w = (Ok u, w') →
  w' = World (w_heap w) (<[(bucket, key) := body]> (w_store w))
             (w_trace w ++ [EvPut bucket key body]).
Proof.
  unfold put_object. destruct (s3_fault (clock w)); [done|]. by intros [= <-].
Qed.

Lemma metadata_value_fields (page revision : json) (revid : pyint)
    (parentid : json) (value : rev_metadata) :
  metadata_value page revision revid parentid = Ok value →
  meta_revid value = json_of revid ∧ meta_parentid value = parentid.
Proof.
  unfold metadata_value. intros H.
  repeat (apply outcome_bind_Ok_inv in H as (? & _ & H)).
  by injection H as <-.
Qed.

Lemma chain_from_store (wiki : wiki_config) (pageid : pyint)
    (st st' : gmap (string * string) s3_body) (revid : pyint)
    (chain : list (pyint * rev_metadata)) :
  (∀ r, st' !! (wiki_s3_bucket wiki,
                s3_key_for_revision_metadata wiki pageid r)
        = st !! (wiki_s3_bucket wiki,
                 s3_key_for_revision_metadata wiki pageid r)) →
  chain_from wiki pageid st' revid chain →
  chain_from wiki pageid st revid chain.
Proof.
  intros Hst. induction 1 as [revid H0|revid Hne Hin
                              |revid value parent rest Hne Hout Hrev Hpar _ IH].
  - by apply chain_root.
  - apply chain_archived; [done|]. by rewrite <- Hst.
  - eapply chain_parent; [done| |done..]. by rewrite <- Hst.
Qed.

Lemma descent_event_reads (wiki : wiki_config) (pageid : pyint)
    (chain : list (pyint * rev_metadata)) (evs : list event) :
  Forall (λ ev, negb (is_write ev) = true) evs →
  Forall (descent_event wiki pageid chain) evs.
Proof. intros H. eapply Forall_impl; [exact H|]. by intros [| | |]. Qed.

Lemma descent_event_cons (wiki : wiki_config) (pageid : pyint)
    (rm : pyint * rev_metadata) (chain : list (pyint * rev_metadata))
    (evs : list event) :
  Forall (descent_event wiki pageid chain) evs →
  Forall (descent_event wiki pageid (rm :: chain)) evs.
Proof.
  intros H. eapply Forall_impl; [exact H|].
  intros [| bucket key body | |]; simpl; try done.
  intros (rm' & text & Hin & ?). exists rm', text.
  split; [by apply elem_of_cons; right | done].
Qed.

Lemma store_revision_shape (recurse : pyint → M unit) (wiki : wiki_config)
    (pageid revid : pyint) (need : bool) (result : json) (w w' : world) :
  (∀ parent w1 w1',
     recurse parent w1 = (Ok (), w1') →
     ancestors_first wiki pageid parent w1 w1') →
  int_of revid ≠ 0 →
  w_store w !! (wiki_s3_bucket wiki,
                s3_key_for_revision_metadata wiki pageid revid) = None →
  store_revision s3_fault recurse wiki pageid revid need result w
  = (Ok (), w') →
  ∃ calls value rest,
    w_trace w' = w_trace w ++ calls
                   ++ (metadata_put wiki pageid
                         <$> reverse ((revid, value) :: rest)) ∧
    Forall (descent_event wiki pageid ((revid, value) :: rest)) calls ∧
    chain_from wiki pageid (w_store w) revid ((revid, value) :: rest) ∧
    is_Some (w_store w' !! (wiki_s3_bucket wiki,
                            s3_key_for_revision_metadata wiki pageid revid)).
Proof.
  intros Hrec Hne Hout H. unfold store_revision in H.
  apply bind_Ok_inv in H as ([page revision] & w1 & H1 & H).
  apply lift_Ok_inv in H1 as [Hcheck ->]. cbv zeta in H. cbn [fst snd] in H.
  apply bind_Ok_inv in H as (parentid & w1 & H1 & H).
  apply lift_Ok_inv in H1 as [Hparentid ->].
  apply bind_Ok_inv in H as ([] & w3 & Hcontent & H).
  apply bind_Ok_inv in H as (parent & w1 & H1 & H).
  apply lift_Ok_inv in H1 as [Hparent ->].
  apply bind_Ok_inv in H as ([] & w4 & Hparents & H).
  apply bind_Ok_inv in H as (value & w1 & H1 & H).
  apply lift_Ok_inv in H1 as [Hvalue ->].
  apply put_object_Ok_inv in H as ->.
  apply metadata_value_fields in Hvalue as [Hrevid Hpar].
  apply Hrec in Hparents as (calls & rest & Htrace & Hcalls & Hchain).
  assert (∃ texts,
    w_trace w3 = w_trace w ++ texts ∧
    Forall (descent_event wiki pageid ((revid, value) :: rest)) texts ∧
    ∀ r, w_store w3 !! (wiki_s3_bucket wiki,
                         s3_key_for_revision_metadata wiki pageid r)
         = w_store w !! (wiki_s3_bucket wiki,
                         s3_key_for_revision_metadata wiki pageid r))
    as (texts & Htexts & Hdescent & Hstore).
  { destruct need.
    - apply bind_Ok_inv in Hcontent as (content & w1 & H1 & H).
      apply lift_Ok_inv in H1 as [_ ->].
      unfold s3_put_revision_content in H.
      destruct content as [| | |text| |]; try done.
      apply put_object_Ok_inv in H as ->.
      eexists [_]. split; [done|]. split.
      + constructor; [|constructor]. exists (revid, value), text.
        split; [by left | done].
      + intros r. simpl. apply lookup_insert_ne. intros [= Heq].
        symmetry in Heq. by apply metadata_key_not_content_key in Heq.
    - injection Hcontent as <-. exists []. split; [by rewrite app_nil_r|].
      split; [constructor | done]. }
  exists (texts ++ calls), value, rest. split; [|split; [|split]].
  - simpl. rewrite Htrace, Htexts, reverse_cons, fmap_app.
    by rewrite <- !app_assoc.
  - apply Forall_app. split; [done|]. by apply descent_event_cons.
  - eapply chain_parent; [done..| |].
    + by rewrite Hpar.
    + by eapply chain_from_store.
  - simpl. rewrite lookup_insert_eq. eauto.
Qed.

Lemma handle_revision_shape (fuel : nat) (wiki : wiki_config)
    (pageid : pyint) :
  ∀ revid w w',
    handle_revision remote s3_fault fuel wiki pageid revid w = (Ok (), w') →
    ancestors_first wiki pageid revid w w' ∧
    (int_of revid ≠ 0 →
     is_Some (w_store w' !! (wiki_s3_bucket wiki,
                             s3_key_for_revision_metadata wiki pageid revid))).
Proof.
  induction fuel as [|fuel IH]; intros revid w w' H; cbn [handle_revision] in H;
    [done|].
  case_bool_decide as Hne.
  { injection H as <-. split; [|done]. exists [], [].
    split; [symmetry; apply app_nil_r|]. split; [constructor|].
    by apply chain_root. }
  apply bind_Ok_inv in H as (archived & w1 & H1 & H).
  unfold s3_key_for_revision_metadata_exists in H1.
  pose proof (s3_key_exists_run (wiki_s3_bucket wiki)
                (s3_key_for_revision_metadata wiki pageid revid) w)
    as [Hw1 Hrun].
  rewrite H1 in Hw1, Hrun. simpl in Hw1, Hrun. destruct Hrun as [_ Hfound].
  subst w1. destruct archived.
  - injection H as <-. symmetry in Hfound.
    apply bool_decide_eq_true in Hfound. split; [|done].
    exists [EvHead (wiki_s3_bucket wiki)
              (s3_key_for_revision_metadata wiki pageid revid)], [].
    split; [done|]. split; [by repeat constructor|].
    by apply chain_archived.
  - symmetry in Hfound. apply bool_decide_eq_false in Hfound.
    apply eq_None_not_Some in Hfound.
    apply bind_Ok_inv in H as ([need result] & w2 & H2 & H).
    pose proof (fetch_revision_reads fuel wiki pageid revid
                  (log (EvHead (wiki_s3_bucket wiki)
                          (s3_key_for_revision_metadata wiki pageid revid)) w))
      as [Hstore (evs & Hevs & Hreads)].
    rewrite H2 in Hstore, Hevs. simpl in Hstore, Hevs.
    apply store_revision_shape in H
      as (calls & value & rest & Htrace & Hcalls & Hchain & Hdone).
    + split; [|done].
      exists (EvHead (wiki_s3_bucket wiki)
                (s3_key_for_revision_metadata wiki pageid revid)
              :: evs ++ calls), ((revid, value) :: rest).
      split; [|split].
      * rewrite Htrace. cbn [fst snd]. rewrite Hevs.
        rewrite <- !app_assoc. cbn [app]. by rewrite <- app_assoc.
      * constructor; [done|]. apply Forall_app. split; [|done].
        by apply descent_event_reads.
      * cbn [fst snd] in Hchain. by rewrite Hstore in Hchain.
    + intros parent w3 w4 Hp. by apply IH.
    + done.
    + cbn [fst snd]. by rewrite Hstore.
Qed.

(** C1.  A run that returns has made its calls in this order: first reads
    and the writes of texts (each the text of a revision of the chain), then
    the metadata of the revisions of the chain, the oldest first and that of
    [revid] last.  The chain starts at [revid], follows the recorded parent
    ids, and ends at the root or at a revision archived beforehand. *)
Theorem ancestor_first_write_order (fuel : nat) (wiki : wiki_config)
    (pageid revid : pyint) (w w' : world) :
  handle_revision remote s3_fault fuel wiki pageid revid w = (Ok (), w') →
  ∃ calls chain,
    w_trace w' = w_trace w ++ calls
                   ++ (metadata_put wiki pageid <$> reverse chain) ∧
    Forall (descent_event wiki pageid chain) calls ∧
    Forall (λ ev, is_metadata_put ev = false) calls ∧
    chain_from wiki pageid (w_store w) revid chain.
Proof.
  intros H. apply handle_revision_shape in H as [(calls & chain & Ht & Hc & Hch) _].
  exists calls, chain. split; [done|]. split; [done|]. split; [|done].
  eapply Forall_impl; [exact Hc|].
  intros [| bucket key body | |]; simpl; try done.
  by intros (rm & text & _ & _ & _ & ->).
Qed.

Lemma s3_key_exists_found (bucket key : string) (w : world) :
  s3_fault (clock w) = None →
  is_Some (w_store w !! (bucket, key)) →
  s3_key_exists s3_fault bucket key w = (Ok true, log (EvHead bucket key) w).
Proof.
  intros Hf Hk. unfold s3_key_exists, head_object. rewrite Hf.
  by rewrite bool_decide_eq_true_2.
Qed.

Lemma s3_key_exists_missing (bucket key : string) (w : world) :
  s3_fault (clock w) = None →
  w_store w !! (bucket, key) = None →
  s3_key_exists s3_fault bucket key w = (Ok false, log (EvHead bucket key) w).
Proof.
  intros Hf Hk. unfold s3_key_exists, head_object. rewrite Hf.
  rewrite bool_decide_eq_false_2; [done|]. rewrite Hk. by intros [? ?].
Qed.

(** A call for the root, or for a revision whose metadata is stored, makes
    at most the probe. *)
Lemma handle_revision_memo (fuel : nat) (wiki : wiki_config)
    (pageid revid : pyint) (w : world) :
  int_of revid = 0 ∨
  is_Some (w_store w !! (wiki_s3_bucket wiki,
                         s3_key_for_revision_metadata wiki pageid revid)) →
  w_store (handle_revision remote s3_fault fuel wiki pageid revid w).2
  = w_store w ∧
  w_heap (handle_revision remote s3_fault fuel wiki pageid revid w).2
  = w_heap w ∧
  (∃ evs,
     w_trace (handle_revision remote s3_fault fuel wiki pageid revid w).2
     = w_trace w ++ evs ∧
     Forall (λ ev, is_write ev = false ∧ is_post ev = false) evs) ∧
  (fuel ≠ O → s3_fault (clock w) = None →
   (handle_revision remote s3_fault fuel wiki pageid revid w).1 = Ok ()).
Proof.
  intros Hmemo. destruct fuel as [|fuel]; cbn [handle_revision].
  { repeat split; [|done]. exists []. by rewrite app_nil_r. }
  case_bool_decide as Hne.
  { repeat split. exists []. by rewrite app_nil_r. }
  destruct Hmemo as [?|Hmemo]; [done|].
  unfold mbind, M_bind, s3_key_for_revision_metadata_exists,
    s3_key_exists, head_object.
  destruct (s3_fault (clock w)) as [f|].
  - destruct f; simpl; (repeat split; [|done]);
      eexists [_]; by repeat constructor.
  - rewrite bool_decide_eq_true_2 by done. simpl.
    repeat split. eexists [_]. by repeat constructor.
Qed.

(** C3.  When the metadata of (pageid, revid) is in the store, the call
    changes neither the store nor any dict and makes no call other than the
    one probe of that key (none at all for the root); when S3 answers the
    probe, it returns. *)
Theorem memoization_short_circuit (fuel : nat) (wiki : wiki_config)
    (pageid revid : pyint) (w : world) :
  is_Some (w_store w !! (wiki_s3_bucket wiki,
                         s3_key_for_revision_metadata wiki pageid revid)) →
  s3_fault (clock w) = None →
  (handle_revision remote s3_fault (S fuel) wiki pageid revid w).1 = Ok () ∧
  w_store (handle_revision remote s3_fault (S fuel) wiki pageid revid w).2
  = w_store w ∧
  w_heap (handle_revision remote s3_fault (S fuel) wiki pageid revid w).2
  = w_heap w ∧
  w_trace (handle_revision remote s3_fault (S fuel) wiki pageid revid w).2
  = w_trace w ++
      (if bool_decide (int_of revid = 0) then []
       else [EvHead (wiki_s3_bucket wiki)
               (s3_key_for_revision_metadata wiki pageid revid)]).
Proof.
  intros Hmemo Hfault. cbn [handle_revision].
  case_bool_decide as Hne.
  { repeat split. simpl. by rewrite app_nil_r. }
  unfold mbind, M_bind, s3_key_for_revision_metadata_exists.
  by rewrite s3_key_exists_found.
Qed.

(** C2.  Two calls one after the other leave the store as the first call
    leaves it, and the second one makes no write and no request: after a
    first call that returns, the second finds the metadata (or the root)
    and returns at once; a first call that raises ends the sequence. *)
Theorem archive_idempotent (fuel1 fuel2 : nat) (wiki : wiki_config)
    (pageid revid : pyint) (w : world) :
  w_store (handle_revision_twice remote s3_fault fuel1 fuel2 wiki pageid
             revid w).2
  = w_store (handle_revision remote s3_fault fuel1 wiki pageid revid w).2 ∧
  (∃ evs,
     w_trace (handle_revision_twice remote s3_fault fuel1 fuel2 wiki pageid
                revid w).2
     = w_trace (handle_revision remote s3_fault fuel1 wiki pageid revid w).2
         ++ evs ∧
     Forall (λ ev, is_write ev = false ∧ is_post ev = false) evs) ∧
  ((handle_revision remote s3_fault fuel1 wiki pageid revid w).1 = Ok () →
   fuel2 ≠ O →
   s3_fault
     (clock (handle_revision remote s3_fault fuel1 wiki pageid revid w).2)
   = None →
   (handle_revision_twice remote s3_fault fuel1 fuel2 wiki pageid revid w).1
   = Ok ()).
Proof.
  unfold handle_revision_twice, mbind, M_bind.
  destruct (handle_revision remote s3_fault fuel1 wiki pageid revid w)
    as [[[]|e|] w1] eqn:Hfirst; cbn [fst snd].
  - apply handle_revision_shape in Hfirst as [_ Hdone].
    assert (int_of revid = 0 ∨
            is_Some (w_store w1 !! (wiki_s3_bucket wiki,
                       s3_key_for_revision_metadata wiki pageid revid)))
      as Hmemo.
    { destruct (decide (int_of revid = 0)); [by left | right; by apply Hdone]. }
    destruct (handle_revision_memo fuel2 wiki pageid revid w1 Hmemo)
      as (Hs & _ & Ht & Hok).
    split; [done|]. split; [done|]. intros _. apply Hok.
  - split; [done|]. split; [|done]. exists []. by rewrite app_nil_r.
  - split; [done|]. split; [|done]. exists []. by rewrite app_nil_r.
Qed.

Lemma allowed_write_not_root (wiki : wiki_config) (pageid : pyint)
    (st : gmap (string * string) s3_body) (bucket key : string)
    (ev : event) :
  allowed_write wiki pageid st ev →
  (∃ body, ev = EvPut bucket key body) ∨ ev = EvPutFailed bucket key →
  key ≠ s3_key_for_revision_metadata wiki pageid (PInt 0) ∧
  key ≠ s3_key_for_revision_content wiki pageid (PInt 0).
Proof.
  intros Hallowed Hev.
  assert (∃ revid, int_of revid ≠ 0 ∧
            (key = s3_key_for_revision_metadata wiki pageid revid ∨
             key = s3_key_for_revision_content wiki pageid revid))
    as (revid & Hne & Hkey).
  { destruct Hev as [[body ->]| ->]; simpl in Hallowed;
      destruct Hallowed as (_ & revid & Hne & [Hkey|[Hkey _]]);
      exists revid; (split; [done|]); first [by left | by right]. }
  destruct Hkey as [-> | ->]; split; intros Heq.
  - by apply metadata_key_inj in Heq.
  - by apply metadata_key_not_content_key in Heq.
  - symmetry in Heq. by apply metadata_key_not_content_key in Heq.
  - by apply content_key_inj in Heq.
Qed.

(** C9.  A call for revision 0 returns at once and leaves the world as it
    is: no request, no probe, no write.  And no call, whatever its
    arguments and its outcome, writes under a key of revision 0. *)
Theorem root_sentinel (fuel : nat) (wiki : wiki_config) (pageid : pyint)
    (w : world) :
  handle_revision remote s3_fault (S fuel) wiki pageid (PInt 0) w
  = (Ok (), w) ∧
  ∀ (fuel' : nat) (revid : pyint) (w0 : world) (evs : list event)
    (bucket key : string),
    w_trace (handle_revision remote s3_fault fuel' wiki pageid revid w0).2
    = w_trace w0 ++ evs →
    (∃ body, EvPut bucket key body ∈ evs) ∨ EvPutFailed bucket key ∈ evs →
    key ≠ s3_key_for_revision_metadata wiki pageid (PInt 0) ∧
    key ≠ s3_key_for_revision_content wiki pageid (PInt 0).
Proof.
  split; [done|]. intros fuel' revid w0 evs bucket key Htrace Hev.
  destruct (handle_revision_archives fuel' wiki pageid revid w0)
    as [_ (evs' & Htrace' & Hallowed)].
  rewrite Htrace in Htrace'. apply app_inv_head in Htrace' as <-.
  rewrite Forall_forall in Hallowed.
  destruct Hev as [[body Hin]|Hin];
    eapply allowed_write_not_root; eauto.
Qed.

(** *** The checks on the reply *)

Lemma map_size_1_lookup (m : pydict) (k : string) (x : json) :
  size m = 1%nat → m !! k = Some x → m = {[ k := x ]}.
Proof.
  intros Hsize Hk. rewrite <- (insert_delete_id m k x Hk).
  assert (delete k m = ∅) as ->; [|done].
  apply map_size_empty_iff. rewrite map_size_delete_Some by eauto.
  by rewrite Hsize.
Qed.

Tactic Notation "bind_inv" hyp(H) "as" ident(x) ident(Hx) :=
  apply outcome_bind_Ok_inv in H as (x & Hx & H).
Ltac bind_skip H := apply outcome_bind_Ok_inv in H as (? & _ & H).

Lemma check_response_single (pageid revid : pyint) (result page revision : json) :
  check_response pageid revid result = Ok (page, revision) →
  single_revision_reply pageid revid result.
Proof.
  unfold check_response. intros H.
  do 2 bind_skip H. bind_inv H as pages Hpages. do 2 bind_skip H.
  bind_inv H as n Hlen. bind_inv H as u1 Hn. bind_inv H as page' Hpage.
  do 2 bind_skip H. bind_inv H as page_pageid Hpid. bind_inv H as u2 Hpideq.
  do 6 bind_skip H. bind_inv H as revisions Hrevs.
  bind_inv H as n' Hlen'. bind_inv H as u3 Hn'. bind_inv H as revision' Hrev.
  do 2 bind_skip H. bind_inv H as revision_revid Hrid. bind_inv H as u4 Hrideq.
  do 8 bind_skip H. injection H as <- <-.
  apply py_assert_Ok_inv, bool_decide_eq_true in Hn, Hn'. subst n n'.
  apply py_assert_Ok_inv in Hpideq, Hrideq.
  destruct pages as [| | | | |pages]; try done.
  destruct revisions as [| | |s|revisions|m]; try done.
  - destruct s as [|c [|c' s]]; simplify_eq/=.
  - destruct revisions as [|revision [|? ?]]; simplify_eq/=.
    exists (py_str pageid), page', page_pageid, revision', revision_revid.
    repeat split; try done.
    rewrite Hpages. do 2 f_equal.
    destruct (pages !! py_str pageid) as [pg|] eqn:Hpg; [|done].
    simplify_eq. by apply map_size_1_lookup.
Qed.

Lemma protocol_outcome_bind {A B} (o : outcome A) (f : A → outcome B) :
  protocol_outcome o → (∀ a, protocol_outcome (f a)) →
  protocol_outcome (o ≫= f).
Proof. destruct o; simpl; [auto | done | done]. Qed.

Lemma py_assert_protocol (b : bool) : protocol_outcome (py_assert b).
Proof. destruct b; simpl; [done | by left]. Qed.

Lemma py_contains_protocol (k : string) (v : json) :
  protocol_outcome (py_contains k v).
Proof. destruct v; simpl; try done; by right; left. Qed.

Lemma py_getitem_protocol (v : json) (k : string) :
  protocol_outcome (py_getitem v k).
Proof.
  destruct v as [| | | | |m]; simpl; try (by right; left).
  destruct (m !! k); simpl; [done | by right; right; left].
Qed.

Lemma py_getitem_0_protocol (v : json) : protocol_outcome (py_getitem_0 v).
Proof.
  destruct v as [| | |[|c s]|[|x l]|m]; simpl; try done;
    unfold ProtocolError; auto.
Qed.

Lemma py_len_protocol (v : json) : protocol_outcome (py_len v).
Proof. destruct v; simpl; try done; by right; left. Qed.

Lemma check_response_protocol (pageid revid : pyint) (result : json) :
  protocol_outcome (check_response pageid revid result).
Proof.
  unfold check_response.
  repeat first
    [ apply protocol_outcome_bind; [|intros ?]
    | apply py_assert_protocol | apply py_contains_protocol
    | apply py_getitem_protocol | apply py_getitem_0_protocol
    | apply py_len_protocol | exact I ].
Qed.

(** C5.  When the reply to the request for one revision is not a single page
    with the asked id holding a single revision with the asked id, the call
    raises (an [AssertionError], or the exception of taking the reply apart)
    in the world the request left: since it started it has made no write,
    and the store is as it was. *)
Theorem single_revid_validation (fuel : nat) (wiki : wiki_config)
    (pageid revid : pyint) (w w1 w2 : world) (need : bool) (result : json) :
  int_of revid ≠ 0 →
  s3_key_for_revision_metadata_exists s3_fault wiki pageid revid w
  = (Ok false, w1) →
  fetch_revision remote s3_fault fuel wiki pageid revid w1
  = (Ok (need, result), w2) →
  ¬ single_revision_reply pageid revid result →
  ∃ e,
    handle_revision remote s3_fault (S fuel) wiki pageid revid w
    = (Raise e, w2) ∧
    ProtocolError e ∧
    w_store w2 = w_store w ∧
    ∃ evs, w_trace w2 = w_trace w ++ evs ∧
           Forall (λ ev, is_write ev = false) evs.
Proof.
  intros Hne Hhead Hfetch Hbad.
  pose proof (check_response_protocol pageid revid result) as Hproto.
  destruct (check_response pageid revid result) as [[page revision]|e|] eqn:Hc;
    [|clear Hbad|done].
  { destruct Hbad. by eapply check_response_single. }
  exists e. split; [|split; [done|]].
  - cbn [handle_revision]. rewrite bool_decide_eq_false_2 by done.
    unfold mbind at 1, M_bind. rewrite Hhead.
    unfold mbind at 1, M_bind. rewrite Hfetch. cbn [fst snd].
    unfold store_revision, mbind at 1, M_bind, lift. by rewrite Hc.
  - pose proof (s3_key_exists_reads (wiki_s3_bucket wiki)
                  (s3_key_for_revision_metadata wiki pageid revid) w) as H1.
    unfold s3_key_for_revision_metadata_exists in Hhead.
    rewrite Hhead in H1.
    pose proof (fetch_revision_reads fuel wiki pageid revid w1) as H2.
    rewrite Hfetch in H2. cbn [snd] in *.
    assert (reads w w2) as [Hs (evs & Ht & Hr)]
      by (etrans; [exact H1 | exact H2]).
    split; [done|]. exists evs. split; [done|].
    eapply Forall_impl; [exact Hr|]. intros ev Hev. simpl in Hev.
    by apply negb_true_iff in Hev.
Qed.

(** *** A text that is stored already *)

Lemma bind_world_Ok {A B} (m : M A) (f : A → M B) (w w1 : world) (a : A) :
  m w = (Ok a, w1) → (m ≫= f) w = f a w1.
Proof. intros H. unfold mbind, M_bind. by rewrite H. Qed.

Lemma fetch_revision_stored (fuel : nat) (wiki : wiki_config)
    (pageid revid : pyint) (w : world) :
  s3_fault (clock w) = None →
  is_Some (w_store w !! (wiki_s3_bucket wiki,
                         s3_key_for_revision_content wiki pageid revid)) →
  ∃ evs,
    w_trace (fetch_revision remote s3_fault (S fuel) wiki pageid revid w).2
    = w_trace w ++
        EvHead (wiki_s3_bucket wiki)
          (s3_key_for_revision_content wiki pageid revid)
        :: EvPost (wiki_api wiki)
             (base_params_of
                {[ "prop" := JStr "revisions|info";
                   "rvprop" := JStr "ids|user|timestamp|comment";
                   "inprop" := JStr "url";
                   "revids" := json_of revid ]})
        :: evs.
Proof.
  intros Hfault Hstored. unfold fetch_revision.
  erewrite bind_world_Ok by reflexivity.
  set (req_params := fresh (dom (w_heap w))).
  unfold s3_key_for_revision_content_exists.
  erewrite bind_world_Ok by (by apply s3_key_exists_found).
  cbn [negb]. erewrite bind_world_Ok by reflexivity.
  set (w3 := log _ _).
  destruct (gen_created_first_post fuel (wiki_api wiki) req_params w3)
    as [evs Hevs].
  rewrite <- gen_next_world in Hevs.
  exists evs. unfold mbind, M_bind, next.
  destruct (gen_next remote (S fuel) _ w3) as [[[q| |] g'] w4];
    cbn [fst snd] in *; unfold mret, M_ret; cbn [snd]; rewrite Hevs;
    unfold w3, log; cbn [w_trace w_heap];
    rewrite lookup_insert_eq, <- app_assoc; done.
Qed.

Lemma handle_revision_S (fuel : nat) (wiki : wiki_config)
    (pageid revid : pyint) :
  handle_revision remote s3_fault (S fuel) wiki pageid revid
  = (if bool_decide (int_of revid = 0) then mret () else
     archived ← s3_key_for_revision_metadata_exists s3_fault wiki pageid revid;
     if archived : bool then mret () else
     nr ← fetch_revision remote s3_fault fuel wiki pageid revid;
     store_revision s3_fault (handle_revision remote s3_fault fuel wiki pageid)
       wiki pageid revid nr.1 nr.2).
Proof. reflexivity. Qed.

(** The run for a revision whose text is stored and whose metadata is
    not: its request, its writes, and its last call when it returns. *)
Lemma content_stored_run (fuel : nat) (wiki : wiki_config)
    (pageid revid : pyint) (w : world) :
  int_of revid ≠ 0 →
  w_store w !! (wiki_s3_bucket wiki,
                s3_key_for_revision_metadata wiki pageid revid) = None →
  is_Some (w_store w !! (wiki_s3_bucket wiki,
                         s3_key_for_revision_content wiki pageid revid)) →
  s3_fault (clock w) = None →
  s3_fault (S (clock w)) = None →
  (∃ evs,
     w_trace (handle_revision remote s3_fault (S (S fuel)) wiki pageid revid
                w).2
     = w_trace w ++
         EvHead (wiki_s3_bucket wiki)
           (s3_key_for_revision_metadata wiki pageid revid)
         :: EvHead (wiki_s3_bucket wiki)
              (s3_key_for_revision_content wiki pageid revid)
         :: EvPost (wiki_api wiki)
              (base_params_of
                 {[ "prop" := JStr "revisions|info";
                    "rvprop" := JStr "ids|user|timestamp|comment";
                    "inprop" := JStr "url";
                    "revids" := json_of revid ]})
         :: evs) ∧
  (∀ evs,
     w_trace (handle_revision remote s3_fault (S (S fuel)) wiki pageid revid
                w).2
     = w_trace w ++ evs →
     Forall (λ ev, ∀ bucket key,
               (∃ body, ev = EvPut bucket key body)
               ∨ ev = EvPutFailed bucket key →
               key ≠ s3_key_for_revision_content wiki pageid revid) evs) ∧
  ((handle_revision remote s3_fault (S (S fuel)) wiki pageid revid w).1
   = Ok () →
   ∃ calls value rest,
     w_trace (handle_revision remote s3_fault (S (S fuel)) wiki pageid revid
                w).2
     = w_trace w ++ calls
         ++ (metadata_put wiki pageid <$> reverse rest)
         ++ [EvPut (wiki_s3_bucket wiki)
               (s3_key_for_revision_metadata wiki pageid revid)
               (YamlDump value)] ∧
     Forall (descent_event wiki pageid rest) calls ∧
     meta_revid value = json_of revid ∧
     chain_from wiki pageid (w_store w) revid ((revid, value) :: rest)).
Proof.
  intros Hne Hmeta Hcontent Hfault1 Hfault2.
  set (run := handle_revision remote s3_fault (S (S fuel)) wiki pageid revid w).
  assert (∀ evs,
     w_trace run.2 = w_trace w ++ evs →
     Forall (λ ev, ∀ bucket key,
               (∃ body, ev = EvPut bucket key body)
               ∨ ev = EvPutFailed bucket key →
               key ≠ s3_key_for_revision_content wiki pageid revid) evs)
    as Hnowrite.
  { intros evs Htrace.
    destruct (handle_revision_archives (S (S fuel)) wiki pageid revid w)
      as [_ (evs' & Htrace' & Hallowed)].
    fold run in Htrace'. rewrite Htrace in Htrace'.
    apply app_inv_head in Htrace' as <-.
    eapply Forall_impl; [exact Hallowed|].
    intros ev Hev bucket key Hwrite Heq. subst key.
    assert (∃ r, s3_key_for_revision_content wiki pageid revid
                 = s3_key_for_revision_metadata wiki pageid r
               ∨ w_store w !! (wiki_s3_bucket wiki,
                    s3_key_for_revision_content wiki pageid revid) = None)
      as [r [Hkey|Hkey]].
    { destruct Hwrite as [[body ->]| ->]; simpl in Hev;
        destruct Hev as (-> & r & _ & [Hk|[_ Hk]]); exists r;
        first [by left | by right]. }
    - symmetry in Hkey. by apply metadata_key_not_content_key in Hkey.
    - rewrite Hkey in Hcontent. by destruct Hcontent. }
  split; [|split; [exact Hnowrite|]].
  - subst run. rewrite handle_revision_S.
    rewrite bool_decide_eq_false_2 by done.
    erewrite bind_world_Ok
      by (by apply (s3_key_exists_missing (wiki_s3_bucket wiki))).
    set (w1 := log _ w).
    destruct (fetch_revision_stored fuel wiki pageid revid w1)
      as [evs Hevs]; [|done|].
    { unfold w1, clock, log. cbn [w_trace].
      rewrite length_app, Nat.add_1_r. exact Hfault2. }
    pose proof (fetch_revision_need (S fuel) wiki pageid revid w1) as Hneed.
    unfold mbind at 1, M_bind.
    destruct (fetch_revision remote s3_fault (S fuel) wiki pageid revid w1)
      as [[[need result]| |] w2]; cbn [fst snd] in *.
    + specialize (Hneed w2 need result eq_refl).
      rewrite bool_decide_eq_true_2 in Hneed by done. simpl in Hneed.
      destruct (store_revision_archives
                  (handle_revision remote s3_fault (S fuel) wiki pageid)
                  wiki pageid revid need result w2 Hne)
        as [_ (evs' & Hevs' & _)].
      { apply handle_revision_archives. }
      { by rewrite Hneed. }
      exists (evs ++ evs'). rewrite Hevs', Hevs. unfold w1, log.
      cbn [w_trace]. by rewrite <- !app_assoc.
    + exists evs. rewrite Hevs. unfold w1, log. cbn [w_trace].
      by rewrite <- !app_assoc.
    + exists evs. rewrite Hevs. unfold w1, log. cbn [w_trace].
      by rewrite <- !app_assoc.
  - intros Hok. destruct run as [o w'] eqn:Hrun. simpl in Hok. subst o.
    apply handle_revision_shape in Hrun
      as [(calls & chain & Htrace & Hcalls & Hchain) _].
    specialize (Hnowrite _ Htrace). apply Forall_app in Hnowrite as [Hnw _].
    inversion Hchain as [r H0|r ? Hin|r value parent rest ? ? Hrev Hpar Hrest];
      subst.
    + done.
    + rewrite Hmeta in Hin. by destruct Hin.
    + exists calls, value, rest. cbn [snd]. split; [|split; [|done]].
      * by rewrite Htrace, reverse_cons, fmap_app.
      * rewrite Forall_forall in Hcalls, Hnw. apply Forall_forall.
        intros ev Hev. specialize (Hcalls ev Hev). specialize (Hnw ev Hev).
        destruct ev as [| bucket key body | |]; simpl in *; try done.
        destruct Hcalls as (rm & text & Hin & -> & -> & ->).
        apply elem_of_cons in Hin as [->|Hin]; [|by exists rm, text].
        by destruct (Hnw _ _ (or_introl (ex_intro _ _ eq_refl))).
Qed.

(** *** Fuel *)

Lemma settled_refl {A} (m : M A) : settled m m.
Proof. by intros w _. Qed.

Lemma settled_bind {A B} (m m' : M A) (f f' : A → M B) :
  settled m m' → (∀ a, settled (f a) (f' a)) →
  settled (m ≫= f) (m' ≫= f').
Proof.
  intros Hm Hf w Hne. unfold mbind, M_bind in *.
  destruct (m w) as [[a| |] w1] eqn:Hmw; [| |done].
  - rewrite (Hm w), Hmw by by rewrite Hmw. by apply Hf.
  - by rewrite (Hm w), Hmw by by rewrite Hmw.
Qed.

Ltac settled_go leaf :=
  cbv zeta;
  repeat first
    [ leaf
    | apply settled_refl
    | apply settled_bind; [|intros ?]
    | match goal with
      | |- settled (match ?x with _ => _ end) (match ?x with _ => _ end) =>
          destruct x
      end ].

Lemma mwapi_loop_settled (fuel : nat) (endpoint : string) :
  ∀ base_params continue_params,
    settled (mwapi_loop remote fuel endpoint base_params continue_params)
            (mwapi_loop remote (S fuel) endpoint base_params continue_params).
Proof.
  induction fuel as [|fuel IH]; intros base_params continue_params.
  - by intros w.
  - change (mwapi_loop remote (S (S fuel)) endpoint base_params
              continue_params)
      with (j ← mwapi_request remote endpoint base_params continue_params;
            match resp_query j with
            | Some q => mret (q, (base_params, j))
            | None =>
                match resp_query_continue j with
                | Some qc =>
                    continue_params' ← resolve_continue qc;
                    mwapi_loop remote (S fuel) endpoint base_params
                      continue_params'
                | None => raise StopIteration
                end
            end).
    cbn [mwapi_loop]. settled_go ltac:(apply IH).
Qed.

Lemma gen_body_settled (fuel : nat) (g : generator) :
  settled (gen_body remote fuel g) (gen_body remote (S fuel) g).
Proof.
  unfold gen_body. settled_go ltac:(apply mwapi_loop_settled).
Qed.

Lemma next_settled (fuel : nat) (g : generator) :
  settled (next remote fuel g) (next remote (S fuel) g).
Proof.
  intros w. unfold next, gen_next.
  pose proof (gen_body_settled fuel g w) as H.
  destruct (gen_body remote fuel g w) as [[[q [base_params j]]|e|] w'];
    cbn [fst snd]; intros Hne; [| |done].
  - by rewrite H.
  - by rewrite H.
Qed.

Lemma fetch_revision_settled (fuel : nat) (wiki : wiki_config)
    (pageid revid : pyint) :
  settled (fetch_revision remote s3_fault fuel wiki pageid revid)
          (fetch_revision remote s3_fault (S fuel) wiki pageid revid).
Proof.
  unfold fetch_revision. settled_go ltac:(apply next_settled).
Qed.

Lemma store_revision_settled (recurse recurse' : pyint → M unit)
    (wiki : wiki_config) (pageid revid : pyint) (need : bool) (result : json) :
  (∀ parent, settled (recurse parent) (recurse' parent)) →
  settled (store_revision s3_fault recurse wiki pageid revid need result)
          (store_revision s3_fault recurse' wiki pageid revid need result).
Proof.
  intros Hrec. unfold store_revision. settled_go ltac:(apply Hrec).
Qed.

Lemma handle_revision_settled (fuel : nat) (wiki : wiki_config)
    (pageid : pyint) :
  ∀ revid,
    settled (handle_revision remote s3_fault fuel wiki pageid revid)
            (handle_revision remote s3_fault (S fuel) wiki pageid revid).
Proof.
  induction fuel as [|fuel IH]; intros revid.
  - by intros w.
  - rewrite (handle_revision_S (S fuel)), (handle_revision_S fuel).
    settled_go ltac:(first
      [ apply fetch_revision_settled
      | apply store_revision_settled; apply IH ]).
Qed.

(** More fuel does not change a run that had enough of it. *)
Lemma handle_revision_fuel (fuel fuel' : nat) (wiki : wiki_config)
    (pageid revid : pyint) :
  (fuel ≤ fuel')%nat →
  settled (handle_revision remote s3_fault fuel wiki pageid revid)
          (handle_revision remote s3_fault fuel' wiki pageid revid).
Proof.
  induction 1 as [|fuel' _ IH]; [apply settled_refl|].
  intros w Hne. rewrite <- (IH w Hne).
  apply handle_revision_settled. by rewrite (IH w Hne).
Qed.

End ArchiverProofs.

(** ** The theorems on the example wiki *)

Lemma ancestor_first_write_order_witness :
  ∃ calls chain,
    w_trace (handle_revision example_remote no_fault 10 example_wiki
               (PInt 5) (PInt 3) empty_world).2
    = w_trace empty_world ++ calls
        ++ (metadata_put example_wiki (PInt 5) <$> reverse chain) ∧
    Forall (descent_event example_wiki (PInt 5) chain) calls ∧
    Forall (λ ev, is_metadata_put ev = false) calls ∧
    chain_from example_wiki (PInt 5) (w_store empty_world) (PInt 3) chain.
Proof.
  apply (ancestor_first_write_order example_remote no_fault 10 example_wiki
           (PInt 5) (PInt 3) empty_world).
  vm_compute. reflexivity.
Defined.

Lemma memoization_short_circuit_witness :
  (handle_revision example_remote no_fault 1 example_wiki (PInt 5) (PInt 3)
     archived_world).1 = Ok ().
Proof.
  refine (proj1 (memoization_short_circuit example_remote no_fault 0
                   example_wiki (PInt 5) (PInt 3) archived_world _ _)).
  - vm_compute. eexists. reflexivity.
  - reflexivity.
Defined.

Lemma single_revid_validation_witness :
  ∃ e,
    handle_revision empty_remote no_fault 2 example_wiki (PInt 5) (PInt 3)
      empty_world
    = (Raise e,
       (fetch_revision empty_remote no_fault 1 example_wiki (PInt 5) (PInt 3)
          (s3_key_for_revision_metadata_exists no_fault example_wiki
             (PInt 5) (PInt 3) empty_world).2).2) ∧
    ProtocolError e.
Proof.
  destruct (single_revid_validation empty_remote no_fault 1 example_wiki
              (PInt 5) (PInt 3) empty_world
              (s3_key_for_revision_metadata_exists no_fault example_wiki
                 (PInt 5) (PInt 3) empty_world).2
              (fetch_revision empty_remote no_fault 1 example_wiki (PInt 5)
                 (PInt 3)
                 (s3_key_for_revision_metadata_exists no_fault example_wiki
                    (PInt 5) (PInt 3) empty_world).2).2
              true (JDict ∅)) as (e & Hrun & Herr & _).
  - simpl. lia.
  - vm_compute. reflexivity.
  - vm_compute. reflexivity.
  - intros (key & page & page_pageid & revision & revision_revid & H & _).
    vm_compute in H. discriminate H.
  - exists e. split; [exact Hrun | exact Herr].
Defined.

Lemma query_error_policy_witness :
  (gen_next refusing_remote 1 (mwapi_query "https://wiki.example/api.php" 1%positive)
     caller_world).1.1
  = Raise (WikiError (JStr "maxlag")).
Proof.
  refine (proj1 (query_error_policy refusing_remote 1
                   (mwapi_query "https://wiki.example/api.php" 1%positive)
                   caller_world [] []
                   "https://wiki.example/api.php"
                   (base_params_of {[ "generator" := JStr "allpages" ]})
                   200
                   (ApiResponse (Some (JStr "maxlag")) None None None)
                   (JStr "maxlag") _ _ _ _)).
  - vm_compute. reflexivity.
  - reflexivity.
  - lia.
  - left. reflexivity.
Defined.


Lemma caller_params_unchanged_witness :
  w_heap (consume example_remote 5 3
            (mwapi_query "https://wiki.example/api.php" 1%positive) caller_world).2
    !! 1%positive
  = w_heap caller_world !! 1%positive.
Proof.
  refine (proj1 (caller_params_unchanged example_remote 5 3
                   "https://wiki.example/api.php" 1%positive caller_world _)).
  vm_compute. eexists. reflexivity.
Defined.

(** * Further properties *)

Lemma post_bind {A B} (P : world → Prop) (m : M A) (f : A → M B) (w : world) :
  P (m w).2 →
  (∀ a w1, m w = (Ok a, w1) → P (f a w1).2) →
  P ((m ≫= f) w).2.
Proof.
  intros Hm Hf. unfold mbind, M_bind.
  destruct (m w) as [[a| |] w1] eqn:Hmw; [by apply Hf | done | done].
Qed.

#[global] Instance keeps_objects_preorder : PreOrder keeps_objects.
Proof.
  split.
  - by intros w k body.
  - intros w1 w2 w3 H1 H2 k body Hk. by apply H2, H1.
Qed.

Lemma store_eq_keeps (w w' : world) :
  w_store w' = w_store w → keeps_objects w w'.
Proof. intros Heq k body. by rewrite Heq. Qed.

Lemma parents_stored_content (wiki : wiki_config) (pageid revid : pyint)
    (st : gmap (string * string) s3_body) (body : s3_body) :
  parents_stored wiki pageid st →
  parents_stored wiki pageid
    (<[(wiki_s3_bucket wiki,
        s3_key_for_revision_content wiki pageid revid) := body]> st).
Proof.
  intros Hst r value parent Hr Hparent Hne.
  rewrite lookup_insert_ne in Hr.
  2:{ intros [= Heq]. symmetry in Heq.
      by apply metadata_key_not_content_key in Heq. }
  rewrite lookup_insert_ne.
  2:{ intros [= Heq]. symmetry in Heq.
      by apply metadata_key_not_content_key in Heq. }
  by eapply Hst.
Qed.

Lemma parents_stored_metadata (wiki : wiki_config) (pageid revid : pyint)
    (st : gmap (string * string) s3_body) (value : rev_metadata)
    (parent : pyint) :
  parents_stored wiki pageid st →
  as_revid (meta_parentid value) = Ok parent →
  (int_of parent ≠ 0 →
   is_Some (st !! (wiki_s3_bucket wiki,
                   s3_key_for_revision_metadata wiki pageid parent))) →
  parents_stored wiki pageid
    (<[(wiki_s3_bucket wiki,
        s3_key_for_revision_metadata wiki pageid revid) := YamlDump value]>
       st).
Proof.
  intros Hst Hparent Hstored r value' parent' Hr Hparent' Hne.
  apply lookup_insert_is_Some'. right.
  apply lookup_insert_Some in Hr as [[_ [= <-]]|[_ Hr]].
  - assert (parent' = parent) as -> by congruence. by apply Hstored.
  - by eapply Hst.
Qed.

(** ** Keys *)

Lemma read_decimal_no_slash (s : string) :
  ∀ acc v, read_decimal acc s = Some v → has_slash s = false.
Proof.
  induction s as [|c s IH]; intros acc v H; [done|]. simpl in *.
  destruct (digit_value c) as [d|] eqn:Hd; [|done].
  rewrite (IH _ _ H), orb_false_r. apply bool_decide_eq_false.
  intros ->. by vm_compute in Hd.
Qed.

Lemma py_format_08d_no_slash (n : Z) : has_slash (py_format_08d n) = false.
Proof.
  destruct (decide (0 ≤ n)) as [Hn|Hn].
  - eapply read_decimal_no_slash. by apply py_format_08d_read.
  - unfold py_format_08d. rewrite bool_decide_eq_true_2 by lia. simpl.
    eapply read_decimal_no_slash.
    by rewrite read_decimal_zeros, read_decimal_pretty.
Qed.

Lemma split_at_slash (s1 : string) :
  ∀ s2 t1 t2,
    has_slash s1 = false → has_slash s2 = false →
    s1 +:+ String "/" t1 = s2 +:+ String "/" t2 →
    s1 = s2 ∧ t1 = t2.
Proof.
  induction s1 as [|c s1 IH]; intros [|d s2] t1 t2 H1 H2 Heq; simpl in *.
  - by simplify_eq.
  - simplify_eq; try by rewrite bool_decide_eq_true_2 in H2.
  - simplify_eq; try by rewrite bool_decide_eq_true_2 in H1.
  - injection Heq as -> Heq.
    apply orb_false_iff in H1 as [_ H1], H2 as [_ H2].
    destruct (IH s2 t1 t2 H1 H2 Heq) as [-> ->]. done.
Qed.

Lemma key_fields_inj (prefix suffix : string) (p r p' r' : Z) :
  prefix +:+ "page_" +:+ py_format_08d p +:+ "/rev_" +:+ py_format_08d r
    +:+ suffix
  = prefix +:+ "page_" +:+ py_format_08d p' +:+ "/rev_" +:+ py_format_08d r'
      +:+ suffix →
  p = p' ∧ r = r'.
Proof.
  intros H. do 2 apply String.app_inj in H.
  apply split_at_slash in H as [Hp H];
    [|apply py_format_08d_no_slash..].
  apply (String.app_inj "rev_") in H. apply string_app_inv_tail in H.
  split; by apply py_format_08d_inj.
Qed.

(** X3.  Two revisions have the same metadata key, or the same content
    key, only when their page ids and their revision ids are the same
    numbers, and a metadata key is never a content key: under one prefix
    no two objects of the archive share a key. *)
Theorem storage_keys_injective (wiki : wiki_config)
    (pageid revid pageid' revid' : pyint) :
  (s3_key_for_revision_metadata wiki pageid revid
   = s3_key_for_revision_metadata wiki pageid' revid' →
   int_of pageid = int_of pageid' ∧ int_of revid = int_of revid') ∧
  (s3_key_for_revision_content wiki pageid revid
   = s3_key_for_revision_content wiki pageid' revid' →
   int_of pageid = int_of pageid' ∧ int_of revid = int_of revid') ∧
  s3_key_for_revision_metadata wiki pageid revid
  ≠ s3_key_for_revision_content wiki pageid' revid'.
Proof.
  split; [|split].
  - apply key_fields_inj.
  - apply key_fields_inj.
  - apply metadata_key_not_content_key.
Qed.

Section MoreArchiverProofs.

Context (remote : nat → string → pydict → http_reply).
Context (s3_fault : nat → option s3_failure).

(** *** What a run leaves in the store *)

Lemma put_object_keeps (bucket key : string) (body : s3_body) (w0 w : world) :
  keeps_objects w0 w →
  w_store w0 !! (bucket, key) = None →
  keeps_objects w0 (put_object s3_fault bucket key body w).2.
Proof.
  intros Hk Hnone. unfold put_object. destruct (s3_fault (clock w)); simpl.
  - by apply Hk.
  - intros k b Hb. simpl. rewrite lookup_insert_ne; [by apply Hk|].
    intros <-. by rewrite Hnone in Hb.
Qed.

Lemma store_revision_keeps (recurse : pyint → M unit) (wiki : wiki_config)
    (pageid revid : pyint) (need : bool) (result : json) (w : world) :
  (∀ parent, respects keeps_objects (recurse parent)) →
  w_store w !! (wiki_s3_bucket wiki,
                s3_key_for_revision_metadata wiki pageid revid) = None →
  (need = true →
   w_store w !! (wiki_s3_bucket wiki,
                 s3_key_for_revision_content wiki pageid revid) = None) →
  keeps_objects w
    (store_revision s3_fault recurse wiki pageid revid need result w).2.
Proof.
  intros Hrec Hmeta Hneed. unfold store_revision.
  apply post_bind; [reflexivity|].
  intros [page revision] w1 [_ ->]%lift_Ok_inv. cbv zeta. cbn [fst snd].
  apply post_bind; [reflexivity|]. intros parentid w1 [_ ->]%lift_Ok_inv.
  assert (keeps_objects w
            ((if need
              then content ← lift (revision_content wiki revision);
                   s3_put_revision_content s3_fault wiki pageid revid content
              else mret ()) w).2) as Htext.
  { destruct need; [|reflexivity].
    apply post_bind; [reflexivity|]. intros content w1 [_ ->]%lift_Ok_inv.
    unfold s3_put_revision_content. destruct content; try reflexivity.
    apply put_object_keeps; [reflexivity | by apply Hneed]. }
  apply post_bind; [exact Htext|]. intros [] w3 Hw3.
  rewrite Hw3 in Htext. cbn [snd] in Htext.
  apply post_bind; [exact Htext|]. intros parent w1 [_ ->]%lift_Ok_inv.
  assert (keeps_objects w (recurse parent w3).2) as Hparent
    by (etrans; [exact Htext | apply Hrec]).
  apply post_bind; [exact Hparent|]. intros [] w4 Hw4.
  rewrite Hw4 in Hparent. cbn [snd] in Hparent.
  apply post_bind; [exact Hparent|]. intros value w1 [_ ->]%lift_Ok_inv.
  by apply put_object_keeps.
Qed.

Lemma handle_revision_keeps (fuel : nat) (wiki : wiki_config)
    (pageid : pyint) :
  ∀ revid,
    respects keeps_objects
      (handle_revision remote s3_fault fuel wiki pageid revid).
Proof.
  induction fuel as [|fuel IH]; intros revid w.
  - reflexivity.
  - rewrite handle_revision_S. case_bool_decide as Hne; [reflexivity|].
    pose proof (s3_key_exists_run s3_fault (wiki_s3_bucket wiki)
                  (s3_key_for_revision_metadata wiki pageid revid) w)
      as [Hw1 Hrun].
    apply post_bind.
    { apply store_eq_keeps.
      unfold s3_key_for_revision_metadata_exists. by rewrite Hw1. }
    intros archived w1 Hhead.
    unfold s3_key_for_revision_metadata_exists in Hhead.
    rewrite Hhead in Hw1, Hrun. cbn [fst snd] in Hw1, Hrun.
    destruct Hrun as [_ Hfound]. subst w1.
    destruct archived; [by apply store_eq_keeps|].
    symmetry in Hfound. apply bool_decide_eq_false in Hfound.
    apply eq_None_not_Some in Hfound.
    set (w1 := log _ w).
    pose proof (fetch_revision_reads remote s3_fault fuel wiki pageid revid w1)
      as [Hstore _].
    apply post_bind; [by apply store_eq_keeps|].
    intros [need result] w2 Hfetch. rewrite Hfetch in Hstore.
    cbn [fst snd] in *.
    trans w2; [by apply store_eq_keeps|].
    apply store_revision_keeps; [apply IH | by rewrite Hstore |].
    intros ->. rewrite Hstore.
    apply fetch_revision_need in Hfetch. symmetry in Hfetch.
    apply negb_true_iff, bool_decide_eq_false in Hfetch.
    by apply eq_None_not_Some.
Qed.

(** X1.  Whatever the outcome of a run, every object that was in the store
    before it is still there afterwards, with the same body: the archiver
    does not overwrite or delete what earlier runs stored. *)
Theorem stored_objects_kept (fuel : nat) (wiki : wiki_config)
    (pageid revid : pyint) (w : world) (k : string * string)
    (body : s3_body) :
  w_store w !! k = Some body →
  w_store (handle_revision remote s3_fault fuel wiki pageid revid w).2 !! k
  = Some body.
Proof. apply handle_revision_keeps. Qed.

Lemma put_object_parents (wiki : wiki_config) (pageid revid : pyint)
    (value : rev_metadata) (parent : pyint) (w : world) :
  parents_stored wiki pageid (w_store w) →
  as_revid (meta_parentid value) = Ok parent →
  (int_of parent ≠ 0 →
   is_Some (w_store w !! (wiki_s3_bucket wiki,
                          s3_key_for_revision_metadata wiki pageid parent))) →
  parents_stored wiki pageid
    (w_store (s3_put_revision_metadata s3_fault wiki pageid revid value w).2).
Proof.
  intros Hst Hparent Hstored.
  unfold s3_put_revision_metadata, put_object.
  destruct (s3_fault (clock w)); simpl; [done|].
  by eapply parents_stored_metadata.
Qed.

Lemma store_revision_parents (recurse : pyint → M unit) (wiki : wiki_config)
    (pageid revid : pyint) (need : bool) (result : json) (w : world) :
  (∀ parent w1,
     parents_stored wiki pageid (w_store w1) →
     parents_stored wiki pageid (w_store (recurse parent w1).2) ∧
     ((recurse parent w1).1 = Ok () → int_of parent ≠ 0 →
      is_Some (w_store (recurse parent w1).2
               !! (wiki_s3_bucket wiki,
                   s3_key_for_revision_metadata wiki pageid parent)))) →
  parents_stored wiki pageid (w_store w) →
  parents_stored wiki pageid
    (w_store (store_revision s3_fault recurse wiki pageid revid need result
                w).2).
Proof.
  intros Hrec Hw. unfold store_revision.
  apply (post_bind (λ w', parents_stored wiki pageid (w_store w')));
    [done|].
  intros [page revision] w1 [_ ->]%lift_Ok_inv. cbv zeta. cbn [fst snd].
  apply (post_bind (λ w', parents_stored wiki pageid (w_store w')));
    [done|].
  intros parentid w1 [_ ->]%lift_Ok_inv.
  assert (parents_stored wiki pageid (w_store
            ((if need
              then content ← lift (revision_content wiki revision);
                   s3_put_revision_content s3_fault wiki pageid revid content
              else mret ()) w).2)) as Htext.
  { destruct need; [|done].
    apply (post_bind (λ w', parents_stored wiki pageid (w_store w')));
      [done|].
    intros content w1 [_ ->]%lift_Ok_inv.
    unfold s3_put_revision_content. destruct content; try done.
    unfold put_object. destruct (s3_fault (clock w)); simpl; [done|].
    by apply parents_stored_content. }
  apply (post_bind (λ w', parents_stored wiki pageid (w_store w')));
    [exact Htext|].
  intros [] w3 Hw3. rewrite Hw3 in Htext. cbn [snd] in Htext.
  apply (post_bind (λ w', parents_stored wiki pageid (w_store w')));
    [exact Htext|].
  intros parent w1 [Hparent ->]%lift_Ok_inv.
  destruct (Hrec parent w3 Htext) as [Hparents Hdone].
  apply (post_bind (λ w', parents_stored wiki pageid (w_store w')));
    [exact Hparents|].
  intros [] w4 Hw4. rewrite Hw4 in Hparents, Hdone. cbn [fst snd] in *.
  apply (post_bind (λ w', parents_stored wiki pageid (w_store w')));
    [exact Hparents|].
  intros value w1 [Hvalue ->]%lift_Ok_inv.
  apply metadata_value_fields in Hvalue as [_ Hpar].
  eapply put_object_parents; [done | by rewrite Hpar | by apply Hdone].
Qed.

Lemma handle_revision_parents (fuel : nat) (wiki : wiki_config)
    (pageid : pyint) :
  ∀ revid w,
    parents_stored wiki pageid (w_store w) →
    parents_stored wiki pageid
      (w_store (handle_revision remote s3_fault fuel wiki pageid revid w).2).
Proof.
  induction fuel as [|fuel IH]; intros revid w Hw; [done|].
  rewrite handle_revision_S. case_bool_decide as Hne; [done|].
  pose proof (s3_key_exists_run s3_fault (wiki_s3_bucket wiki)
                (s3_key_for_revision_metadata wiki pageid revid) w)
    as [Hw1 _].
  apply (post_bind (λ w', parents_stored wiki pageid (w_store w'))).
  { unfold s3_key_for_revision_metadata_exists. by rewrite Hw1. }
  intros archived w1 Hhead.
  unfold s3_key_for_revision_metadata_exists in Hhead.
  rewrite Hhead in Hw1. cbn [snd] in Hw1. subst w1.
  destruct archived; [done|].
  set (w1 := log _ w).
  pose proof (fetch_revision_reads remote s3_fault fuel wiki pageid revid w1)
    as [Hstore _].
  apply (post_bind (λ w', parents_stored wiki pageid (w_store w'))).
  { by rewrite Hstore. }
  intros [need result] w2 Hfetch. rewrite Hfetch in Hstore.
  cbn [fst snd] in *.
  apply store_revision_parents; [|by rewrite Hstore].
  intros parent w3 Hw3. split; [by apply IH|].
  intros Hok Hparent.
  destruct (handle_revision remote s3_fault fuel wiki pageid parent w3)
    as [o w4] eqn:Hrun.
  cbn [fst snd] in *. subst o.
  apply handle_revision_shape in Hrun as [_ Hdone]. by apply Hdone.
Qed.

(** X2.  The invariant the docstring of [handle_revision] relies on: if
    every stored metadata of the page names a parent that is the root or is
    stored too, this is still so after a run, whatever its outcome, at
    whichever call it failed. *)
Theorem parents_stay_stored (fuel : nat) (wiki : wiki_config)
    (pageid revid : pyint) (w : world) :
  parents_stored wiki pageid (w_store w) →
  parents_stored wiki pageid
    (w_store (handle_revision remote s3_fault fuel wiki pageid revid w).2).
Proof. apply handle_revision_parents. Qed.

(** *** The request for one revision *)

#[global] Instance extends_preorder : PreOrder extends.
Proof.
  split.
  - intros w. exists []. by rewrite app_nil_r.
  - intros w1 w2 w3 [evs1 H1] [evs2 H2]. exists (evs1 ++ evs2).
    by rewrite H2, H1, app_assoc.
Qed.

Lemma archives_extends wiki pageid (w w' : world) :
  archives wiki pageid w w' → extends w w'.
Proof. intros [_ (evs & Ht & _)]. by exists evs. Qed.

Lemma put_object_extends (bucket key : string) (body : s3_body) :
  respects extends (put_object s3_fault bucket key body).
Proof.
  intros w. unfold put_object. destruct (s3_fault (clock w)); simpl;
    by eexists [_].
Qed.

Lemma store_revision_extends (recurse : pyint → M unit) (wiki : wiki_config)
    (pageid revid : pyint) (need : bool) (result : json) :
  (∀ parent, respects extends (recurse parent)) →
  respects extends
    (store_revision s3_fault recurse wiki pageid revid need result).
Proof.
  intros Hrec. unfold store_revision, s3_put_revision_content,
    s3_put_revision_metadata.
  respects_go ltac:(first [ apply Hrec | apply put_object_extends ]).
Qed.

Lemma handle_revision_extends (fuel : nat) (wiki : wiki_config)
    (pageid revid : pyint) :
  respects extends (handle_revision remote s3_fault fuel wiki pageid revid).
Proof.
  intros w. eapply archives_extends, handle_revision_archives.
Qed.

Lemma revision_params_rvprop (revid : pyint) :
  revision_params revid !! "rvprop" = Some (JStr "ids|user|timestamp|comment").
Proof. by vm_compute. Qed.

Lemma dict_getitem_at (l : loc) (k : string) (v : json) (d : pydict)
    (h : gmap loc pydict) (st : gmap (string * string) s3_body)
    (tr : list event) :
  d !! k = Some v →
  dict_getitem l k (World (<[l := d]> h) st tr)
  = (Ok v, World (<[l := d]> h) st tr).
Proof.
  intros Hk. unfold dict_getitem, dict_get, mbind, M_bind.
  cbn [w_heap]. rewrite lookup_insert_eq. cbn [default from_option id].
  by rewrite Hk.
Qed.

Lemma dict_setitem_at (l : loc) (k : string) (v : json) (d : pydict)
    (h : gmap loc pydict) (st : gmap (string * string) s3_body)
    (tr : list event) :
  dict_setitem l k v (World (<[l := d]> h) st tr)
  = (Ok (), World (<[l := <[k := v]> d]> h) st tr).
Proof.
  unfold dict_setitem, dict_get, dict_put, mbind, M_bind.
  cbn [w_heap w_store w_trace]. rewrite lookup_insert_eq.
  cbn [default from_option id]. by rewrite insert_insert_eq.
Qed.

(** What [fetch_revision] does up to its request, when S3 answers the
    probe of the content key. *)
Lemma fetch_revision_missing (fuel : nat) (wiki : wiki_config)
    (pageid revid : pyint) (w : world) :
  s3_fault (clock w) = None →
  w_store w !! (wiki_s3_bucket wiki,
                s3_key_for_revision_content wiki pageid revid) = None →
  fetch_revision remote s3_fault fuel wiki pageid revid w
  = (result ← next remote fuel
                (mwapi_query (wiki_api wiki) (fresh (dom (w_heap w))));
     mret (true, result))
      (World (<[fresh (dom (w_heap w)) := content_params wiki revid]>
                (w_heap w))
             (w_store w)
             (w_trace w ++
                [EvHead (wiki_s3_bucket wiki)
                   (s3_key_for_revision_content wiki pageid revid)])).
Proof.
  intros Hfault Hmissing. unfold fetch_revision.
  fold (revision_params revid).
  erewrite bind_world_Ok by reflexivity.
  unfold s3_key_for_revision_content_exists.
  erewrite bind_world_Ok by (by apply s3_key_exists_missing).
  cbn [negb]. unfold log. cbn [w_heap w_store w_trace].
  set (l := fresh (dom (w_heap w))).
  erewrite bind_world_Ok; [reflexivity|].
  erewrite bind_world_Ok
    by (apply dict_getitem_at, revision_params_rvprop).
  unfold lift at 1. cbn [py_add_str].
  erewrite bind_world_Ok by reflexivity.
  erewrite bind_world_Ok by apply dict_setitem_at.
  unfold content_params.
  destruct (wiki_slots wiki); [by rewrite dict_setitem_at | done].
Qed.

Lemma fetch_revision_present (fuel : nat) (wiki : wiki_config)
    (pageid revid : pyint) (w : world) :
  s3_fault (clock w) = None →
  is_Some (w_store w !! (wiki_s3_bucket wiki,
                         s3_key_for_revision_content wiki pageid revid)) →
  fetch_revision remote s3_fault fuel wiki pageid revid w
  = (result ← next remote fuel
                (mwapi_query (wiki_api wiki) (fresh (dom (w_heap w))));
     mret (false, result))
      (World (<[fresh (dom (w_heap w)) := revision_params revid]> (w_heap w))
             (w_store w)
             (w_trace w ++
                [EvHead (wiki_s3_bucket wiki)
                   (s3_key_for_revision_content wiki pageid revid)])).
Proof.
  intros Hfault Hstored. unfold fetch_revision.
  erewrite bind_world_Ok by reflexivity.
  unfold s3_key_for_revision_content_exists.
  erewrite bind_world_Ok by (by apply s3_key_exists_found).
  cbn [negb]. by erewrite bind_world_Ok by reflexivity.
Qed.

(** *** One turn of the request loop *)

Lemma mwapi_loop_step (fuel : nat) (endpoint : string)
    (base_params continue_params : loc) (w : world) :
  let l := fresh (dom (w_heap w)) in
  let base := default ∅ (w_heap w !! base_params) in
  let d := default ∅ (<[l := base]> (w_heap w) !! continue_params) ∪ base in
  let w1 := World (<[l := d]> (w_heap w)) (w_store w)
                  (w_trace w ++ [EvPost endpoint d]) in
  mwapi_loop remote (S fuel) endpoint base_params continue_params w
  = match checked_reply (remote (clock w) endpoint d) with
    | Ok j =>
        match resp_query j with
        | Some q => (Ok (q, (base_params, j)), w1)
        | None =>
            match resp_query_continue j with
            | Some qc =>
                (continue_params' ← resolve_continue qc;
                 mwapi_loop remote fuel endpoint base_params continue_params')
                  w1
            | None => (Raise StopIteration, w1)
            end
        end
    | Raise e => (Raise e, w1)
    | OutOfFuel => (OutOfFuel, w1)
    end.
Proof.
  cbn [mwapi_loop]. unfold mbind at 1, M_bind at 1.
  rewrite mwapi_request_run. cbv zeta.
  destruct (checked_reply _) as [j| |]; [|done..].
  destruct (resp_query j); [done|]. by destruct (resp_query_continue j).
Qed.

(** The first turn of a query: the request carries the fixed parameters on
    top of the caller's. *)
Lemma gen_created_step (fuel : nat) (endpoint : string) (params : loc)
    (w : world) :
  let d := base_params_of (default ∅ (w_heap w !! params)) in
  ∃ (h : gmap loc pydict) (base_params : loc),
    let w1 := World h (w_store w) (w_trace w ++ [EvPost endpoint d]) in
    gen_body remote (S fuel) (mwapi_query endpoint params) w
    = match checked_reply (remote (clock w) endpoint d) with
      | Ok j =>
          match resp_query j with
          | Some q => (Ok (q, (base_params, j)), w1)
          | None =>
              match resp_query_continue j with
              | Some qc =>
                  (continue_params' ← resolve_continue qc;
                   mwapi_loop remote fuel endpoint base_params
                     continue_params') w1
              | None => (Raise StopIteration, w1)
              end
          end
      | Raise e => (Raise e, w1)
      | OutOfFuel => (OutOfFuel, w1)
      end.
Proof.
  intros d. rewrite gen_created_run. cbv zeta. fold d.
  set (base_params := fresh (dom (w_heap w))).
  set (continue_params := fresh (dom (<[base_params := d]> (w_heap w)))).
  assert (continue_params ≠ base_params) as Hne.
  { intros Heq. pose proof (is_fresh (dom (<[base_params := d]> (w_heap w))))
      as Hfresh. fold continue_params in Hfresh. rewrite Heq in Hfresh.
    apply Hfresh, elem_of_dom. rewrite lookup_insert_eq. eauto. }
  rewrite mwapi_loop_step. cbv zeta. cbn [w_heap w_store w_trace].
  unfold clock. cbn [w_trace].
  set (h0 := <[continue_params := ∅]> (<[base_params := d]> (w_heap w))).
  assert (default ∅ (h0 !! base_params) = d) as Hbase.
  { unfold h0. by rewrite lookup_insert_ne, lookup_insert_eq. }
  assert (default ∅ (<[fresh (dom h0) := default ∅ (h0 !! base_params)]> h0
                     !! continue_params) = ∅) as Hcont.
  { rewrite lookup_insert_ne.
    - unfold h0. by rewrite lookup_insert_eq.
    - intros Heq. pose proof (is_fresh (dom h0)) as Hfresh.
      rewrite Heq in Hfresh. apply Hfresh, elem_of_dom. unfold h0.
      rewrite lookup_insert_eq. eauto. }
  rewrite Hcont, Hbase, (left_id_L ∅ (∪)).
  by exists (<[fresh (dom h0) := d]> h0), base_params.
Qed.

Lemma checked_reply_fuel (r : http_reply) : checked_reply r ≠ OutOfFuel.
Proof.
  destruct r as [|status [j|]]; cbn [checked_reply]; [done| |];
    destruct (bool_decide _); try done.
  destruct (resp_error j); [done|]. by destruct (resp_warnings j).
Qed.

Lemma checked_reply_Ok_inv (r : http_reply) (j : api_response) :
  checked_reply r = Ok j →
  ∃ status, r = Reply status (Some j) ∧ ¬ (400 ≤ status < 600) ∧
            resp_error j = None ∧ resp_warnings j = None.
Proof.
  destruct r as [|status [j0|]]; cbn [checked_reply]; [done| |].
  - destruct (bool_decide (400 ≤ status < 600)) eqn:Hst; [done|].
    apply bool_decide_eq_false in Hst.
    destruct (resp_error j0) eqn:He; [done|].
    destruct (resp_warnings j0) eqn:Hw; [done|].
    intros [= <-]. by exists status.
  - by destruct (bool_decide _).
Qed.

(** Every run of the loop is a row of requests to the endpoint. *)
Lemma mwapi_loop_requests (fuel : nat) (endpoint : string) :
  ∀ (base_params continue_params : loc) (w : world),
    ∃ ds,
      w_trace (mwapi_loop remote fuel endpoint base_params continue_params
                 w).2
      = w_trace w ++ (EvPost endpoint <$> ds) ∧
      loop_requests remote endpoint (clock w) ds
        (mwapi_loop remote fuel endpoint base_params continue_params w).1.
Proof.
  induction fuel as [|fuel IH]; intros base_params continue_params w.
  { exists []. cbn [mwapi_loop]. unfold out_of_fuel. cbn [fst snd fmap list_fmap].
    split; [by rewrite app_nil_r|]. split; [|done].
    intros i d Hi. by rewrite lookup_nil in Hi. }
  rewrite mwapi_loop_step. cbv zeta.
  set (d0 := _ ∪ _). set (w1 := World _ _ _).
  destruct (checked_reply (remote (clock w) endpoint d0)) as [j|e|] eqn:Hc.
  - destruct (resp_query j) as [q|] eqn:Hq;
      [|destruct (resp_query_continue j) as [qc|] eqn:Hqc].
    + exists [d0]. cbn [fst snd w1 w_trace]. split; [done|]. split.
      * intros [|i] d Hi [Hlt|Hfuel]; simplify_eq/=; lia.
      * intros _. exists [], d0. split; [done|].
        unfold ends_with. cbn [List.length]. rewrite Nat.add_0_r, Hc, Hq. eauto.
    + unfold mbind, M_bind. rewrite resolve_continue_run.
      set (w2 := World _ _ _).
      destruct (IH base_params (fresh (dom (w_heap w1))) w2)
        as (ds & Htrace & Hpass & Hlast).
      exists (d0 :: ds). split.
      { rewrite Htrace. cbn [w2 w1 w_trace fmap list_fmap].
        by rewrite <- app_assoc. }
      assert (clock w2 = S (clock w)) as Hclock.
      { unfold clock. cbn [w2 w1 w_trace]. rewrite length_app. simpl. lia. }
      rewrite Hclock in Hpass, Hlast. split.
      * intros [|i] d Hi Hor.
        -- simplify_eq/=. rewrite Nat.add_0_r. by exists j, qc.
        -- replace (clock w + S i)%nat with (S (clock w) + i)%nat by lia.
           apply Hpass; [done|]. destruct Hor as [Hlt|Hfuel]; [left|by right].
           simpl in Hlt. lia.
      * intros Hfuel. destruct (Hlast Hfuel) as (ds' & d & -> & Hend).
        exists (d0 :: ds'), d. split; [done|].
        by replace (clock w + List.length (d0 :: ds'))%nat
          with (S (clock w) + List.length ds')%nat by (simpl; lia).
    + exists [d0]. cbn [fst snd w1 w_trace]. split; [done|]. split.
      * intros [|i] d Hi [Hlt|Hfuel]; simplify_eq/=; lia.
      * intros _. exists [], d0. split; [done|].
        unfold ends_with. cbn [List.length]. by rewrite Nat.add_0_r, Hc, Hq.
  - exists [d0]. cbn [fst snd w1 w_trace]. split; [done|]. split.
    + intros [|i] d Hi [Hlt|Hfuel]; simplify_eq/=; lia.
    + intros _. exists [], d0. split; [done|].
      unfold ends_with. cbn [List.length]. by rewrite Nat.add_0_r, Hc.
  - by apply checked_reply_fuel in Hc.
Qed.

(** The same for the body of the generator: a generator that is not new
    may also stop without a request. *)
Lemma gen_body_requests (fuel : nat) (g : generator) (w : world) :
  ∃ ds,
    w_trace (gen_body remote fuel g w).2
    = w_trace w ++ (EvPost (gen_endpoint g) <$> ds) ∧
    ((ds = [] ∧ gen_state g ≠ GenCreated ∧
      (gen_body remote fuel g w).1 = Raise StopIteration)
     ∨ loop_requests remote (gen_endpoint g) (clock w) ds
         (gen_body remote fuel g w).1).
Proof.
  destruct g as [endpoint params [|base_params j0|]].
  - change (Generator endpoint params GenCreated)
      with (mwapi_query endpoint params).
    rewrite gen_created_run. cbv zeta. cbn [gen_endpoint mwapi_query].
    set (w0 := World _ _ _).
    destruct (mwapi_loop_requests fuel endpoint
                (fresh (dom (w_heap w)))
                (fresh (dom (<[fresh (dom (w_heap w)) :=
                                 base_params_of (default ∅ (w_heap w !! params))]>
                               (w_heap w)))) w0) as (ds & Htrace & Hreq).
    exists ds. split; [exact Htrace|]. by right.
  - unfold gen_body. cbn [gen_state gen_endpoint].
    destruct (resp_query_continue j0) as [qc|].
    + unfold mbind, M_bind. rewrite resolve_continue_run.
      set (w0 := World _ _ _).
      destruct (mwapi_loop_requests fuel endpoint base_params
                  (fresh (dom (w_heap w))) w0) as (ds & Htrace & Hreq).
      exists ds. split; [exact Htrace|]. by right.
    + exists []. unfold raise. cbn [fst snd fmap list_fmap].
      split; [by rewrite app_nil_r|]. by left.
  - exists []. unfold gen_body, raise. cbn [gen_state fst snd fmap list_fmap].
    split; [by rewrite app_nil_r|]. by left.
Qed.

Lemma gen_next_of_body (fuel : nat) (g : generator) (w : world) :
  (gen_next remote fuel g w).1.1
  = match (gen_body remote fuel g w).1 with
    | Ok x => Ok x.1
    | Raise e => Raise e
    | OutOfFuel => OutOfFuel
    end ∧
  (gen_next remote fuel g w).1.2
  = match (gen_body remote fuel g w).1 with
    | Ok x =>
        Generator (gen_endpoint g) (gen_params g) (GenSuspended x.2.1 x.2.2)
    | Raise e => Generator (gen_endpoint g) (gen_params g) GenFinished
    | OutOfFuel => g
    end.
Proof.
  unfold gen_next.
  by destruct (gen_body remote fuel g w) as [[[q [base_params j]]|e|] w'].
Qed.

Lemma request_position (endpoint ep : string) (ds : list pydict)
    (pre post : list event) (d : pydict) :
  EvPost endpoint <$> ds = pre ++ EvPost ep d :: post →
  ∃ ds1 ds2, ds = ds1 ++ d :: ds2 ∧ List.length ds1 = List.length pre ∧
             List.length ds2 = List.length post ∧ ep = endpoint.
Proof.
  intros Heq. apply fmap_app_inv in Heq as (ds1 & ds' & -> & Heq & ->).
  symmetry in Heq. apply fmap_cons_inv in Heq as (d' & ds2 & [= -> ->] & -> & ->).
  exists ds1, ds2. by rewrite !length_fmap.
Qed.

Lemma transport_failure_raises (r : http_reply) (e : exn) :
  transport_failure r e → checked_reply r = Raise e.
Proof.
  destruct r as [|status body]; cbn [transport_failure checked_reply].
  - by intros ->.
  - destruct (bool_decide (400 ≤ status < 600)); [by intros ->|].
    by intros [-> ->].
Qed.

(** A request whose reply the loop does not let through is the last one,
    and its exception is that of the run. *)
Lemma loop_requests_raise (endpoint ep : string) (t : nat) (ds : list pydict)
    (o : outcome (json * (loc * api_response))) (pre post : list event)
    (d : pydict) (e : exn) :
  loop_requests remote endpoint t ds o →
  EvPost endpoint <$> ds = pre ++ EvPost ep d :: post →
  checked_reply (remote (t + List.length pre)%nat ep d) = Raise e →
  o = Raise e ∧ post = [].
Proof.
  intros [Hpass Hlast] Hpos Hraise.
  apply request_position in Hpos as (ds1 & ds2 & -> & Hlen1 & Hlen2 & ->).
  rewrite <- Hlen1 in Hraise.
  assert (¬ passes_on (remote (t + List.length ds1)%nat endpoint d)) as Hno.
  { intros (j & qc & Hok & _). by rewrite Hok in Hraise. }
  assert ((ds1 ++ d :: ds2) !! List.length ds1 = Some d) as Hd.
  { by apply list_lookup_middle. }
  assert (o ≠ OutOfFuel) as Hfuel.
  { intros Hfuel. destruct Hno. eapply Hpass; [exact Hd | by right]. }
  destruct ds2 as [|d2 ds2].
  - destruct (Hlast Hfuel) as (ds' & d' & Heq & Hend).
    apply app_inj_tail in Heq as [<- <-].
    unfold ends_with in Hend. rewrite Hraise in Hend.
    split; [done|]. by destruct post.
  - destruct Hno. eapply Hpass; [exact Hd|]. left.
    rewrite length_app. simpl. lia.
Qed.

(** X5.  A request of a query that gets no reply, or a reply with a status
    from 400 to 599 (whatever its body says), or a body that does not
    decode, is the last request: [next] raises [RequestException],
    [HTTPError] or [JSONDecodeError], and the generator is finished. *)
Theorem transport_failure_policy (fuel : nat) (g : generator) (w : world)
    (pre post : list event) (endpoint : string) (params : pydict) (e : exn) :
  w_trace (gen_next remote fuel g w).2
  = w_trace w ++ pre ++ EvPost endpoint params :: post →
  transport_failure
    (remote (List.length (w_trace w ++ pre)) endpoint params) e →
  (gen_next remote fuel g w).1.1 = Raise e ∧
  post = [] ∧
  gen_state (gen_next remote fuel g w).1.2 = GenFinished.
Proof.
  intros Htrace Hfail. apply transport_failure_raises in Hfail.
  rewrite gen_next_world in Htrace.
  destruct (gen_next_of_body fuel g w) as [-> ->].
  destruct (gen_body_requests fuel g w) as (ds & Hds & Hreq).
  rewrite Hds in Htrace. apply app_inv_head in Htrace.
  destruct Hreq as [(-> & _ & _)|Hreq]; [by destruct pre|].
  rewrite length_app in Hfail.
  destruct (loop_requests_raise _ _ _ _ _ _ _ _ _ Hreq Htrace Hfail)
    as [-> ->].
  done.
Qed.

(** A fragment is the [query] field of the reply to the last request. *)
Lemma gen_next_fragment (fuel : nat) (g : generator) (w : world)
    (q : json) :
  (gen_next remote fuel g w).1.1 = Ok q →
  ∃ ds d status j base_params,
    w_trace (gen_next remote fuel g w).2
    = w_trace w ++ (EvPost (gen_endpoint g) <$> ds ++ [d]) ∧
    remote (clock w + List.length ds)%nat (gen_endpoint g) d
    = Reply status (Some j) ∧
    ¬ (400 ≤ status < 600) ∧
    resp_error j = None ∧ resp_warnings j = None ∧
    resp_query j = Some q ∧
    (gen_next remote fuel g w).1.2
    = Generator (gen_endpoint g) (gen_params g)
        (GenSuspended base_params j) ∧
    ∀ i d', ds !! i = Some d' →
            passes_on (remote (clock w + i)%nat (gen_endpoint g) d').
Proof.
  rewrite gen_next_world.
  destruct (gen_next_of_body fuel g w) as [-> ->].
  destruct (gen_body_requests fuel g w) as (ds & Hds & Hreq).
  destruct ((gen_body remote fuel g w).1) as [[q0 [base_params j0]]|e|] eqn:Hb;
    [|done..].
  intros [= <-]. cbn [fst snd].
  destruct Hreq as [(_ & _ & Hstop)|[Hpass Hlast]]; [done|].
  destruct Hlast as (ds' & d & -> & Hend); [done|].
  unfold ends_with in Hend.
  destruct (checked_reply _) as [j| |] eqn:Hc; [|done..].
  apply checked_reply_Ok_inv in Hc as (status & Hr & Hst & He & Hw).
  destruct (resp_query j) as [q|] eqn:Hq; [|by destruct Hend].
  destruct Hend as [bp [= -> -> ->]].
  exists ds', d, status, j, bp.
  repeat split; try done.
  intros i d' Hi. apply Hpass.
  - by apply lookup_app_l_Some.
  - left. apply lookup_lt_Some in Hi. rewrite length_app. simpl. lia.
Qed.

(** X4.  A fragment that [next] returns is the [query] field of the reply
    to the last request the call made: a reply with a status that is let
    through and with neither [error] nor [warnings].  The requests before
    it, all to the generator's endpoint, were answered by replies that
    carried no fragment but a continuation; the generator is suspended on
    the reply that gave the fragment. *)
Theorem fragment_provenance (fuel : nat) (g : generator) (w : world)
    (q : json) :
  (gen_next remote fuel g w).1.1 = Ok q →
  ∃ ds d status j base_params,
    w_trace (gen_next remote fuel g w).2
    = w_trace w ++ (EvPost (gen_endpoint g) <$> ds ++ [d]) ∧
    remote (clock w + List.length ds)%nat (gen_endpoint g) d
    = Reply status (Some j) ∧
    ¬ (400 ≤ status < 600) ∧
    resp_error j = None ∧ resp_warnings j = None ∧
    resp_query j = Some q ∧
    (gen_next remote fuel g w).1.2
    = Generator (gen_endpoint g) (gen_params g)
        (GenSuspended base_params j) ∧
    ∀ i d', ds !! i = Some d' →
            passes_on (remote (clock w + i)%nat (gen_endpoint g) d').
Proof. apply gen_next_fragment. Qed.

(** *** Replies and what the program takes from them *)

Tactic Notation "bind_open" hyp(H) "as" ident(x) ident(Hx) :=
  apply outcome_bind_Ok_inv in H as (x & Hx & H).
Ltac bind_drop H := apply outcome_bind_Ok_inv in H as (? & _ & H).

Lemma outcome_bind_Ok {A B} (a : A) (f : A → outcome B) : Ok a ≫= f = f a.
Proof. reflexivity. Qed.

Lemma py_getitem_contains (v : json) (k : string) (x : json) :
  py_getitem v k = Ok x → py_contains k v = Ok true.
Proof.
  destruct v as [| | | | |m]; try done. simpl.
  destruct (m !! k) eqn:Hk; [|done]. intros _.
  by rewrite bool_decide_eq_true_2.
Qed.

Lemma py_getitem_Ok_inv (v : json) (k : string) (x : json) :
  py_getitem v k = Ok x → ∃ m, v = JDict m ∧ m !! k = Some x.
Proof.
  destruct v as [| | | | |m]; try done. simpl.
  destruct (m !! k) eqn:Hk; [|done]. intros [= ->]. eauto.
Qed.

Lemma text_of_content (wiki : wiki_config) (revision : json) (text : string) :
  text_of wiki revision text ↔ revision_content wiki revision = Ok (JStr text).
Proof.
  unfold text_of, revision_content. destruct (wiki_slots wiki); split.
  - intros (slots & main & Hs & Hm & Ht). rewrite Hs, outcome_bind_Ok.
    rewrite (py_getitem_contains _ _ _ Hm), outcome_bind_Ok.
    cbn [py_assert]. rewrite outcome_bind_Ok, Hm, outcome_bind_Ok.
    by rewrite (py_getitem_contains _ _ _ Ht).
  - intros H. bind_open H as slots Hs. do 2 bind_drop H.
    bind_open H as main Hm. do 2 bind_drop H. by exists slots, main.
  - intros Ht. by rewrite (py_getitem_contains _ _ _ Ht).
  - intros H. by do 2 bind_drop H.
Qed.

Lemma describes_taken (wiki : wiki_config) (pageid revid : pyint)
    (value : rev_metadata) (text : option string) (result : json) :
  describes wiki pageid revid value text result →
  taken_from wiki pageid revid value text result.
Proof.
  intros (page & revision & rr & Hpages & Hpid & Hpideq & Htitle & Hurl
          & Hrevs & Hrid & Hrideq & Hrevid & Hparent & Huser & Htime
          & Hcomment & Htext).
  exists page, revision. split; [|split; [done|split]].
  - unfold check_response.
    repeat first
      [ rewrite outcome_bind_Ok
      | progress cbn [py_assert py_contains py_len py_getitem py_getitem_0
                      List.length]
      | rewrite lookup_singleton_eq
      | rewrite map_size_singleton
      | rewrite bool_decide_eq_true_2 by eauto
      | rewrite Hpideq | rewrite Hrideq
      | erewrite py_getitem_contains by eassumption
      | rewrite Hpages | rewrite Hpid | rewrite Hrevs | rewrite Hrid ].
    done.
  - unfold metadata_value.
    rewrite Hpid, Htitle, Hurl, Huser, Htime, Hcomment, !outcome_bind_Ok.
    unfold mret, outcome_ret. rewrite <- Hrevid. by destruct value.
  - destruct text as [t|]; [|done]. by apply text_of_content.
Qed.

Lemma check_response_Ok_inv (pageid revid : pyint)
    (result page revision : json) :
  check_response pageid revid result = Ok (page, revision) →
  ∃ page_pageid revision_revid,
    py_getitem result "pages" = Ok (JDict {[ py_str pageid := page ]}) ∧
    py_getitem page "pageid" = Ok page_pageid ∧
    py_eq_int page_pageid pageid = true ∧
    py_getitem page "revisions" = Ok (JList [revision]) ∧
    py_getitem revision "revid" = Ok revision_revid ∧
    py_eq_int revision_revid revid = true.
Proof.
  unfold check_response. intros H.
  do 2 bind_drop H. bind_open H as pages Hpages. do 2 bind_drop H.
  bind_open H as n Hlen. bind_open H as u1 Hn. bind_open H as page' Hpage.
  do 2 bind_drop H. bind_open H as page_pageid Hpid.
  bind_open H as u2 Hpideq.
  do 6 bind_drop H. bind_open H as revisions Hrevs.
  bind_open H as n' Hlen'. bind_open H as u3 Hn'.
  bind_open H as revision' Hrev.
  do 2 bind_drop H. bind_open H as revision_revid Hrid.
  bind_open H as u4 Hrideq.
  do 8 bind_drop H. injection H as <- <-.
  apply py_assert_Ok_inv, bool_decide_eq_true in Hn, Hn'. subst n n'.
  apply py_assert_Ok_inv in Hpideq, Hrideq.
  destruct pages as [| | | | |pages]; try done.
  destruct revisions as [| | |s|revisions|m]; try done.
  - destruct s as [|c [|c' s]]; simplify_eq/=.
  - destruct revisions as [|revision [|? ?]]; simplify_eq/=.
    exists page_pageid, revision_revid.
    repeat split; try done.
    rewrite Hpages. do 2 f_equal.
    destruct (pages !! py_str pageid) as [pg|] eqn:Hpg; [|done].
    simplify_eq. by apply map_size_1_lookup.
Qed.

Lemma taken_describes (wiki : wiki_config) (pageid revid : pyint)
    (value : rev_metadata) (text : option string) (result : json) :
  taken_from wiki pageid revid value text result →
  describes wiki pageid revid value text result.
Proof.
  intros (page & revision & Hcheck & Hparent & Hvalue & Htext).
  apply check_response_Ok_inv in Hcheck
    as (pp & rr & Hpages & Hpid & Hpideq & Hrevs & Hrid & Hrideq).
  unfold metadata_value in Hvalue.
  bind_open Hvalue as pp' Hpid'. bind_open Hvalue as title Htitle.
  bind_open Hvalue as url Hurl. bind_open Hvalue as user Huser.
  bind_open Hvalue as time Htime. bind_open Hvalue as comment Hcomment.
  injection Hvalue as <-. cbn [meta_parentid] in Hparent.
  assert (pp' = pp) as -> by congruence.
  exists page, revision, rr. cbn.
  repeat split; try done.
  destruct text as [t|]; [|done]. by apply text_of_content.
Qed.

(** *** What a run stores *)

(** The reply that [fetch_revision] returns a fragment of. *)
Lemma fetch_revision_fragment (fuel : nat) (wiki : wiki_config)
    (pageid revid : pyint) (w w' : world) (need : bool) (result : json) :
  fetch_revision remote s3_fault fuel wiki pageid revid w
  = (Ok (need, result), w') →
  ∃ ds d status j,
    w_trace w'
    = w_trace w ++
        EvHead (wiki_s3_bucket wiki)
          (s3_key_for_revision_content wiki pageid revid)
        :: (EvPost (wiki_api wiki) <$> ds ++ [d]) ∧
    remote (S (clock w) + List.length ds)%nat (wiki_api wiki) d
    = Reply status (Some j) ∧
    resp_query j = Some result.
Proof.
  intros H.
  assert (s3_fault (clock w) = None) as Hfault.
  { unfold fetch_revision in H.
    apply bind_Ok_inv in H as (l & w0 & Hnew & H).
    apply bind_Ok_inv in H as (stored & w1 & Hprobe & _).
    unfold dict_new in Hnew. injection Hnew as <- <-.
    unfold s3_key_for_revision_content_exists in Hprobe.
    pose proof (s3_key_exists_run s3_fault (wiki_s3_bucket wiki)
                  (s3_key_for_revision_content wiki pageid revid)
                  (World (<[fresh (dom (w_heap w)) := revision_params revid]>
                            (w_heap w))
                         (w_store w) (w_trace w))) as [_ Hrun].
    unfold revision_params in Hrun.
    rewrite Hprobe in Hrun. by destruct Hrun. }
  assert (∀ (b : bool) (w0 : world),
            clock w0 = S (clock w) →
            w_trace w0
            = w_trace w ++ [EvHead (wiki_s3_bucket wiki)
                              (s3_key_for_revision_content wiki pageid revid)] →
            (result ← next remote fuel
                         (mwapi_query (wiki_api wiki)
                            (fresh (dom (w_heap w))));
             mret (b, result)) w0 = (Ok (need, result), w') →
            ∃ ds d status j,
              w_trace w'
              = w_trace w ++
                  EvHead (wiki_s3_bucket wiki)
                    (s3_key_for_revision_content wiki pageid revid)
                  :: (EvPost (wiki_api wiki) <$> ds ++ [d]) ∧
              remote (S (clock w) + List.length ds)%nat (wiki_api wiki) d
              = Reply status (Some j) ∧
              resp_query j = Some result) as Hnext.
  { intros b w0 Hclock Htrace Hrun.
    apply bind_Ok_inv in Hrun as (q & w1 & Hq & Hret).
    injection Hret as <- <- <-.
    unfold next in Hq. injection Hq as Hq Hw1.
    destruct (gen_next_fragment fuel _ w0 q Hq)
      as (ds & d & status & j & bp & Htr & Hreply & _ & _ & _ & Hquery & _).
    exists ds, d, status, j. rewrite <- Hw1, Htr, Htrace, Hclock in *.
    cbn [gen_endpoint mwapi_query] in *.
    by rewrite <- app_assoc. }
  destruct (w_store w !! (wiki_s3_bucket wiki,
                          s3_key_for_revision_content wiki pageid revid))
    as [body|] eqn:Hstored.
  - rewrite fetch_revision_present in H by (rewrite ?Hstored; eauto).
    eapply Hnext; [| |exact H].
    + unfold clock. cbn [w_trace]. rewrite length_app. simpl. lia.
    + done.
  - rewrite fetch_revision_missing in H by done.
    eapply Hnext; [| |exact H].
    + unfold clock. cbn [w_trace]. rewrite length_app. simpl. lia.
    + done.
Qed.

Lemma store_revision_Ok_inv (recurse : pyint → M unit) (wiki : wiki_config)
    (pageid revid : pyint) (need : bool) (result : json) (w w' : world) :
  store_revision s3_fault recurse wiki pageid revid need result w
  = (Ok (), w') →
  ∃ value text parent w1 w2,
    taken_from wiki pageid revid value
      (if need then Some text else None) result ∧
    as_revid (meta_parentid value) = Ok parent ∧
    (if need
     then s3_put_revision_content s3_fault wiki pageid revid (JStr text)
     else mret ()) w = (Ok (), w1) ∧
    recurse parent w1 = (Ok (), w2) ∧
    s3_put_revision_metadata s3_fault wiki pageid revid value w2
    = (Ok (), w').
Proof.
  unfold store_revision. intros H.
  apply bind_Ok_inv in H as ([page revision] & ? & [Hcheck ->]%lift_Ok_inv & H).
  cbv zeta in H. cbn [fst snd] in H.
  apply bind_Ok_inv in H as (parentid & ? & [Hparentid ->]%lift_Ok_inv & H).
  apply bind_Ok_inv in H as ([] & w1 & Htext & H).
  apply bind_Ok_inv in H as (parent & ? & [Hparent ->]%lift_Ok_inv & H).
  apply bind_Ok_inv in H as ([] & w2 & Hrec & H).
  apply bind_Ok_inv in H as (value & ? & [Hvalue ->]%lift_Ok_inv & H).
  pose proof (metadata_value_fields _ _ _ _ _ Hvalue) as [_ Hp].
  assert (∃ text,
            match (if need then Some text else None) with
            | Some t => revision_content wiki revision = Ok (JStr t)
            | None => True
            end ∧
            (if need
             then s3_put_revision_content s3_fault wiki pageid revid
                    (JStr text)
             else mret ()) w = (Ok (), w1)) as (text & Hcontent & Hput).
  { destruct need; [|by exists ""].
    apply bind_Ok_inv in Htext
      as (content & ? & [Hcontent ->]%lift_Ok_inv & Hput).
    destruct content as [| | |text| |]; try done. by exists text. }
  exists value, text, parent, w1, w2.
  split; [|by rewrite Hp].
  exists page, revision. by rewrite Hp.
Qed.

(** The objects of a revision that a run has archived are those of the
    reply it got. *)
Lemma handle_revision_stored (fuel : nat) (wiki : wiki_config)
    (pageid revid : pyint) (w w' : world) :
  handle_revision remote s3_fault fuel wiki pageid revid w = (Ok (), w') →
  int_of revid ≠ 0 →
  w_store w !! (wiki_s3_bucket wiki,
                s3_key_for_revision_metadata wiki pageid revid) = None →
  ∃ pre post d status j result value text,
    w_trace w' = w_trace w ++ pre ++ EvPost (wiki_api wiki) d :: post ∧
    remote (List.length (w_trace w ++ pre)) (wiki_api wiki) d
    = Reply status (Some j) ∧
    resp_query j = Some result ∧
    describes wiki pageid revid value text result ∧
    w_store w' !! (wiki_s3_bucket wiki,
                   s3_key_for_revision_metadata wiki pageid revid)
    = Some (YamlDump value) ∧
    match text with
    | Some t =>
        w_store w !! (wiki_s3_bucket wiki,
                      s3_key_for_revision_content wiki pageid revid) = None ∧
        w_store w' !! (wiki_s3_bucket wiki,
                       s3_key_for_revision_content wiki pageid revid)
        = Some (Gzip t)
    | None =>
        is_Some (w_store w !! (wiki_s3_bucket wiki,
                               s3_key_for_revision_content wiki pageid revid))
    end.
Proof.
  intros H Hne Hmissing. destruct fuel as [|fuel]; [done|].
  rewrite handle_revision_S in H.
  rewrite bool_decide_eq_false_2 in H by done.
  apply bind_Ok_inv in H as (archived & w1 & Hprobe & H).
  unfold s3_key_for_revision_metadata_exists in Hprobe.
  pose proof (s3_key_exists_run s3_fault (wiki_s3_bucket wiki)
                (s3_key_for_revision_metadata wiki pageid revid) w)
    as [Hw1 Hrun].
  rewrite Hprobe in Hw1, Hrun. cbn [fst snd] in Hw1, Hrun.
  destruct Hrun as [_ ->]. rewrite Hmissing in H.
  rewrite bool_decide_eq_false_2 in H by (by intros [? ?]).
  apply bind_Ok_inv in H as ([need result] & w2 & Hfetch & H).
  cbn [fst snd] in H.
  destruct (fetch_revision_fragment _ _ _ _ _ _ _ _ Hfetch)
    as (ds & d & status & j & Htrace2 & Hreply & Hquery).
  pose proof (fetch_revision_reads remote s3_fault fuel wiki pageid revid w1)
    as [Hstore2 _].
  rewrite Hfetch in Hstore2. cbn [snd] in Hstore2.
  pose proof (fetch_revision_need _ _ _ _ _ _ _ _ _ _ Hfetch) as Hneed.
  pose proof (store_revision_extends
                (handle_revision remote s3_fault fuel wiki pageid) wiki pageid
                revid need result
                (handle_revision_extends fuel wiki pageid) w2)
    as [post Hpost].
  rewrite H in Hpost. cbn [snd] in Hpost.
  apply store_revision_Ok_inv in H
    as (value & text & parent & w3 & w4 & Htaken & Hparent & Htext & Hrec
        & Hmeta).
  apply taken_describes in Htaken.
  unfold s3_put_revision_metadata in Hmeta.
  apply put_object_Ok_inv in Hmeta.
  assert (w_store w1 = w_store w) as Hstore1 by (by subst w1).
  assert (w_trace w1 = w_trace w ++
            [EvHead (wiki_s3_bucket wiki)
               (s3_key_for_revision_metadata wiki pageid revid)])
    as Htrace1 by (by subst w1).
  assert (clock w1 = S (clock w)) as Hclock.
  { unfold clock. rewrite Htrace1, length_app. simpl. lia. }
  exists (EvHead (wiki_s3_bucket wiki)
            (s3_key_for_revision_metadata wiki pageid revid)
          :: EvHead (wiki_s3_bucket wiki)
               (s3_key_for_revision_content wiki pageid revid)
          :: (EvPost (wiki_api wiki) <$> ds)),
    post, d, status, j, result, value, (if need then Some text else None).
  split; [|split; [|split; [done|split; [done|split]]]].
  - rewrite Hpost, Htrace2, Htrace1, fmap_app. cbn [fmap list_fmap].
    rewrite <- !app_assoc. cbn [app]. by rewrite <- app_assoc.
  - rewrite <- Hreply. f_equal. rewrite Hclock, length_app. cbn [List.length].
    rewrite length_fmap. unfold clock. lia.
  - rewrite Hmeta. cbn [w_store]. by rewrite lookup_insert_eq.
  - rewrite Hstore1 in Hneed.
    destruct need.
    + symmetry in Hneed. apply negb_true_iff, bool_decide_eq_false in Hneed.
      apply eq_None_not_Some in Hneed. split; [done|].
      unfold s3_put_revision_content in Htext.
      apply put_object_Ok_inv in Htext.
      rewrite Hmeta. cbn [w_store]. rewrite lookup_insert_ne.
      2:{ intros [= Heq]. by apply metadata_key_not_content_key in Heq. }
      pose proof (handle_revision_keeps fuel wiki pageid parent w3) as Hkeep.
      rewrite Hrec in Hkeep. cbn [snd] in Hkeep. apply Hkeep.
      rewrite Htext. cbn [w_store]. by rewrite lookup_insert_eq.
    + symmetry in Hneed. apply negb_false_iff, bool_decide_eq_true in Hneed.
      done.
Qed.

(** X6.  When a call for a revision whose metadata was not stored returns,
    the metadata it has stored under the key of the revision is the one
    described by a reply the wiki gave to a request of the run: the id, the
    title and the URL of the page, the id, the parent, the user, the time
    and the comment of the revision.  When no text was stored either, the
    text stored now is the one of that reply; otherwise the reply was not
    asked for a text. *)
Theorem stored_from_reply (fuel : nat) (wiki : wiki_config)
    (pageid revid : pyint) (w : world) :
  (handle_revision remote s3_fault fuel wiki pageid revid w).1 = Ok () →
  int_of revid ≠ 0 →
  w_store w !! (wiki_s3_bucket wiki,
                s3_key_for_revision_metadata wiki pageid revid) = None →
  ∃ pre post d status j result value text,
    w_trace (handle_revision remote s3_fault fuel wiki pageid revid w).2
    = w_trace w ++ pre ++ EvPost (wiki_api wiki) d :: post ∧
    remote (List.length (w_trace w ++ pre)) (wiki_api wiki) d
    = Reply status (Some j) ∧
    resp_query j = Some result ∧
    describes wiki pageid revid value text result ∧
    w_store (handle_revision remote s3_fault fuel wiki pageid revid w).2
      !! (wiki_s3_bucket wiki,
          s3_key_for_revision_metadata wiki pageid revid)
    = Some (YamlDump value) ∧
    match text with
    | Some t =>
        w_store w !! (wiki_s3_bucket wiki,
                      s3_key_for_revision_content wiki pageid revid) = None ∧
        w_store (handle_revision remote s3_fault fuel wiki pageid revid w).2
          !! (wiki_s3_bucket wiki,
              s3_key_for_revision_content wiki pageid revid)
        = Some (Gzip t)
    | None =>
        is_Some (w_store w !! (wiki_s3_bucket wiki,
                               s3_key_for_revision_content wiki pageid revid))
    end.
Proof.
  intros Hok.
  destruct (handle_revision remote s3_fault fuel wiki pageid revid w)
    as [o w'] eqn:Hrun.
  cbn [fst snd] in *. subst o. by apply (handle_revision_stored fuel).
Qed.

(** *** A wiki that serves the chain *)

Lemma next_answered (fuel : nat) (wiki : wiki_config) (l : loc)
    (params : pydict) (result : json) (w : world) :
  w_heap w !! l = Some params →
  answers remote (clock w) wiki params result →
  ∃ w', next remote (S fuel) (mwapi_query (wiki_api wiki) l) w
        = (Ok result, w') ∧
        w_store w' = w_store w.
Proof.
  intros Hl (status & j & Hreply & Hstatus & He & Hw & Hq).
  destruct (gen_created_step fuel (wiki_api wiki) l w) as (h & bp & Hstep).
  cbv zeta in Hstep. rewrite Hl in Hstep. cbn [default from_option id] in Hstep.
  rewrite Hreply in Hstep. cbn [checked_reply] in Hstep.
  rewrite bool_decide_eq_false_2, He, Hw, Hq in Hstep by done.
  eexists. unfold next, gen_next. rewrite Hstep. cbn [fst snd]. done.
Qed.

Lemma bind_ext_at {A B} (m m' : M A) (f f' : A → M B) (w : world) :
  m w = m' w → (∀ a w1, f a w1 = f' a w1) → (m ≫= f) w = (m' ≫= f') w.
Proof.
  intros Hm Hf. unfold mbind, M_bind. rewrite Hm.
  by destruct (m' w) as [[a| |] w1].
Qed.

Lemma store_revision_run (recurse : pyint → M unit) (wiki : wiki_config)
    (pageid revid : pyint) (need : bool) (result : json)
    (value : rev_metadata) (text : string) (parent : pyint) (w : world) :
  taken_from wiki pageid revid value
    (if need then Some text else None) result →
  as_revid (meta_parentid value) = Ok parent →
  store_revision s3_fault recurse wiki pageid revid need result w
  = ((if need
      then s3_put_revision_content s3_fault wiki pageid revid (JStr text)
      else mret ());;
     recurse parent;;
     s3_put_revision_metadata s3_fault wiki pageid revid value) w.
Proof.
  intros (page & revision & Hcheck & Hparentid & Hvalue & Htext) Hparent.
  unfold store_revision.
  erewrite bind_world_Ok by (unfold lift; by rewrite Hcheck).
  cbv zeta. cbn [fst snd].
  erewrite bind_world_Ok by (unfold lift; by rewrite Hparentid).
  apply bind_ext_at.
  { destruct need; [|done].
    by erewrite bind_world_Ok by (unfold lift; by rewrite Htext). }
  intros [] w1.
  erewrite bind_world_Ok by (unfold lift; by rewrite Hparent).
  apply bind_ext_at; [done|]. intros [] w2.
  by erewrite bind_world_Ok by (unfold lift; by rewrite Hvalue).
Qed.

Lemma serves_tail (wiki : wiki_config) (pageid : pyint)
    (rm : pyint * rev_metadata) (chain : list (pyint * rev_metadata)) :
  serves remote wiki pageid (rm :: chain) → serves remote wiki pageid chain.
Proof. intros H t revid value Hin. apply H. by right. Qed.

(** On a wiki that serves the chain, and with S3 answering every call, a
    call archives the chain. *)
Lemma handle_revision_chain (wiki : wiki_config) (pageid : pyint) :
  (∀ t, s3_fault t = None) →
  ∀ (chain : list (pyint * rev_metadata)) (fuel : nat) (revid : pyint)
    (w : world),
    chain_from wiki pageid (w_store w) revid chain →
    serves remote wiki pageid chain →
    (List.length chain < fuel)%nat →
    ∃ w',
      handle_revision remote s3_fault fuel wiki pageid revid w = (Ok (), w') ∧
      (∀ r v, (r, v) ∈ chain →
         is_Some (w_store w' !! (wiki_s3_bucket wiki,
                                 s3_key_for_revision_metadata wiki pageid r)) ∧
         is_Some (w_store w' !! (wiki_s3_bucket wiki,
                                 s3_key_for_revision_content wiki pageid r))) ∧
      (∀ value rest, chain = (revid, value) :: rest →
         w_store w' !! (wiki_s3_bucket wiki,
                        s3_key_for_revision_metadata wiki pageid revid)
         = Some (YamlDump value)).
Proof.
  intros Hs3. induction chain as [|[r0 value] rest IH];
    intros fuel revid w Hchain Hserves Hfuel.
  { destruct fuel as [|fuel]; [simpl in Hfuel; lia|].
    pose proof (handle_revision_memo remote s3_fault (S fuel) wiki pageid
                  revid w) as Hmemo.
    destruct Hmemo as (_ & _ & _ & Hok).
    { inversion Hchain; [by left | by right]. }
    specialize (Hok ltac:(done) (Hs3 _)).
    destruct (handle_revision remote s3_fault (S fuel) wiki pageid revid w)
      as [o w'].
    cbn [fst] in Hok. subst o. exists w'. split; [done|].
    split; [|done]. intros r v Hin. by apply elem_of_nil in Hin. }
  inversion Hchain as [| |r1 v1 parent rest1 Hne Hmissing Hrevid Hparent Hrest];
    subst r0 r1 v1 rest1.
  destruct fuel as [|[|fuel]]; [simpl in Hfuel; lia..|].
  assert (List.length rest < S fuel)%nat as Hfuel' by (simpl in Hfuel; lia).
  rewrite handle_revision_S. rewrite bool_decide_eq_false_2 by done.
  unfold s3_key_for_revision_metadata_exists.
  erewrite bind_world_Ok by (by apply s3_key_exists_missing).
  set (w1 := log _ w).
  assert (∃ need result w2 text,
            fetch_revision remote s3_fault (S fuel) wiki pageid revid w1
            = (Ok (need, result), w2) ∧
            w_store w2 = w_store w ∧
            describes wiki pageid revid value
              (if need then Some text else None) result ∧
            (need = false →
             is_Some (w_store w !! (wiki_s3_bucket wiki,
                        s3_key_for_revision_content wiki pageid revid))))
    as (need & result & w2 & text & Hfetch & Hstore2 & Hdescribes & Hneed).
  { destruct (w_store w !! (wiki_s3_bucket wiki,
                s3_key_for_revision_content wiki pageid revid))
      as [body|] eqn:Hstored.
    - rewrite fetch_revision_present
        by (cbn [w1 log w_store]; rewrite ?Hstored; eauto).
      set (w0 := World _ _ _).
      destruct (Hserves (clock w0) revid value) as [_ (result & Hans & Hdesc)];
        [by left|].
      destruct (next_answered fuel wiki (fresh (dom (w_heap w1)))
                  (revision_params revid) result w0)
        as (w2 & Hnext & Hstore); [apply lookup_insert_eq | done |].
      exists false, result, w2, "".
      erewrite bind_world_Ok by exact Hnext. split; [done|].
      split; [by rewrite Hstore|]. split; [done|]. eauto.
    - rewrite fetch_revision_missing by done.
      set (w0 := World _ _ _).
      destruct (Hserves (clock w0) revid value)
        as [(result & text & Hans & Hdesc) _]; [by left|].
      destruct (next_answered fuel wiki (fresh (dom (w_heap w1)))
                  (content_params wiki revid) result w0)
        as (w2 & Hnext & Hstore); [apply lookup_insert_eq | done |].
      exists true, result, w2, text.
      erewrite bind_world_Ok by exact Hnext. split; [done|].
      split; [by rewrite Hstore|]. split; [done|]. done. }
  erewrite bind_world_Ok by exact Hfetch. cbn [fst snd].
  apply describes_taken in Hdescribes.
  rewrite (store_revision_run _ _ _ _ _ _ _ _ _ _ Hdescribes Hparent).
  set (w3 := World (w_heap w2)
               ((if need
                 then <[(wiki_s3_bucket wiki,
                         s3_key_for_revision_content wiki pageid revid)
                        := Gzip text]>
                 else id) (w_store w2))
               (w_trace w2 ++
                  (if need
                   then [EvPut (wiki_s3_bucket wiki)
                           (s3_key_for_revision_content wiki pageid revid)
                           (Gzip text)]
                   else []))).
  assert ((if need
           then s3_put_revision_content s3_fault wiki pageid revid (JStr text)
           else mret ()) w2 = (Ok (), w3)) as Hput.
  { unfold w3. destruct need.
    - unfold s3_put_revision_content, put_object. by rewrite Hs3.
    - unfold mret, M_ret. cbn [id]. rewrite app_nil_r. by destruct w2. }
  erewrite bind_world_Ok by exact Hput.
  assert (∀ r, w_store w3 !! (wiki_s3_bucket wiki,
                 s3_key_for_revision_metadata wiki pageid r)
               = w_store w !! (wiki_s3_bucket wiki,
                   s3_key_for_revision_metadata wiki pageid r)) as Hmeta3.
  { intros r. cbn [w3 w_store]. rewrite Hstore2. destruct need; [|done].
    apply lookup_insert_ne. intros [= Heq]. symmetry in Heq.
    by apply metadata_key_not_content_key in Heq. }
  assert (is_Some (w_store w3 !! (wiki_s3_bucket wiki,
                     s3_key_for_revision_content wiki pageid revid)))
    as Htext3.
  { cbn [w3 w_store]. rewrite Hstore2. destruct need.
    - rewrite lookup_insert_eq. eauto.
    - by apply Hneed. }
  destruct (IH (S fuel) parent w3) as (w4 & Hrun4 & Hall4 & _).
  { eapply chain_from_store; [|exact Hrest]. intros r. symmetry. apply Hmeta3. }
  { by eapply serves_tail. }
  { done. }
  erewrite bind_world_Ok by exact Hrun4.
  pose proof (handle_revision_keeps (S fuel) wiki pageid parent w3) as Hkeep.
  rewrite Hrun4 in Hkeep. cbn [snd] in Hkeep.
  unfold s3_put_revision_metadata, put_object. rewrite Hs3.
  eexists. split; [reflexivity|]. cbn [w_store].
  assert (is_Some (<[(wiki_s3_bucket wiki,
                      s3_key_for_revision_metadata wiki pageid revid)
                     := YamlDump value]> (w_store w4)
                   !! (wiki_s3_bucket wiki,
                       s3_key_for_revision_content wiki pageid revid)))
    as Htext'.
  { rewrite lookup_insert_ne.
    2:{ intros [= Heq]. by apply metadata_key_not_content_key in Heq. }
    destruct Htext3 as [body Hbody]. exists body. by apply Hkeep. }
  split.
  - intros r v [[= -> ->]|Hin]%elem_of_cons.
    + split; [|done]. rewrite lookup_insert_eq. eauto.
    + destruct (Hall4 r v Hin) as [Hm Hc].
      split; apply lookup_insert_is_Some'; by right.
  - intros value' rest' [= <- <-]. by rewrite lookup_insert_eq.
Qed.

(** X7.  On a wiki that serves the revisions of a chain (it answers every
    request for one of them by a fragment that describes it, with its text
    when the text is asked for), with S3 answering every call and fuel for
    the depth of the chain, a call for the head of the chain returns, and
    afterwards the metadata and the text of every revision of the chain are
    stored; the metadata stored for the head is the one the wiki
    described. *)
Theorem served_chain_archived (fuel : nat) (wiki : wiki_config)
    (pageid revid : pyint) (chain : list (pyint * rev_metadata))
    (w : world) :
  (∀ t, s3_fault t = None) →
  chain_from wiki pageid (w_store w) revid chain →
  serves remote wiki pageid chain →
  (List.length chain < fuel)%nat →
  (handle_revision remote s3_fault fuel wiki pageid revid w).1 = Ok () ∧
  (∀ r v, (r, v) ∈ chain →
     is_Some (w_store (handle_revision remote s3_fault fuel wiki pageid revid
                         w).2
              !! (wiki_s3_bucket wiki,
                  s3_key_for_revision_metadata wiki pageid r)) ∧
     is_Some (w_store (handle_revision remote s3_fault fuel wiki pageid revid
                         w).2
              !! (wiki_s3_bucket wiki,
                  s3_key_for_revision_content wiki pageid r))) ∧
  (∀ value rest, chain = (revid, value) :: rest →
     w_store (handle_revision remote s3_fault fuel wiki pageid revid w).2
       !! (wiki_s3_bucket wiki,
           s3_key_for_revision_metadata wiki pageid revid)
     = Some (YamlDump value)).
Proof.
  intros Hs3 Hchain Hserves Hfuel.
  destruct (handle_revision_chain wiki pageid Hs3 chain fuel revid w
              Hchain Hserves Hfuel) as (w' & -> & Hall & Hhead).
  done.
Qed.

(** *** The request for a revision without a stored text *)

Lemma fetch_revision_text_request (fuel : nat) (wiki : wiki_config)
    (pageid revid : pyint) (w : world) :
  s3_fault (clock w) = None →
  w_store w !! (wiki_s3_bucket wiki,
                s3_key_for_revision_content wiki pageid revid) = None →
  ∃ evs,
    w_trace (fetch_revision remote s3_fault (S fuel) wiki pageid revid w).2
    = w_trace w ++
        EvHead (wiki_s3_bucket wiki)
          (s3_key_for_revision_content wiki pageid revid)
        :: EvPost (wiki_api wiki)
             (base_params_of (content_params wiki revid))
        :: evs.
Proof.
  intros Hfault Hmissing. rewrite fetch_revision_missing by done.
  set (w3 := World _ _ _).
  destruct (gen_created_first_post remote fuel (wiki_api wiki)
              (fresh (dom (w_heap w))) w3) as [evs Hevs].
  rewrite <- gen_next_world in Hevs.
  exists evs. unfold mbind, M_bind, next.
  destruct (gen_next remote (S fuel) _ w3) as [[[q| |] g'] w4];
    cbn [fst snd] in *; unfold mret, M_ret; cbn [snd]; rewrite Hevs;
    unfold w3; cbn [w_trace w_heap];
    rewrite lookup_insert_eq, <- app_assoc; done.
Qed.

(** X8.  When neither the metadata nor the text of (pageid, revid) is
    stored, and S3 answers the two probes, the call asks the wiki for the
    revision with its text: [rvprop] ends in [|content], and [rvslots] is
    sent exactly when the wiki is configured with slots, with the
    configured value. *)
Theorem text_request (fuel : nat) (wiki : wiki_config)
    (pageid revid : pyint) (w : world) :
  int_of revid ≠ 0 →
  w_store w !! (wiki_s3_bucket wiki,
                s3_key_for_revision_metadata wiki pageid revid) = None →
  w_store w !! (wiki_s3_bucket wiki,
                s3_key_for_revision_content wiki pageid revid) = None →
  s3_fault (clock w) = None →
  s3_fault (S (clock w)) = None →
  (∃ evs,
     w_trace (handle_revision remote s3_fault (S (S fuel)) wiki pageid revid
                w).2
     = w_trace w ++
         EvHead (wiki_s3_bucket wiki)
           (s3_key_for_revision_metadata wiki pageid revid)
         :: EvHead (wiki_s3_bucket wiki)
              (s3_key_for_revision_content wiki pageid revid)
         :: EvPost (wiki_api wiki)
              (base_params_of (content_params wiki revid))
         :: evs) ∧
  content_params wiki revid !! "rvprop"
  = Some (JStr "ids|user|timestamp|comment|content") ∧
  content_params wiki revid !! "rvslots" = wiki_slots wiki ∧
  content_params wiki revid !! "revids" = Some (json_of revid) ∧
  base_params_of (content_params wiki revid) !! "rvslots" = wiki_slots wiki.
Proof.
  intros Hne Hmeta Hcontent Hfault1 Hfault2. split.
  - rewrite handle_revision_S.
    rewrite bool_decide_eq_false_2 by done.
    erewrite bind_world_Ok
      by (by apply (s3_key_exists_missing s3_fault (wiki_s3_bucket wiki))).
    set (w1 := log _ w).
    destruct (fetch_revision_text_request fuel wiki pageid revid w1)
      as [evs Hevs]; [|done|].
    { unfold w1, clock, log. cbn [w_trace].
      rewrite length_app, Nat.add_1_r. exact Hfault2. }
    unfold mbind at 1, M_bind.
    destruct (fetch_revision remote s3_fault (S fuel) wiki pageid revid w1)
      as [[[need result]| |] w2]; cbn [fst snd] in *.
    + destruct (store_revision_extends
                  (handle_revision remote s3_fault (S fuel) wiki pageid)
                  wiki pageid revid need result
                  (handle_revision_extends (S fuel) wiki pageid) w2)
        as [evs' Hevs'].
      exists (evs ++ evs'). rewrite Hevs', Hevs. unfold w1, log.
      cbn [w_trace]. by rewrite <- !app_assoc.
    + exists evs. rewrite Hevs. unfold w1, log. cbn [w_trace].
      by rewrite <- !app_assoc.
    + exists evs. rewrite Hevs. unfold w1, log. cbn [w_trace].
      by rewrite <- !app_assoc.
  - unfold content_params, base_params_of, revision_params.
    destruct (wiki_slots wiki) as [slots|]; cbn [id];
      repeat split; by vm_compute.
Qed.

(** *** A reply without a fragment *)

Lemma next_stops (fuel : nat) (endpoint : string) (l : loc)
    (params : pydict) (status : Z) (j : api_response) (w : world) :
  w_heap w !! l = Some params →
  remote (clock w) endpoint (base_params_of params) = Reply status (Some j) →
  ¬ (400 ≤ status < 600) →
  resp_error j = None → resp_warnings j = None →
  resp_query j = None → resp_query_continue j = None →
  ∃ h, next remote (S fuel) (mwapi_query endpoint l) w
       = (Raise StopIteration,
          World h (w_store w)
            (w_trace w ++ [EvPost endpoint (base_params_of params)])).
Proof.
  intros Hl Hreply Hstatus He Hw Hq Hqc.
  destruct (gen_created_step fuel endpoint l w) as (h & bp & Hstep).
  cbv zeta in Hstep. rewrite Hl in Hstep. cbn [default from_option id] in Hstep.
  rewrite Hreply in Hstep. cbn [checked_reply] in Hstep.
  rewrite bool_decide_eq_false_2, He, Hw, Hq, Hqc in Hstep by done.
  exists h. unfold next, gen_next. by rewrite Hstep.
Qed.

(** X9.  When the wiki answers the request for a revision by a reply that
    is let through but has neither a [query] nor a [query-continue] field,
    the sequence of fragments is empty, and the call raises
    [StopIteration] (not an [AssertionError]) right after the request: it
    has made the two probes and the request, and has stored nothing. *)
Theorem reply_without_fragment (fuel : nat) (wiki : wiki_config)
    (pageid revid : pyint) (w : world) (status : Z) (j : api_response) :
  int_of revid ≠ 0 →
  w_store w !! (wiki_s3_bucket wiki,
                s3_key_for_revision_metadata wiki pageid revid) = None →
  s3_fault (clock w) = None →
  s3_fault (S (clock w)) = None →
  remote (S (S (clock w))) (wiki_api wiki)
    (base_params_of
       (if bool_decide
             (is_Some (w_store w !! (wiki_s3_bucket wiki,
                         s3_key_for_revision_content wiki pageid revid)))
        then revision_params revid
        else content_params wiki revid))
  = Reply status (Some j) →
  ¬ (400 ≤ status < 600) →
  resp_error j = None → resp_warnings j = None →
  resp_query j = None → resp_query_continue j = None →
  (handle_revision remote s3_fault (S (S fuel)) wiki pageid revid w).1
  = Raise StopIteration ∧
  w_store (handle_revision remote s3_fault (S (S fuel)) wiki pageid revid w).2
  = w_store w ∧
  w_trace (handle_revision remote s3_fault (S (S fuel)) wiki pageid revid w).2
  = w_trace w ++
      [EvHead (wiki_s3_bucket wiki)
         (s3_key_for_revision_metadata wiki pageid revid);
       EvHead (wiki_s3_bucket wiki)
         (s3_key_for_revision_content wiki pageid revid);
       EvPost (wiki_api wiki)
         (base_params_of
            (if bool_decide
                  (is_Some (w_store w !! (wiki_s3_bucket wiki,
                              s3_key_for_revision_content wiki pageid revid)))
             then revision_params revid
             else content_params wiki revid))].
Proof.
  intros Hne Hmeta Hfault1 Hfault2 Hreply Hstatus He Hw Hq Hqc.
  rewrite handle_revision_S.
  rewrite bool_decide_eq_false_2 by done.
  erewrite bind_world_Ok
    by (by apply (s3_key_exists_missing s3_fault (wiki_s3_bucket wiki))).
  set (w1 := log _ w).
  assert (s3_fault (clock w1) = None) as Hfault1'.
  { unfold w1, clock, log. cbn [w_trace].
    rewrite length_app, Nat.add_1_r. exact Hfault2. }
  set (params := if bool_decide _ then _ else _) in *.
  set (need := negb (bool_decide
                       (is_Some (w_store w !! (wiki_s3_bucket wiki,
                          s3_key_for_revision_content wiki pageid revid))))).
  assert (fetch_revision remote s3_fault (S fuel) wiki pageid revid w1
          = (result ← next remote (S fuel)
                         (mwapi_query (wiki_api wiki)
                            (fresh (dom (w_heap w1))));
             mret (need, result))
              (World (<[fresh (dom (w_heap w1)) := params]> (w_heap w1))
                     (w_store w1)
                     (w_trace w1 ++
                        [EvHead (wiki_s3_bucket wiki)
                           (s3_key_for_revision_content wiki pageid revid)])))
    as Hfetch.
  { unfold params, need. case_bool_decide as Hstored.
    - cbn [negb]. apply fetch_revision_present; [done | exact Hstored].
    - cbn [negb]. apply fetch_revision_missing; [done|].
      apply eq_None_not_Some. exact Hstored. }
  set (w0 := World _ _ _) in Hfetch.
  destruct (next_stops fuel (wiki_api wiki) (fresh (dom (w_heap w1))) params
              status j w0) as [h Hnext]; try done.
  { apply lookup_insert_eq. }
  { rewrite <- Hreply. f_equal. unfold w0, w1, clock, log. cbn [w_trace].
    rewrite !length_app. simpl. lia. }
  assert (∀ {B} (f : bool * json → M B),
            (fetch_revision remote s3_fault (S fuel) wiki pageid revid ≫= f)
              w1
            = (Raise StopIteration,
               World h (w_store w0)
                 (w_trace w0 ++
                    [EvPost (wiki_api wiki) (base_params_of params)])))
    as Hrun.
  { intros B f. unfold mbind at 1, M_bind at 1. rewrite Hfetch.
    unfold mbind at 1, M_bind at 1. by rewrite Hnext. }
  rewrite Hrun. cbn [fst snd w_store w_trace w0 w1 log].
  split; [done|]. split; [done|]. by rewrite <- !app_assoc.
Qed.

(** *** Failures of S3 *)
















(** *** Where the calls go *)

#[global] Instance calls_all_preorder (P : event → Prop) :
  PreOrder (calls_all P).
Proof.
  split.
  - intros w. exists []. by rewrite app_nil_r.
  - intros w1 w2 w3 (evs1 & Ht1 & HP1) (evs2 & Ht2 & HP2).
    exists (evs1 ++ evs2). rewrite Ht2, Ht1, app_assoc.
    split; [done | by apply Forall_app].
Qed.

Lemma calls_all_weaken (P Q : event → Prop) (w w' : world) :
  (∀ ev, P ev → Q ev) → calls_all P w w' → calls_all Q w w'.
Proof.
  intros HPQ (evs & Ht & HP). exists evs. split; [done|].
  eapply Forall_impl; [exact HP | done].
Qed.

Lemma keeps_outside_calls_all {A} (P : event → Prop) (m : M A) :
  keeps_outside m → respects (calls_all P) m.
Proof.
  intros Hm w. destruct (Hm w) as [_ Ht]. exists []. by rewrite app_nil_r.
Qed.

Lemma prefix_app (s t : string) : String.prefix s (s +:+ t) = true.
Proof.
  induction s as [|c s IH]; simpl; [by destruct t|].
  by destruct (Ascii.ascii_dec c c).
Qed.

Lemma metadata_key_prefix (wiki : wiki_config) (pageid revid : pyint) :
  String.prefix (wiki_s3_prefix wiki)
    (s3_key_for_revision_metadata wiki pageid revid) = true.
Proof. apply prefix_app. Qed.

Lemma content_key_prefix (wiki : wiki_config) (pageid revid : pyint) :
  String.prefix (wiki_s3_prefix wiki)
    (s3_key_for_revision_content wiki pageid revid) = true.
Proof. apply prefix_app. Qed.

Lemma s3_key_exists_within (wiki : wiki_config) (key : string) :
  String.prefix (wiki_s3_prefix wiki) key = true →
  respects (calls_all (within wiki))
    (s3_key_exists s3_fault (wiki_s3_bucket wiki) key).
Proof.
  intros Hkey w.
  destruct (s3_key_exists_run s3_fault (wiki_s3_bucket wiki) key w)
    as [-> _].
  exists [EvHead (wiki_s3_bucket wiki) key]. split; [done|].
  by repeat constructor.
Qed.

Lemma put_object_within (wiki : wiki_config) (key : string)
    (body : s3_body) :
  String.prefix (wiki_s3_prefix wiki) key = true →
  respects (calls_all (within wiki))
    (put_object s3_fault (wiki_s3_bucket wiki) key body).
Proof.
  intros Hkey w. unfold put_object. destruct (s3_fault (clock w)).
  - exists [EvPutFailed (wiki_s3_bucket wiki) key]. split; [done|].
    by repeat constructor.
  - exists [EvPut (wiki_s3_bucket wiki) key body]. split; [done|].
    by repeat constructor.
Qed.

(** A generator only talks to its endpoint. *)
Lemma gen_next_endpoint (fuel : nat) (g : generator) (w : world) :
  calls_all (λ ev, ∃ d, ev = EvPost (gen_endpoint g) d) w
    (gen_next remote fuel g w).2.
Proof.
  rewrite gen_next_world.
  destruct (gen_body_requests fuel g w) as (ds & Htrace & _).
  exists (EvPost (gen_endpoint g) <$> ds). split; [done|].
  apply Forall_fmap, Forall_forall. intros d _. by exists d.
Qed.

Lemma next_within (fuel : nat) (wiki : wiki_config) (l : loc) :
  respects (calls_all (within wiki))
    (next remote fuel (mwapi_query (wiki_api wiki) l)).
Proof.
  intros w. unfold next. cbn [snd].
  eapply calls_all_weaken; [|apply gen_next_endpoint].
  by intros ev [d ->].
Qed.

Ltac within_leaf :=
  first
    [ apply s3_key_exists_within;
      first [ apply metadata_key_prefix | apply content_key_prefix ]
    | apply put_object_within;
      first [ apply metadata_key_prefix | apply content_key_prefix ]
    | apply next_within
    | apply keeps_outside_calls_all;
      first [ apply dict_get_outside | apply dict_new_outside
            | apply dict_put_outside | apply dict_copy_outside
            | apply dict_setitem_outside | apply dict_update_outside
            | apply dict_getitem_outside ] ].

Lemma fetch_revision_within (fuel : nat) (wiki : wiki_config)
    (pageid revid : pyint) :
  respects (calls_all (within wiki))
    (fetch_revision remote s3_fault fuel wiki pageid revid).
Proof.
  unfold fetch_revision, s3_key_for_revision_content_exists.
  respects_go within_leaf.
Qed.

Lemma store_revision_within (recurse : pyint → M unit) (wiki : wiki_config)
    (pageid revid : pyint) (need : bool) (result : json) :
  (∀ parent, respects (calls_all (within wiki)) (recurse parent)) →
  respects (calls_all (within wiki))
    (store_revision s3_fault recurse wiki pageid revid need result).
Proof.
  intros Hrec. unfold store_revision, s3_put_revision_content,
    s3_put_revision_metadata.
  respects_go ltac:(first [ apply Hrec | within_leaf ]).
Qed.

Lemma handle_revision_within (fuel : nat) (wiki : wiki_config)
    (pageid : pyint) :
  ∀ revid,
    respects (calls_all (within wiki))
      (handle_revision remote s3_fault fuel wiki pageid revid).
Proof.
  induction fuel as [|fuel IH]; intros revid.
  - apply respects_out_of_fuel, _.
  - rewrite handle_revision_S. unfold s3_key_for_revision_metadata_exists.
    case_bool_decide; [apply respects_ret, _|].
    respects_go ltac:(first
      [ apply fetch_revision_within | by apply store_revision_within
      | within_leaf ]).
Qed.

(** X11.  Whatever its arguments and its outcome, a call talks to the
    wiki's API endpoint and to the wiki's bucket only, and in the bucket
    only to keys under the wiki's prefix. *)
Theorem calls_stay_within (fuel : nat) (wiki : wiki_config)
    (pageid revid : pyint) (w : world) :
  ∃ evs,
    w_trace (handle_revision remote s3_fault fuel wiki pageid revid w).2
    = w_trace w ++ evs ∧
    Forall (within wiki) evs.
Proof. apply handle_revision_within. Qed.

(** *** The entry point *)

Context (items_order : nat → pydict → list (string * json)).

Lemma py_items_outside (v : json) : keeps_outside (py_items items_order v).
Proof. intros w. by destruct v. Qed.

Lemma gen_next_endpoint_kept (fuel : nat) (g : generator) (w : world) :
  gen_endpoint (gen_next remote fuel g w).1.2 = gen_endpoint g.
Proof.
  unfold gen_next.
  by destruct (gen_body remote fuel g w) as [[[q [base_params j]]|e|] w'].
Qed.


Section Generic.

Context (R : relation world) `{!PreOrder R}.
Context (wiki : wiki_config).
Hypothesis R_outside : ∀ {A} (m : M A), keeps_outside m → respects R m.
Hypothesis R_next :
  ∀ fuel g w, gen_endpoint g = wiki_api wiki →
              R w (gen_next remote fuel g w).2.
Hypothesis R_revision :
  ∀ fuel pageid revid,
    respects R (handle_revision remote s3_fault fuel wiki pageid revid).

Lemma handle_revision_of_respects (fuel : nat) (pageid revid : json) :
  respects R (handle_revision_of remote s3_fault fuel wiki pageid revid).
Proof.
  unfold handle_revision_of. respects_go ltac:(apply R_revision).
Qed.

Lemma handle_page_respects (fuel : nat) (page : json) :
  respects R (handle_page remote s3_fault fuel wiki page).
Proof.
  unfold handle_page. respects_go ltac:(apply handle_revision_of_respects).
Qed.

Lemma handle_result_respects (fuel : nat) (result : json) :
  respects R (handle_result remote s3_fault items_order fuel wiki result).
Proof.
  unfold handle_result.
  respects_go ltac:(first
    [ apply handle_page_respects
    | apply R_outside, py_items_outside ]).
Qed.

Lemma for_each_fragment_respects (fuel : nat) (body : json → M unit) :
  (∀ q, respects R (body q)) →
  ∀ g, gen_endpoint g = wiki_api wiki →
       respects R (for_each_fragment remote fuel g body).
Proof.
  intros Hbody. induction fuel as [|fuel IH]; intros g Hg w;
    cbn [for_each_fragment].
  - reflexivity.
  - pose proof (R_next fuel g w Hg) as Hnext.
    pose proof (gen_next_endpoint_kept fuel g w) as Hg'.
    destruct (gen_next remote fuel g w) as [[[q|e|] g'] w'];
      cbn [fst snd] in *.
    + etrans; [exact Hnext|].
      apply respects_bind; [apply _ | apply Hbody |].
      intros []. apply IH. congruence.
    + by destruct e.
    + done.
Qed.


End Generic.






Lemma dict_update_at (l : loc) (other d : pydict) (h : gmap loc pydict)
    (st : gmap (string * string) s3_body) (tr : list event) :
  dict_update l other (World (<[l := d]> h) st tr)
  = (Ok (), World (<[l := other ∪ d]> h) st tr).
Proof.
  unfold dict_update, dict_get, dict_put, mbind, M_bind.
  cbn [w_heap w_store w_trace]. rewrite lookup_insert_eq.
  cbn [default from_option id]. by rewrite insert_insert_eq.
Qed.

Lemma keeps_outside_extends {A} (m : M A) :
  keeps_outside m → respects extends m.
Proof.
  intros Hm w. destruct (Hm w) as [_ Ht]. exists []. by rewrite app_nil_r.
Qed.

Lemma gen_next_extends (fuel : nat) (g : generator) (w : world) :
  extends w (gen_next remote fuel g w).2.
Proof.
  destruct (gen_next_endpoint fuel g w) as (evs & Htrace & _). by exists evs.
Qed.

Lemma for_each_fragment_S (fuel : nat) (g : generator)
    (body : json → M unit) (w : world) :
  for_each_fragment remote (S fuel) g body w
  = match gen_next remote fuel g w with
    | (Ok q, g', w') => (body q;; for_each_fragment remote fuel g' body) w'
    | (Raise StopIteration, _, w') => (Ok (), w')
    | (Raise e, _, w') => (Raise e, w')
    | (OutOfFuel, _, w') => (OutOfFuel, w')
    end.
Proof. reflexivity. Qed.

Lemma handle_result_extends (fuel : nat) (wiki : wiki_config)
    (result : json) :
  respects extends
    (handle_result remote s3_fault items_order fuel wiki result).
Proof.
  apply handle_result_respects; [apply _ | |].
  - intros A m. apply keeps_outside_extends.
  - intros fuel' pageid revid. apply handle_revision_extends.
Qed.

(** X13.  The first request for a source of a wiki goes to the API endpoint
    of the wiki and carries the parameters of the source on top of the
    defaults [prop=revisions] and [rvprop=ids], and the four fixed
    parameters of a query on top of both. *)
Theorem source_request (fuel : nat) (wiki : wiki_config) (source : pydict)
    (w : world) :
  ∃ evs,
    w_trace (handle_source remote s3_fault items_order (S (S fuel)) wiki
               source w).2
    = w_trace w ++
        EvPost (wiki_api wiki)
          (base_params_of
             (source ∪ {[ "prop" := JStr "revisions";
                          "rvprop" := JStr "ids" ]}))
        :: evs.
Proof.
  unfold handle_source.
  erewrite bind_world_Ok by reflexivity.
  erewrite bind_world_Ok by apply dict_update_at.
  set (l := fresh (dom (w_heap w))). set (w0 := World _ _ _).
  rewrite for_each_fragment_S.
  destruct (gen_created_first_post remote fuel (wiki_api wiki) l w0)
    as [evs Hevs].
  rewrite <- gen_next_world in Hevs.
  cbn [w0 w_heap w_trace] in Hevs.
  rewrite lookup_insert_eq in Hevs. cbn [default from_option id] in Hevs.
  pose proof (gen_next_endpoint_kept (S fuel) (mwapi_query (wiki_api wiki) l)
                w0) as Hg.
  destruct (gen_next remote (S fuel) (mwapi_query (wiki_api wiki) l) w0)
    as [[[q|e|] g'] w1]; cbn [fst snd] in *.
  - assert (extends w1
              ((handle_result remote s3_fault items_order (S (S fuel)) wiki q;;
                for_each_fragment remote (S fuel) g'
                  (handle_result remote s3_fault items_order (S (S fuel))
                     wiki)) w1).2) as [evs' Hevs'].
    { apply respects_bind; [apply _ | |intros []].
      - apply handle_result_extends.
      - apply (for_each_fragment_respects extends wiki); [| |done].
        + intros fuel' g w2 _. apply gen_next_extends.
        + intros q'. apply handle_result_extends. }
    exists (evs ++ evs'). rewrite Hevs', Hevs. by rewrite <- app_assoc.
  - exists evs. by destruct e.
  - by exists evs.
Qed.

Lemma for_each_Ok_elem {A} (R : relation world) `{!PreOrder R}
    (body : A → M unit) :
  (∀ x, respects R (body x)) →
  ∀ (l : list A) (w w' : world) (x : A),
    for_each l body w = (Ok (), w') → x ∈ l →
    ∃ w1 w2, body x w1 = (Ok (), w2) ∧ R w2 w'.
Proof.
  intros Hbody. induction l as [|a l IH]; intros w w' x Hrun Hx.
  { by apply elem_of_nil in Hx. }
  cbn [for_each] in Hrun.
  apply bind_Ok_inv in Hrun as ([] & wa & Ha & Hrest).
  apply elem_of_cons in Hx as [->|Hx].
  - exists w, wa. split; [done|].
    pose proof (respects_for_each R l body Hbody wa) as Hl.
    by rewrite Hrest in Hl.
  - by eapply IH.
Qed.

Lemma check_page_run (page pageid revision revid : json) :
  py_getitem page "pageid" = Ok pageid →
  py_getitem page "revisions" = Ok (JList [revision]) →
  py_getitem revision "revid" = Ok revid →
  check_page page = Ok (pageid, revid).
Proof.
  intros Hpid Hrevs Hrid. unfold check_page.
  repeat first
    [ rewrite outcome_bind_Ok
    | progress cbn [py_assert py_len py_getitem_0 List.length]
    | rewrite bool_decide_eq_true_2 by done
    | erewrite py_getitem_contains by eassumption
    | rewrite Hpid | rewrite Hrevs | rewrite Hrid ].
  done.
Qed.

Lemma as_revid_eq_zero (v : json) (r : pyint) :
  as_revid v = Ok r → int_of r ≠ 0 → py_eq_int v (PInt 0) = false.
Proof.
  destruct v as [|b|z| | |]; try done; intros [= <-] Hne; simpl in *;
    by apply bool_decide_eq_false.
Qed.

Lemma handle_page_keeps (fuel : nat) (wiki : wiki_config) (page : json) :
  respects keeps_objects (handle_page remote s3_fault fuel wiki page).
Proof.
  apply handle_page_respects; [apply _|].
  intros fuel' pageid revid. apply handle_revision_keeps.
Qed.

(** X14.  When the handling of a fragment returns, the latest revision of
    every page the fragment lists is archived: for each page with an
    integer page id and one revision with an integer id other than 0, the
    metadata of that revision is in the store (provided [items()] lists
    every entry of the [pages] object). *)
Theorem fragment_pages_archived (fuel : nat) (wiki : wiki_config)
    (result : json) (w : world) (pages : pydict) (key : string)
    (page pageid revision revid : json) (p r : pyint) :
  (handle_result remote s3_fault items_order fuel wiki result w).1 = Ok () →
  (∀ t m k v, m !! k = Some v → (k, v) ∈ items_order t m) →
  py_getitem result "pages" = Ok (JDict pages) →
  pages !! key = Some page →
  py_getitem page "pageid" = Ok pageid →
  py_getitem page "revisions" = Ok (JList [revision]) →
  py_getitem revision "revid" = Ok revid →
  as_revid pageid = Ok p →
  as_revid revid = Ok r →
  int_of r ≠ 0 →
  is_Some
    (w_store (handle_result remote s3_fault items_order fuel wiki result w).2
     !! (wiki_s3_bucket wiki, s3_key_for_revision_metadata wiki p r)).
Proof.
  intros Hok Hitems Hpages Hpage Hpid Hrevs Hrid Hp Hr Hne.
  destruct (handle_result remote s3_fault items_order fuel wiki result w)
    as [o w'] eqn:Hrun.
  cbn [fst snd] in *. subst o. unfold handle_result in Hrun.
  apply bind_Ok_inv in Hrun as (has & ? & [_ ->]%lift_Ok_inv & Hrun).
  apply bind_Ok_inv in Hrun as ([] & ? & [_ ->]%lift_Ok_inv & Hrun).
  apply bind_Ok_inv in Hrun as (pages' & ? & [Hpages' ->]%lift_Ok_inv & Hrun).
  rewrite Hpages in Hpages'. injection Hpages' as <-.
  apply bind_Ok_inv in Hrun as (items & w0 & Hlist & Hrun).
  cbn [py_items] in Hlist. injection Hlist as <- <-.
  destruct (for_each_Ok_elem keeps_objects
              (λ kv, handle_page remote s3_fault fuel wiki kv.2)
              (λ kv, handle_page_keeps fuel wiki kv.2)
              _ _ _ (key, page) Hrun (Hitems _ _ _ _ Hpage))
    as (w1 & w2 & Hhandle & Hkeep).
  cbn [snd] in Hhandle. unfold handle_page in Hhandle.
  apply bind_Ok_inv in Hhandle as (pr & ? & [Hcheck ->]%lift_Ok_inv & Hhandle).
  rewrite (check_page_run _ _ _ _ Hpid Hrevs Hrid) in Hcheck.
  injection Hcheck as <-. cbn [fst snd] in Hhandle.
  unfold handle_revision_of in Hhandle.
  rewrite (as_revid_eq_zero _ _ Hr Hne) in Hhandle.
  apply bind_Ok_inv in Hhandle as (p' & ? & [Hp' ->]%lift_Ok_inv & Hhandle).
  apply bind_Ok_inv in Hhandle as (r' & ? & [Hr' ->]%lift_Ok_inv & Hhandle).
  assert (p' = p) as -> by congruence. assert (r' = r) as -> by congruence.
  apply handle_revision_shape in Hhandle as [_ Hstored].
  destruct (Hstored Hne) as [body Hbody]. exists body. by apply Hkeep.
Qed.

(** *** A query answered in one reply *)

(** X15.  When the first reply to a query carries a fragment and no
    [query-continue], a [for] loop over the query makes that one request,
    runs its body once, on that fragment, and ends: the second [next] stops
    the sequence without a request. *)
Theorem single_fragment_loop (fuel : nat) (endpoint : string) (l : loc)
    (params : pydict) (status : Z) (j : api_response) (q : json)
    (body : json → M unit) (w : world) :
  w_heap w !! l = Some params →
  remote (clock w) endpoint (base_params_of params) = Reply status (Some j) →
  ¬ (400 ≤ status < 600) →
  resp_error j = None → resp_warnings j = None →
  resp_query j = Some q → resp_query_continue j = None →
  ∃ h,
    for_each_fragment remote (S (S fuel)) (mwapi_query endpoint l) body w
    = body q
        (World h (w_store w)
           (w_trace w ++ [EvPost endpoint (base_params_of params)])).
Proof.
  intros Hl Hreply Hstatus He Hw Hq Hqc.
  destruct (gen_created_step fuel endpoint l w) as (h & bp & Hstep).
  cbv zeta in Hstep. rewrite Hl in Hstep. cbn [default from_option id] in Hstep.
  rewrite Hreply in Hstep. cbn [checked_reply] in Hstep.
  rewrite bool_decide_eq_false_2, He, Hw, Hq in Hstep by done.
  exists h. rewrite for_each_fragment_S. unfold gen_next at 1.
  rewrite Hstep. cbn [gen_endpoint gen_params mwapi_query].
  unfold mbind, M_bind.
  destruct (body q _) as [[[]|e|] w1]; [|done..].
  rewrite for_each_fragment_S. unfold gen_next, gen_body.
  cbn [gen_state]. by rewrite Hqc.
Qed.

(** *** What is written under which key *)

Lemma put_object_agrees (wiki : wiki_config) (pageid : pyint) (key : string)
    (body : s3_body) (w0 w : world) :
  calls_all (agrees_with_key wiki pageid) w0 w →
  agrees_with_key wiki pageid (EvPut (wiki_s3_bucket wiki) key body) →
  calls_all (agrees_with_key wiki pageid) w0
    (put_object s3_fault (wiki_s3_bucket wiki) key body w).2.
Proof.
  intros Hw Hput. etrans; [exact Hw|]. unfold put_object.
  destruct (s3_fault (clock w)).
  - exists [EvPutFailed (wiki_s3_bucket wiki) key]. split; [done|].
    by repeat constructor.
  - exists [EvPut (wiki_s3_bucket wiki) key body]. split; [done|].
    by repeat constructor.
Qed.

Lemma only_calls_agrees (wiki : wiki_config) (pageid : pyint) (w w' : world) :
  only_calls (λ ev, negb (is_write ev)) w w' →
  calls_all (agrees_with_key wiki pageid) w w'.
Proof.
  intros [_ (evs & Ht & HP)]. exists evs. split; [done|].
  eapply Forall_impl; [exact HP|]. by intros [| | |].
Qed.

Lemma store_revision_agrees (recurse : pyint → M unit) (wiki : wiki_config)
    (pageid revid : pyint) (need : bool) (result : json) (w : world) :
  int_of revid ≠ 0 →
  (∀ parent, respects (calls_all (agrees_with_key wiki pageid))
               (recurse parent)) →
  calls_all (agrees_with_key wiki pageid) w
    (store_revision s3_fault recurse wiki pageid revid need result w).2.
Proof.
  intros Hne Hrec. unfold store_revision.
  apply post_bind; [reflexivity|].
  intros [page revision] w1 [Hcheck ->]%lift_Ok_inv. cbv zeta. cbn [fst snd].
  apply post_bind; [reflexivity|]. intros parentid w1 [_ ->]%lift_Ok_inv.
  assert (calls_all (agrees_with_key wiki pageid) w
            ((if need
              then content ← lift (revision_content wiki revision);
                   s3_put_revision_content s3_fault wiki pageid revid content
              else mret ()) w).2) as Htext.
  { destruct need; [|reflexivity].
    apply post_bind; [reflexivity|]. intros content w1 [_ ->]%lift_Ok_inv.
    unfold s3_put_revision_content. destruct content; try reflexivity.
    apply put_object_agrees; [reflexivity|].
    split; [done|]. by exists revid. }
  apply post_bind; [exact Htext|]. intros [] w3 Hw3.
  rewrite Hw3 in Htext. cbn [snd] in Htext.
  apply post_bind; [exact Htext|]. intros parent w1 [_ ->]%lift_Ok_inv.
  assert (calls_all (agrees_with_key wiki pageid) w (recurse parent w3).2)
    as Hparent by (etrans; [exact Htext | apply Hrec]).
  apply post_bind; [exact Hparent|]. intros [] w4 Hw4.
  rewrite Hw4 in Hparent. cbn [snd] in Hparent.
  apply post_bind; [exact Hparent|]. intros value w1 [Hvalue ->]%lift_Ok_inv.
  unfold s3_put_revision_metadata.
  apply put_object_agrees; [done|].
  split; [done|]. exists revid. split; [done|]. split; [done|].
  pose proof (metadata_value_fields _ _ _ _ _ Hvalue) as [Hrevid _].
  split; [done|].
  apply check_response_Ok_inv in Hcheck
    as (pp & rr & _ & Hpid & Hpideq & _).
  unfold metadata_value in Hvalue.
  bind_open Hvalue as pp' Hpid'. do 5 bind_drop Hvalue.
  injection Hvalue as <-. cbn [meta_pageid]. congruence.
Qed.

Lemma handle_revision_agrees (fuel : nat) (wiki : wiki_config)
    (pageid : pyint) :
  ∀ revid,
    respects (calls_all (agrees_with_key wiki pageid))
      (handle_revision remote s3_fault fuel wiki pageid revid).
Proof.
  induction fuel as [|fuel IH]; intros revid w.
  - reflexivity.
  - rewrite handle_revision_S. case_bool_decide as Hne; [reflexivity|].
    assert (calls_all (agrees_with_key wiki pageid) w
              (s3_key_for_revision_metadata_exists s3_fault wiki pageid revid
                 w).2) as Hprobe.
    { apply only_calls_agrees, s3_key_exists_reads. }
    apply post_bind; [exact Hprobe|]. intros archived w1 Hw1.
    rewrite Hw1 in Hprobe. cbn [snd] in Hprobe.
    destruct archived; [exact Hprobe|].
    assert (calls_all (agrees_with_key wiki pageid) w
              (fetch_revision remote s3_fault fuel wiki pageid revid w1).2)
      as Hfetch.
    { etrans; [exact Hprobe|]. apply only_calls_agrees, fetch_revision_reads. }
    apply post_bind; [exact Hfetch|]. intros [need result] w2 Hw2.
    rewrite Hw2 in Hfetch. cbn [fst snd] in *.
    etrans; [exact Hfetch|]. by apply store_revision_agrees.
Qed.

(** X16.  Whatever the outcome of a run, every object it writes agrees
    with its key: a text goes under the content key of a revision of the
    page, and a metadata goes under the metadata key of the very revision
    it records as [revid], with the page id of the call as [pageid]. *)
Theorem writes_agree_with_keys (fuel : nat) (wiki : wiki_config)
    (pageid revid : pyint) (w : world) :
  ∃ evs,
    w_trace (handle_revision remote s3_fault fuel wiki pageid revid w).2
    = w_trace w ++ evs ∧
    Forall (agrees_with_key wiki pageid) evs.
Proof. apply handle_revision_agrees. Qed.

(** *** The request after a continuation *)

Lemma fresh_not_allocated (h : gmap loc pydict) (l : loc) :
  is_Some (h !! l) → fresh (dom h) ≠ l.
Proof.
  intros Hl Heq. pose proof (is_fresh (dom h)) as Hfresh.
  rewrite Heq in Hfresh. by apply Hfresh, elem_of_dom.
Qed.

(** Within one run of the loop, a request that follows another carries
    the continuation of the reply to that one, on top of the base
    parameters. *)
Lemma mwapi_loop_follow (fuel : nat) (endpoint : string) :
  ∀ (base_params continue_params : loc) (w : world) (pre post : list event)
    (ep ep' : string) (d d' : pydict),
    is_Some (w_heap w !! base_params) →
    w_trace (mwapi_loop remote fuel endpoint base_params continue_params w).2
    = w_trace w ++ pre ++ EvPost ep d :: EvPost ep' d' :: post →
    ∃ j qc,
      checked_reply (remote (List.length (w_trace w ++ pre)) ep d) = Ok j ∧
      resp_query j = None ∧
      resp_query_continue j = Some qc ∧
      ep' = endpoint ∧
      d' = continuation_of qc ∪ default ∅ (w_heap w !! base_params).
Proof.
  induction fuel as [|fuel IH];
    intros base_params continue_params w pre post ep ep' d d' Hbase Htrace.
  { cbn [mwapi_loop] in Htrace. unfold out_of_fuel in Htrace.
    cbn [snd] in Htrace.
    rewrite <- (app_nil_r (w_trace w)) in Htrace at 1.
    apply app_inv_head in Htrace. by destruct pre. }
  rewrite mwapi_loop_step in Htrace. cbv zeta in Htrace.
  set (l := fresh (dom (w_heap w))) in *.
  set (d0 := _ ∪ _) in *. set (w1 := World _ _ _) in *.
  assert (∀ (o : outcome (json * (loc * api_response))),
            w_trace (o, w1).2
            ≠ w_trace w ++ pre ++ EvPost ep d :: EvPost ep' d' :: post)
    as Hone.
  { intros o Heq. cbn [snd w1 w_trace] in Heq.
    apply app_inv_head in Heq. by destruct pre as [|? [|? ?]]. }
  destruct (checked_reply (remote (clock w) endpoint d0)) as [j|e|] eqn:Hc;
    [|by destruct (Hone _ Htrace)..].
  destruct (resp_query j) as [q|] eqn:Hq; [by destruct (Hone _ Htrace)|].
  destruct (resp_query_continue j) as [qc|] eqn:Hqc;
    [|by destruct (Hone _ Htrace)].
  unfold mbind, M_bind in Htrace. rewrite resolve_continue_run in Htrace.
  set (cp := fresh (dom (w_heap w1))) in *.
  set (w2 := World (<[cp := continuation_of qc]> (w_heap w1)) (w_store w1)
                   (w_trace w1)) in *.
  assert (l ≠ base_params) as Hl by (by apply fresh_not_allocated).
  assert (w_heap w1 !! base_params = w_heap w !! base_params) as Hbase1.
  { unfold w1. cbn [w_heap]. by rewrite lookup_insert_ne. }
  assert (cp ≠ base_params) as Hcp.
  { apply fresh_not_allocated. by rewrite Hbase1. }
  assert (w_heap w2 !! base_params = w_heap w !! base_params) as Hbase2.
  { unfold w2. cbn [w_heap]. by rewrite lookup_insert_ne. }
  assert (w_trace w2 = w_trace w ++ [EvPost endpoint d0]) as Htrace2 by done.
  destruct pre as [|ev pre].
  - destruct fuel as [|fuel].
    { cbn [mwapi_loop] in Htrace. unfold out_of_fuel in Htrace.
      cbn [snd] in Htrace. rewrite Htrace2 in Htrace.
      apply app_inv_head in Htrace. discriminate Htrace. }
    destruct (mwapi_loop_first_post remote fuel endpoint base_params cp w2)
      as [evs Hevs].
    { unfold w2. cbn [w_heap]. rewrite lookup_insert_eq. eauto. }
    rewrite Hevs, Htrace2, <- app_assoc in Htrace.
    apply app_inv_head in Htrace. cbn [app] in Htrace.
    injection Htrace as <- <- <- <- _.
    exists j, qc. rewrite app_nil_r. fold (clock w).
    split; [done|]. split; [done|]. split; [done|]. split; [done|].
    by rewrite lookup_insert_eq, !lookup_insert_ne.
  - destruct (mwapi_loop_posts remote fuel endpoint base_params cp w2)
      as [_ (evs & Hevs & _)].
    assert (ev = EvPost endpoint d0) as ->.
    { rewrite Hevs, Htrace2, <- app_assoc in Htrace.
      apply app_inv_head in Htrace. by injection Htrace as <- _. }
    destruct (IH base_params cp w2 pre post ep ep' d d')
      as (j' & qc' & Hc' & Hq' & Hqc' & Hep & Hd).
    { by rewrite Hbase2. }
    { rewrite Htrace, Htrace2. by rewrite <- app_assoc. }
    exists j', qc'. rewrite Htrace2, <- app_assoc in Hc'.
    rewrite Hbase2 in Hd. done.
Qed.

Lemma gen_body_follow (fuel : nat) (g : generator) (w : world)
    (pre post : list event) (ep ep' : string) (d d' : pydict) :
  gen_ready g w →
  w_trace (gen_body remote fuel g w).2
  = w_trace w ++ pre ++ EvPost ep d :: EvPost ep' d' :: post →
  ∃ j qc,
    checked_reply (remote (List.length (w_trace w ++ pre)) ep d) = Ok j ∧
    resp_query j = None ∧
    resp_query_continue j = Some qc ∧
    ep' = gen_endpoint g ∧
    d' = continuation_of qc ∪ gen_base g w.
Proof.
  destruct g as [endpoint params [|base_params j0|]];
    unfold gen_ready, gen_base; cbn [gen_state gen_endpoint gen_params].
  - intros _. change (Generator endpoint params GenCreated)
      with (mwapi_query endpoint params).
    rewrite gen_created_run. cbv zeta.
    set (bp := fresh (dom (w_heap w))).
    set (d0 := base_params_of _).
    set (cp := fresh (dom (<[bp := d0]> (w_heap w)))).
    set (w0 := World _ _ _).
    assert (cp ≠ bp) as Hne.
    { apply fresh_not_allocated. rewrite lookup_insert_eq. eauto. }
    assert (w_heap w0 !! bp = Some d0) as Hbp.
    { cbn [w0 w_heap]. by rewrite lookup_insert_ne, lookup_insert_eq. }
    intros Htrace.
    destruct (mwapi_loop_follow fuel endpoint bp cp w0 pre post ep ep' d d')
      as (j & qc & Hc & Hq & Hqc & Hep & Hd); [by rewrite Hbp | done |].
    exists j, qc. rewrite Hbp in Hd. done.
  - intros Hready. unfold gen_body. cbn [gen_state gen_endpoint].
    destruct (resp_query_continue j0) as [qc0|].
    + unfold mbind, M_bind. rewrite resolve_continue_run.
      set (cp := fresh (dom (w_heap w))). set (w0 := World _ _ _).
      assert (cp ≠ base_params) as Hne by (by apply fresh_not_allocated).
      assert (w_heap w0 !! base_params = w_heap w !! base_params) as Hbp.
      { cbn [w0 w_heap]. by rewrite lookup_insert_ne. }
      intros Htrace.
      destruct (mwapi_loop_follow fuel endpoint base_params cp w0 pre post
                  ep ep' d d')
        as (j & qc & Hc & Hq & Hqc & Hep & Hd); [by rewrite Hbp | done |].
      exists j, qc. rewrite Hbp in Hd. done.
    + unfold raise. cbn [snd]. intros Htrace.
      rewrite <- (app_nil_r (w_trace w)) in Htrace at 1.
      apply app_inv_head in Htrace. by destruct pre.
  - intros _. unfold gen_body, raise. cbn [gen_state snd]. intros Htrace.
    rewrite <- (app_nil_r (w_trace w)) in Htrace at 1.
    apply app_inv_head in Htrace. by destruct pre.
Qed.

(** The first request of a generator that was suspended on a reply with a
    continuation carries that continuation. *)
Lemma gen_body_resumed (fuel : nat) (endpoint : string) (params : loc)
    (base_params : loc) (j : api_response) (qc : list (string * pydict))
    (w : world) :
  resp_query_continue j = Some qc →
  is_Some (w_heap w !! base_params) →
  ∃ evs,
    w_trace (gen_body remote (S fuel)
               (Generator endpoint params (GenSuspended base_params j)) w).2
    = w_trace w ++
        EvPost endpoint
          (continuation_of qc ∪ default ∅ (w_heap w !! base_params))
        :: evs.
Proof.
  intros Hqc Hbase. unfold gen_body. cbn [gen_state gen_endpoint].
  rewrite Hqc. unfold mbind, M_bind. rewrite resolve_continue_run.
  set (cp := fresh (dom (w_heap w))). set (w0 := World _ _ _).
  assert (cp ≠ base_params) as Hne by (by apply fresh_not_allocated).
  destruct (mwapi_loop_first_post remote fuel endpoint base_params cp w0)
    as [evs Hevs].
  { cbn [w0 w_heap]. rewrite lookup_insert_eq. eauto. }
  exists evs. rewrite Hevs. cbn [w0 w_heap w_trace].
  by rewrite lookup_insert_eq, lookup_insert_ne.
Qed.

(** C4.  [resolve_continue] makes a new dict that holds, when some
    second-level key of the block does not start with [g], exactly the
    second-level keys that do not start with [g], and otherwise exactly all
    second-level keys, each with its value in the last member of the block
    that has it.  The client sends them with its next request, on top of
    the base parameters: the first request of a [next] on a generator that
    was suspended on a reply with the block carries them, and so does,
    within a [next], the request that follows a request answered with the
    block. *)
Theorem continuation_resolution (qc : list (string * pydict)) (w : world)
    (endpoint : string) (base_params : loc) :
  ∃ continue_params w',
    resolve_continue qc w = (Ok continue_params, w') ∧
    w_heap w' !! continue_params = Some (continuation_of qc) ∧
    w_trace (mwapi_request remote endpoint base_params continue_params w').2
    = w_trace w' ++
        [EvPost endpoint
           (continuation_of qc ∪ default ∅ (w_heap w' !! base_params))] ∧
    (some_plain_key qc →
       (∀ k, is_Some (continuation_of qc !! k) ↔
             second_level_key qc k ∧ not_generator_key k = true) ∧
       (∀ k v, continuation_of qc !! k = Some v ↔
               not_generator_key k = true ∧ last_value qc k v)) ∧
    (¬ some_plain_key qc →
       (∀ k, is_Some (continuation_of qc !! k) ↔ second_level_key qc k) ∧
       (∀ k v, continuation_of qc !! k = Some v ↔ last_value qc k v)) ∧
    (∀ (fuel : nat) (g : generator) (w0 : world) (bp : loc)
       (j : api_response),
       gen_state g = GenSuspended bp j →
       resp_query_continue j = Some qc →
       is_Some (w_heap w0 !! bp) →
       ∃ evs,
         w_trace (gen_next remote (S fuel) g w0).2
         = w_trace w0 ++
             EvPost (gen_endpoint g)
               (continuation_of qc ∪ default ∅ (w_heap w0 !! bp))
             :: evs) ∧
    (∀ (fuel : nat) (g : generator) (w0 : world) (pre post : list event)
       (ep ep' : string) (d d' : pydict) (status : Z) (j : api_response),
       gen_ready g w0 →
       w_trace (gen_next remote fuel g w0).2
       = w_trace w0 ++ pre ++ EvPost ep d :: EvPost ep' d' :: post →
       remote (List.length (w_trace w0 ++ pre)) ep d
       = Reply status (Some j) →
       resp_query_continue j = Some qc →
       ep' = gen_endpoint g ∧
       d' = continuation_of qc ∪ gen_base g w0).
Proof.
  destruct (continuation_selection remote qc w endpoint base_params)
    as (continue_params & w' & Hrun & Hheap & Hrequest & Hplain & Hall).
  exists continue_params, w'.
  split; [done|]. split; [done|]. split; [done|]. split; [done|].
  split; [done|]. split.
  - intros fuel g w0 bp j Hstate Hqc Hbase. rewrite gen_next_world.
    destruct g as [ep params st]. cbn [gen_state gen_endpoint] in *.
    subst st. by apply gen_body_resumed.
  - intros fuel g w0 pre post ep ep' d d' status j Hready Htrace Hreply Hqc.
    rewrite gen_next_world in Htrace.
    destruct (gen_body_follow fuel g w0 pre post ep ep' d d' Hready Htrace)
      as (j' & qc' & Hc & _ & Hqc' & Hep & Hd).
    rewrite Hreply in Hc.
    apply checked_reply_Ok_inv in Hc as (status' & [= _ ->] & _).
    rewrite Hqc in Hqc'. injection Hqc' as <-. done.
Qed.

(** C8.  When the text of (pageid, revid) is stored but its metadata is not,
    and S3 answers the two probes, the call asks the wiki for the revision
    with [rvprop=ids|user|timestamp|comment] and no [rvslots], so without
    the content; whatever its outcome it makes no write under the content
    key of the revision; when it returns, its last call is the write of
    the metadata of [revid], after those of the rest of the chain, all
    writes of texts being for revisions of the rest of the chain; and it
    does return, with the metadata the wiki described stored under the
    metadata key and the text as it was, on a wiki that serves the chain of
    the revision, when S3 answers every call and the fuel is enough for
    the chain. *)
Theorem content_without_metadata (fuel : nat) (wiki : wiki_config)
    (pageid revid : pyint) (w : world) :
  int_of revid ≠ 0 →
  w_store w !! (wiki_s3_bucket wiki,
                s3_key_for_revision_metadata wiki pageid revid) = None →
  is_Some (w_store w !! (wiki_s3_bucket wiki,
                         s3_key_for_revision_content wiki pageid revid)) →
  s3_fault (clock w) = None →
  s3_fault (S (clock w)) = None →
  (∃ evs,
     w_trace (handle_revision remote s3_fault (S (S fuel)) wiki pageid revid
                w).2
     = w_trace w ++
         EvHead (wiki_s3_bucket wiki)
           (s3_key_for_revision_metadata wiki pageid revid)
         :: EvHead (wiki_s3_bucket wiki)
              (s3_key_for_revision_content wiki pageid revid)
         :: EvPost (wiki_api wiki)
              (base_params_of
                 {[ "prop" := JStr "revisions|info";
                    "rvprop" := JStr "ids|user|timestamp|comment";
                    "inprop" := JStr "url";
                    "revids" := json_of revid ]})
         :: evs) ∧
  (∀ evs,
     w_trace (handle_revision remote s3_fault (S (S fuel)) wiki pageid revid
                w).2
     = w_trace w ++ evs →
     Forall (λ ev, ∀ bucket key,
               (∃ body, ev = EvPut bucket key body)
               ∨ ev = EvPutFailed bucket key →
               key ≠ s3_key_for_revision_content wiki pageid revid) evs) ∧
  ((handle_revision remote s3_fault (S (S fuel)) wiki pageid revid w).1
   = Ok () →
   ∃ calls value rest,
     w_trace (handle_revision remote s3_fault (S (S fuel)) wiki pageid revid
                w).2
     = w_trace w ++ calls
         ++ (metadata_put wiki pageid <$> reverse rest)
         ++ [EvPut (wiki_s3_bucket wiki)
               (s3_key_for_revision_metadata wiki pageid revid)
               (YamlDump value)] ∧
     Forall (descent_event wiki pageid rest) calls ∧
     meta_revid value = json_of revid ∧
     chain_from wiki pageid (w_store w) revid ((revid, value) :: rest)) ∧
  (∀ chain : list (pyint * rev_metadata),
     (∀ t, s3_fault t = None) →
     chain_from wiki pageid (w_store w) revid chain →
     serves remote wiki pageid chain →
     (List.length chain < S (S fuel))%nat →
     (handle_revision remote s3_fault (S (S fuel)) wiki pageid revid w).1
     = Ok () ∧
     ∃ value rest,
       chain = (revid, value) :: rest ∧
       w_store (handle_revision remote s3_fault (S (S fuel)) wiki pageid
                  revid w).2
         !! (wiki_s3_bucket wiki,
             s3_key_for_revision_metadata wiki pageid revid)
       = Some (YamlDump value) ∧
       w_store (handle_revision remote s3_fault (S (S fuel)) wiki pageid
                  revid w).2
         !! (wiki_s3_bucket wiki,
             s3_key_for_revision_content wiki pageid revid)
       = w_store w !! (wiki_s3_bucket wiki,
                       s3_key_for_revision_content wiki pageid revid)).
Proof.
  intros Hne Hmeta Hcontent Hfault1 Hfault2.
  destruct (content_stored_run remote s3_fault fuel wiki pageid revid w Hne
              Hmeta Hcontent Hfault1 Hfault2) as (Hrequest & Hnowrite & Hlast).
  split; [done|]. split; [done|]. split; [done|].
  intros chain Hs3 Hchain Hserves Hfuel.
  destruct (handle_revision_chain wiki pageid Hs3 chain (S (S fuel)) revid w
              Hchain Hserves Hfuel) as (w' & Hrun & _ & Hhead).
  pose proof (handle_revision_keeps (S (S fuel)) wiki pageid revid w) as Hkeep.
  rewrite Hrun in *. cbn [fst snd] in *. split; [done|].
  inversion Hchain as [r H0|r ? Hin|r value parent rest ? ? Hrev Hpar Hrest];
    subst.
  - done.
  - rewrite Hmeta in Hin. by destruct Hin.
  - exists value, rest. split; [done|]. split; [by eapply Hhead|].
    destruct Hcontent as [body Hbody]. rewrite Hbody. by apply Hkeep.
Qed.

End MoreArchiverProofs.

(** ** The further theorems on the example wiki *)

Lemma stored_objects_kept_witness :
  w_store (handle_revision example_remote no_fault 10 example_wiki (PInt 5)
             (PInt 4) archived_world).2
    !! ("archive", "x/page_00000005/rev_00000003.yaml")
  = Some (YamlDump example_metadata).
Proof.
  apply (stored_objects_kept example_remote no_fault 10 example_wiki (PInt 5)
           (PInt 4) archived_world).
  vm_compute. reflexivity.
Defined.

Lemma parents_stay_stored_witness :
  parents_stored example_wiki (PInt 5)
    (w_store (handle_revision example_remote no_fault 10 example_wiki
                (PInt 5) (PInt 3) empty_world).2).
Proof.
  apply (parents_stay_stored example_remote no_fault 10 example_wiki (PInt 5)
           (PInt 3) empty_world).
  intros revid value parent Hstored. simpl in Hstored.
  rewrite lookup_empty in Hstored. discriminate Hstored.
Defined.

Lemma fragment_provenance_witness :
  ∃ d status j,
    example_remote 0 "https://wiki.example/api.php" d
    = Reply status (Some j) ∧
    resp_query j = Some (example_query 3 false).
Proof.
  destruct (fragment_provenance example_remote 1
              (mwapi_query "https://wiki.example/api.php" 1%positive)
              request_world (example_query 3 false))
    as (ds & d & status & j & base_params & Htrace & Hreply & _ & _ & _
        & Hquery & _).
  - vm_compute. reflexivity.
  - exists d, status, j. split; [|exact Hquery].
    destruct ds as [|d0 ds].
    + exact Hreply.
    + vm_compute in Htrace. destruct ds; discriminate Htrace.
Defined.

Lemma transport_failure_policy_witness :
  (gen_next overloaded_remote 1
     (mwapi_query "https://wiki.example/api.php" 1%positive)
     caller_world).1.1
  = Raise (HTTPError 503).
Proof.
  refine (proj1 (transport_failure_policy overloaded_remote 1
                   (mwapi_query "https://wiki.example/api.php" 1%positive)
                   caller_world [] []
                   "https://wiki.example/api.php"
                   (base_params_of {[ "generator" := JStr "allpages" ]})
                   (HTTPError 503) _ _)).
  - vm_compute. reflexivity.
  - vm_compute. reflexivity.
Defined.

Lemma stored_from_reply_witness :
  ∃ value,
    w_store (handle_revision example_remote no_fault 10 example_wiki (PInt 5)
               (PInt 3) empty_world).2
      !! ("archive", "x/page_00000005/rev_00000003.yaml")
    = Some (YamlDump value) ∧
    ∃ result text,
      describes example_wiki (PInt 5) (PInt 3) value text result.
Proof.
  destruct (stored_from_reply example_remote no_fault 10 example_wiki
              (PInt 5) (PInt 3) empty_world)
    as (pre & post & d & status & j & result & value & text & _ & _ & _
        & Hdescribes & Hstored & _).
  - vm_compute. reflexivity.
  - simpl. lia.
  - vm_compute. reflexivity.
  - exists value. split; [exact Hstored|]. exists result, text.
    exact Hdescribes.
Defined.

Lemma example_describes (r : Z) (with_content : bool) :
  describes example_wiki (PInt 5) (PInt r) (example_metadata_of r)
    (if with_content then Some "text" else None)
    (example_query r with_content).
Proof.
  exists (JDict
            {[ "pageid" := JInt 5; "title" := JStr "Main Page";
               "fullurl" := JStr "https://wiki.example/Main_Page";
               "revisions" := JList [example_revision r with_content] ]}),
    (example_revision r with_content), (JInt r).
  repeat split; try (by destruct with_content; vm_compute).
  simpl. by apply bool_decide_eq_true_2.
Qed.

Lemma example_serves_revision (t : nat) (r : Z) :
  (∃ result text,
     answers example_remote t example_wiki
       (content_params example_wiki (PInt r)) result ∧
     describes example_wiki (PInt 5) (PInt r)
       (example_metadata_of r) (Some text) result) ∧
  (∃ result,
     answers example_remote t example_wiki
       (revision_params (PInt r)) result ∧
     describes example_wiki (PInt 5) (PInt r)
       (example_metadata_of r) None result).
Proof.
  split.
  - exists (example_query r true), "text". split.
    + exists 200, (ApiResponse None None (Some (example_query r true)) None).
      split; [by vm_compute|]. split; [lia|]. done.
    + apply (example_describes r true).
  - exists (example_query r false). split.
    + exists 200, (ApiResponse None None (Some (example_query r false)) None).
      split; [by vm_compute|]. split; [lia|]. done.
    + apply (example_describes r false).
Qed.

Lemma example_serves :
  serves example_remote example_wiki (PInt 5) example_chain.
Proof.
  intros t revid value Hin. unfold example_chain in Hin.
  repeat (apply elem_of_cons in Hin as [[= -> ->]|Hin];
          [by apply example_serves_revision|]).
  by apply elem_of_nil in Hin.
Qed.

Lemma example_serves_first :
  serves example_remote example_wiki (PInt 5)
    [(PInt 1, example_metadata_of 1)].
Proof.
  intros t revid value Hin.
  apply elem_of_cons in Hin as [[= -> ->]|Hin];
    [by apply example_serves_revision|].
  by apply elem_of_nil in Hin.
Qed.

Lemma example_chain_from :
  chain_from example_wiki (PInt 5) (w_store empty_world) (PInt 3)
    example_chain.
Proof.
  unfold example_chain.
  apply chain_parent with (parent := PInt 2); [done..|].
  apply chain_parent with (parent := PInt 1); [done..|].
  apply chain_parent with (parent := PInt 0); [done..|].
  by apply chain_root.
Qed.

Lemma served_chain_archived_witness :
  (handle_revision example_remote no_fault 4 example_wiki (PInt 5) (PInt 3)
     empty_world).1 = Ok ().
Proof.
  refine (proj1 (served_chain_archived example_remote no_fault 4 example_wiki
                   (PInt 5) (PInt 3) example_chain empty_world _ _ _ _)).
  - intros t. reflexivity.
  - exact example_chain_from.
  - exact example_serves.
  - simpl. lia.
Defined.

Lemma text_request_witness :
  ∃ evs,
    w_trace (handle_revision example_remote no_fault 2 example_wiki (PInt 5)
               (PInt 3) empty_world).2
    = w_trace empty_world ++
        EvHead "archive" "x/page_00000005/rev_00000003.yaml"
        :: EvHead "archive" "x/page_00000005/rev_00000003_data.gz"
        :: EvPost "https://wiki.example/api.php"
             (base_params_of (content_params example_wiki (PInt 3)))
        :: evs.
Proof.
  refine (proj1 (text_request example_remote no_fault 0 example_wiki (PInt 5)
                   (PInt 3) empty_world _ _ _ _ _)).
  - simpl. lia.
  - vm_compute. reflexivity.
  - vm_compute. reflexivity.
  - reflexivity.
  - reflexivity.
Defined.

Lemma reply_without_fragment_witness :
  (handle_revision bare_remote no_fault 2 example_wiki (PInt 5) (PInt 3)
     empty_world).1
  = Raise StopIteration.
Proof.
  refine (proj1 (reply_without_fragment bare_remote no_fault 0 example_wiki
                   (PInt 5) (PInt 3) empty_world 200
                   (ApiResponse None None None None) _ _ _ _ _ _ _ _ _ _)).
  - simpl. lia.
  - vm_compute. reflexivity.
  - reflexivity.
  - reflexivity.
  - reflexivity.
  - lia.
  - reflexivity.
  - reflexivity.
  - reflexivity.
  - reflexivity.
Defined.


Lemma fragment_pages_archived_witness :
  is_Some
    (w_store (handle_result example_remote no_fault key_order 10 example_wiki
                (example_query 3 false) empty_world).2
     !! ("archive", "x/page_00000005/rev_00000003.yaml")).
Proof.
  apply (fragment_pages_archived example_remote no_fault key_order 10
           example_wiki (example_query 3 false) empty_world
           {[ "5" := JDict
                {[ "pageid" := JInt 5; "title" := JStr "Main Page";
                   "fullurl" := JStr "https://wiki.example/Main_Page";
                   "revisions" := JList [example_revision 3 false] ]} ]}
           "5"
           (JDict
              {[ "pageid" := JInt 5; "title" := JStr "Main Page";
                 "fullurl" := JStr "https://wiki.example/Main_Page";
                 "revisions" := JList [example_revision 3 false] ]})
           (JInt 5) (example_revision 3 false) (JInt 3) (PInt 5) (PInt 3)).
  - vm_compute. reflexivity.
  - intros t m k v Hk. unfold key_order. apply elem_of_map_to_list. exact Hk.
  - vm_compute. reflexivity.
  - vm_compute. reflexivity.
  - vm_compute. reflexivity.
  - vm_compute. reflexivity.
  - vm_compute. reflexivity.
  - reflexivity.
  - reflexivity.
  - simpl. lia.
Defined.

Lemma single_fragment_loop_witness :
  ∃ h,
    for_each_fragment example_remote 2
      (mwapi_query "https://wiki.example/api.php" 1%positive)
      (λ _, mret ()) request_world
    = (Ok (),
       World h ∅
         [EvPost "https://wiki.example/api.php"
            (base_params_of (revision_params (PInt 3)))]).
Proof.
  destruct (single_fragment_loop example_remote 0
              "https://wiki.example/api.php" 1%positive
              (revision_params (PInt 3)) 200
              (ApiResponse None None (Some (example_query 3 false)) None)
              (example_query 3 false) (λ _, mret ()) request_world)
    as [h Hrun].
  - vm_compute. reflexivity.
  - vm_compute. reflexivity.
  - lia.
  - reflexivity.
  - reflexivity.
  - reflexivity.
  - reflexivity.
  - exists h. exact Hrun.
Defined.

(** ** The continuation and the stored text on the example wiki *)

Lemma continuation_resolution_witness :
  ("https://wiki.example/api.php"
   = gen_endpoint (mwapi_query "https://wiki.example/api.php" 1%positive) ∧
   <["apcontinue" := JStr "B"]>
     (base_params_of {[ "generator" := JStr "allpages" ]})
   = continuation_of paging_block
       ∪ gen_base (mwapi_query "https://wiki.example/api.php" 1%positive)
           caller_world) ∧
  ∃ evs,
    w_trace
      (gen_next chunked_remote 5
         (gen_next chunked_remote 5
            (mwapi_query "https://wiki.example/api.php" 1%positive)
            caller_world).1.2
         (gen_next chunked_remote 5
            (mwapi_query "https://wiki.example/api.php" 1%positive)
            caller_world).2).2
    = w_trace
        (gen_next chunked_remote 5
           (mwapi_query "https://wiki.example/api.php" 1%positive)
           caller_world).2
        ++ EvPost "https://wiki.example/api.php"
             (<["apcontinue" := JStr "B"]>
                (base_params_of {[ "generator" := JStr "allpages" ]}))
           :: evs.
Proof.
  split.
  - destruct (continuation_resolution paging_remote paging_block caller_world
                "https://wiki.example/api.php" 1%positive)
      as (continue_params & w' & _ & _ & _ & _ & _ & _ & Hfollow).
    apply (Hfollow 5%nat
             (mwapi_query "https://wiki.example/api.php" 1%positive)
             caller_world [] []
             "https://wiki.example/api.php" "https://wiki.example/api.php"
             (base_params_of {[ "generator" := JStr "allpages" ]})
             (<["apcontinue" := JStr "B"]>
                (base_params_of {[ "generator" := JStr "allpages" ]}))
             200 (ApiResponse None None None (Some paging_block))).
    + exact I.
    + vm_compute. reflexivity.
    + vm_compute. reflexivity.
    + reflexivity.
  - destruct (continuation_resolution chunked_remote paging_block
                caller_world "https://wiki.example/api.php" 1%positive)
      as (continue_params & w' & _ & _ & _ & _ & _ & Hresume & _).
    destruct (Hresume 4%nat
                (gen_next chunked_remote 5
                   (mwapi_query "https://wiki.example/api.php" 1%positive)
                   caller_world).1.2
                (gen_next chunked_remote 5
                   (mwapi_query "https://wiki.example/api.php" 1%positive)
                   caller_world).2
                2%positive
                (ApiResponse None None (Some (JDict ∅)) (Some paging_block)))
      as [evs Hevs].
    + vm_compute. reflexivity.
    + reflexivity.
    + vm_compute. eexists. reflexivity.
    + exists evs. rewrite Hevs. vm_compute. reflexivity.
Defined.

Lemma content_without_metadata_witness :
  (∃ evs,
     w_trace (handle_revision example_remote no_fault 3 example_wiki (PInt 5)
                (PInt 1) text_only_world).2
     = w_trace text_only_world ++
         EvHead "archive" "x/page_00000005/rev_00000001.yaml"
         :: EvHead "archive" "x/page_00000005/rev_00000001_data.gz"
         :: EvPost "https://wiki.example/api.php"
              (base_params_of
                 {[ "prop" := JStr "revisions|info";
                    "rvprop" := JStr "ids|user|timestamp|comment";
                    "inprop" := JStr "url";
                    "revids" := JInt 1 ]})
         :: evs) ∧
  (handle_revision example_remote no_fault 3 example_wiki (PInt 5) (PInt 1)
     text_only_world).1 = Ok () ∧
  w_store (handle_revision example_remote no_fault 3 example_wiki (PInt 5)
             (PInt 1) text_only_world).2
    !! ("archive", "x/page_00000005/rev_00000001.yaml")
  = Some (YamlDump (example_metadata_of 1)) ∧
  w_store (handle_revision example_remote no_fault 3 example_wiki (PInt 5)
             (PInt 1) text_only_world).2
    !! ("archive", "x/page_00000005/rev_00000001_data.gz")
  = Some (Gzip "text").
Proof.
  destruct (content_without_metadata example_remote no_fault 1 example_wiki
              (PInt 5) (PInt 1) text_only_world)
    as (Hrequest & _ & _ & Hreturns).
  - simpl. lia.
  - vm_compute. reflexivity.
  - vm_compute. eexists. reflexivity.
  - reflexivity.
  - reflexivity.
  - split; [exact Hrequest|].
    destruct (Hreturns [(PInt 1, example_metadata_of 1)])
      as (Hok & value & rest & Hchain & Hmeta & Htext).
    + intros t. reflexivity.
    + apply chain_parent with (parent := PInt 0); [done..|].
      by apply chain_root.
    + exact example_serves_first.
    + simpl. lia.
    + injection Hchain as <- <-.
      split; [exact Hok|]. split; [exact Hmeta|]. exact Htext.
Defined.
